(** * fink-broker, [bin/index_archival.py]: the index builder

    A shallow embedding of the script that reads one night of aggregated
    alerts, derives one secondary index view and pushes it to HBase, and
    the properties of its branch dispatch, row keys and filters.

    The script is glue over a dataframe engine.  The engine's operations
    the script calls ([select], [filter], [withColumn], [drop],
    [concat_ws], [arrays_zip], [explode], ...) are embedded as functions
    on a small dataframe model; the collaborators whose code is not part
    of the script (the HEALPix projection, the classifier, the sky
    matcher, the portal's column lists, ...) are fields of one record,
    [Collaborators], over which every definition is parameterised. *)

From Stdlib Require Import String Ascii List ZArith Bool Lia Arith.
From Stdlib Require Import DecimalString Floats Permutation.
Import ListNotations.

Set Warnings "-register-all".

Local Open Scope string_scope.
Local Open Scope list_scope.

(** ** Python strings *)

(** A Python string is embedded as a Rocq string, character by
    character: the model holds the texts whose characters have code
    points below 256, and an identifier with other characters is outside
    it. *)

Module Py.

(** [s.startswith(p)]. *)
Definition startswith (s p : string) : bool := String.prefix p s.

(** [sub in s]. *)
Fixpoint contains (sub s : string) : bool :=
  String.prefix sub s
  || match s with
     | EmptyString => false
     | String _ s' => contains sub s'
     end.

(** [s.split(sep)] for a non-empty separator: scan from the left, cut at
    every occurrence of [sep] and resume after it.  [skip] counts the
    characters of a matched separator still to be passed over, [cur] is
    the token read so far. *)
Fixpoint split_go (sep : string) (skip : nat) (cur s : string) : list string :=
  match s with
  | EmptyString => [cur]
  | String c s' =>
      match skip with
      | S k => split_go sep k cur s'
      | O =>
          if String.prefix sep s
          then cur :: split_go sep (String.length sep - 1) EmptyString s'
          else split_go sep O (cur ++ String c EmptyString)%string s'
      end
  end.

Definition split (sep s : string) : list string := split_go sep 0 EmptyString s.

(** ['_'.join(l)]. *)
Definition join (sep : string) (l : list string) : string := String.concat sep l.

(** Exceptions the script can die of. *)
Inductive exn : Set :=
| ValueError          (* int() on a token without digits *)
| IndexError          (* indexing past the end *)
| KeyError            (* a missing environment variable *)
| OSError             (* a file that cannot be read *)
| AnalysisException   (* the engine cannot resolve a column *)
| Py4JError           (* py4j cannot hand a value to the engine *)
| ExternalError.      (* a collaborator gave up *)

Inductive result (A : Type) : Type :=
| Ok (a : A)
| Raise (e : exn).
Arguments Ok {A} a.
Arguments Raise {A} e.

Definition bind {A B : Type} (m : result A) (f : A -> result B) : result B :=
  match m with
  | Ok a => f a
  | Raise e => Raise e
  end.

(** White space [int()] strips: tab to carriage return, the space, and
    of the characters beyond ASCII the next-line and no-break-space
    characters.  (The separators 28 to 31 are no white space to
    [int()].) *)
Definition isspace (c : ascii) : bool :=
  let n := nat_of_ascii c in
  (((9 <=? n) && (n <=? 13)) || (n =? 32) || (n =? 133) || (n =? 160))%nat.


(** [s.isascii()]. *)
Definition isascii (s : string) : bool :=
  forallb (fun c => (nat_of_ascii c <? 128)%nat) (list_ascii_of_string s).

(** Lower case of the ASCII letters. *)
Definition lower (s : string) : string :=
  string_of_list_ascii
    (map (fun c => let n := nat_of_ascii c in
                   if ((65 <=? n) && (n <=? 90))%nat then ascii_of_nat (n + 32) else c)
         (list_ascii_of_string s)).

Fixpoint lstrip (s : string) : string :=
  match s with
  | String c s' => if isspace c then lstrip s' else s
  | EmptyString => EmptyString
  end.

Fixpoint rstrip (s : string) : string :=
  match s with
  | String c s' =>
      match rstrip s' with
      | EmptyString => if isspace c then EmptyString else String c EmptyString
      | t => String c t
      end
  | EmptyString => EmptyString
  end.

Definition digits (s : string) : result Z :=
  match s with
  | EmptyString => Raise ValueError
  | _ =>
      match NilEmpty.uint_of_string s with
      | Some d => Ok (Z.of_uint d)
      | None => Raise ValueError
      end
  end.

(** [int(s)]: surrounding white space, an optional sign, then at least
    one decimal digit.  (Tokens never hold an underscore, so Python's
    digit-group separator cannot occur.  Python versions from 3.11 on
    refuse a numeral of more than 4300 digits, which this definition
    reads.) *)
Definition int (s : string) : result Z :=
  match rstrip (lstrip s) with
  | String "+"%char d => digits d
  | String "-"%char d => bind (digits d) (fun z => Ok (- z)%Z)
  | t => digits t
  end.

(** [l[i]]. *)
Definition getitem {A : Type} (l : list A) (i : nat) : result A :=
  match nth_error l i with
  | Some a => Ok a
  | None => Raise IndexError
  end.

End Py.

Import Py (exn (..), result (..), bind).

Declare Scope result_scope.
Delimit Scope result_scope with result.
Notation "x <- m ;; k" := (bind m (fun x => k))
  (at level 61, m at next level, right associativity) : result_scope.
Local Open Scope result_scope.

(** ** Values, rows and dataframes *)

(** A cell of a dataframe.  Doubles are IEEE binary64, as in the engine and
    in numpy. *)
Inductive value : Type :=
| VNull
| VBool (b : bool)
| VLong (z : Z)
| VDouble (d : float)
| VStr (s : string)
| VArr (l : list value)
| VStruct (fields : list (string * value)).

(** A row pairs each column name with its cell, in column order; a
    dataframe keeps its column names beside its rows, so that a column can
    be resolved when there is no row. *)
Definition Row : Type := list (string * value).

Record DataFrame : Type := {
  columns : list string;
  rows : list Row
}.

Fixpoint lookup (name : string) (r : Row) : value :=
  match r with
  | [] => VNull
  | (k, v) :: r' => if String.eqb k name then v else lookup name r'
  end.

(** A field of a struct, or of every struct of an array ([tmp.jd],
    [prv_candidates.jd]). *)
Definition get_field (name : string) (v : value) : value :=
  match v with
  | VStruct fs => lookup name fs
  | VArr l =>
      VArr (map (fun e => match e with
                          | VStruct fs => lookup name fs
                          | _ => VNull
                          end) l)
  | _ => VNull
  end.

Definition is_null (v : value) : bool :=
  match v with
  | VNull => true
  | _ => false
  end.

(** One entry of the TNS catalogue: the three columns the script reads;
    [tns_type = None] is a missing (NaN) type. *)
Record tns_entry : Type := {
  tns_ra : value;
  tns_declination : value;
  tns_type : option string
}.

(** What the script hands to [push_to_hbase]. *)
Record PushCall : Type := {
  push_df : DataFrame;
  push_table_name : string;
  push_rowkeyname : string;
  push_cf : list (string * string);
  push_catfolder : string
}.

(** The command line ([getargs]). *)
Record Args : Type := {
  night : string;
  index_table : string;
  agg_data_prefix : string;
  science_db_name : string;
  science_db_catalogs : string;
  tns_folder : string;
  log_level : string
}.

(** A position on the sky, as the two cells it is read from. *)
Definition coord : Type := (value * value)%type.

(** The code this script calls and does not contain. *)
Record Collaborators : Type := {
  (* the engine's cast of a double to a string *)
  show_double : float -> string;
  (* fink_broker.sparkUtils.load_parquet_files(path) *)
  load_parquet_files : string -> result DataFrame;
  (* fink_broker.hbaseUtils.load_science_portal_column_names() *)
  load_science_portal_column_names : list string * list string * list string;
  (* fink_broker.hbaseUtils.assign_column_family_names(df, cols_i, cols_d, cols_b) *)
  assign_column_family_names :
    DataFrame -> list string -> list string -> list string -> list (string * string);
  (* fink_broker.hbaseUtils.attach_rowkey(df), its first component *)
  attach_rowkey : DataFrame -> result DataFrame;
  (* fink_broker.science.ang2pix(ra, dec, nside), row by row *)
  ang2pix : value -> value -> value -> value;
  (* fink_filters.classification.extract_fink_classification, row by row *)
  extract_fink_classification : list value -> value;
  (* open(path).read() *)
  read_file : string -> result string;
  (* os.environ *)
  environ : string -> option string;
  (* fink_tns.utils.download_catalog(api_key, tns_marker) *)
  download_catalog : string -> string -> result (list tns_entry);
  (* SkyCoord.match_to_catalog_sky, with the construction of the two
     SkyCoord catalogues from their ra and dec cells: for each position
     of the first catalogue, the index of the nearest position of the
     second and the separation in degrees (idx, d2d.degree) *)
  match_to_catalog_sky : list coord -> list coord -> result (list (nat * float));
  (* the sizes of the consecutive Arrow batches the engine feeds to a
     pandas UDF; rows beyond them form one last batch *)
  arrow_batches : list nat
}.

(** ** Column expressions ([pyspark.sql.functions]) *)

(** A column expression is embedded by its output name, the names it must
    resolve in the dataframe it is applied to, and its value on a row. *)
Record Column : Type := {
  c_name : string;
  c_refs : list string;
  c_eval : Row -> value
}.

Module F.

Section WithCollaborators.

Variable E : Collaborators.

(** The cast to string [concat_ws] applies to a cell; null has none. *)
Definition cast_string (v : value) : option string :=
  match v with
  | VNull => None
  | VBool b => Some (if b then "true" else "false")
  | VLong z => Some (NilZero.string_of_int (Z.to_int z))
  | VDouble d => Some (show_double E d)
  | VStr s => Some s
  | VArr _ => None
  | VStruct _ => None
  end.

Definition option_list {A : Type} (o : option A) : list A :=
  match o with
  | Some a => [a]
  | None => []
  end.

(** The strings a cell contributes to [concat_ws]: none when it is null,
    the elements when it is an array (null elements skipped), else its
    cast.  (The engine takes string columns and arrays of strings; a
    struct is outside the model and contributes nothing.) *)
Definition render (v : value) : list string :=
  match v with
  | VArr l => flat_map (fun e => option_list (cast_string e)) l
  | _ => option_list (cast_string v)
  end.

(** [concat_ws] of a separator and columns: null cells are skipped, never a null result. *)
Definition concat_ws (sep : string) (cs : list Column) : Column :=
  {| c_name := "concat_ws";
     c_refs := flat_map c_refs cs;
     c_eval := fun r =>
       VStr (Py.join sep (flat_map (fun c => render (c_eval c r)) cs)) |}.

End WithCollaborators.

(** [col(name)], also a column given by its name, and [df[name]]. *)
Definition col (name : string) : Column :=
  {| c_name := name; c_refs := [name]; c_eval := lookup name |}.

(** [col("base.field")]. *)
Definition field (base name : string) : Column :=
  {| c_name := name;
     c_refs := [base];
     c_eval := fun r => get_field name (lookup base r) |}.

Definition lit (v : value) : Column :=
  {| c_name := "lit"; c_refs := []; c_eval := fun _ => v |}.

(** [lit(n)] of a Python integer: py4j hands the engine a Java int or
    long, and gives up on an integer that does not fit 64 bits. *)
Definition lit_int (n : Z) : result Column :=
  if ((- 2 ^ 63 <=? n) && (n <? 2 ^ 63))%Z
  then Ok (lit (VLong n))
  else Raise Py4JError.

(** [c.alias(name)]. *)
Definition alias (c : Column) (name : string) : Column :=
  {| c_name := name; c_refs := c_refs c; c_eval := c_eval c |}.

(** A row-wise UDF applied to columns. *)
Definition udf (f : list value -> value) (args : list Column) : Column :=
  {| c_name := "udf";
     c_refs := flat_map c_refs args;
     c_eval := fun r => f (map (fun c => c_eval c r) args) |}.

(** [c == n] for an integer literal, on an integer column, as [roid] is
    in the alert schema: null compares to null.  (A column of another
    type is outside the model; its cells are compared as null.) *)
Definition eq_long (c : Column) (n : Z) : Column :=
  {| c_name := "eq";
     c_refs := c_refs c;
     c_eval := fun r =>
       match c_eval c r with
       | VLong z => VBool (Z.eqb z n)
       | _ => VNull
       end |}.

(** [c != s] for a string literal, on a string column, as [tracklet]
    is in the alert schema: null compares to null.  (A column of another
    type is outside the model; its cells are compared as null.) *)
Definition neq_str (c : Column) (s : string) : Column :=
  {| c_name := "neq";
     c_refs := c_refs c;
     c_eval := fun r =>
       match c_eval c r with
       | VStr t => VBool (negb (String.eqb t s))
       | _ => VNull
       end |}.

(** [c.isNotNull()]. *)
Definition isNotNull (c : Column) : Column :=
  {| c_name := "isnotnull";
     c_refs := c_refs c;
     c_eval := fun r => VBool (negb (is_null (c_eval c r))) |}.

(** [~c]. *)
Definition invert (c : Column) : Column :=
  {| c_name := "not";
     c_refs := c_refs c;
     c_eval := fun r =>
       match c_eval c r with
       | VBool b => VBool (negb b)
       | _ => VNull
       end |}.

Definition as_array (v : value) : option (list value) :=
  match v with
  | VArr l => Some l
  | _ => None
  end.

Fixpoint all_some {A : Type} (l : list (option A)) : option (list A) :=
  match l with
  | [] => Some []
  | None :: _ => None
  | Some a :: l' => option_map (cons a) (all_some l')
  end.

(** [arrays_zip] of the named columns: null when one of the arrays is null, else one
    struct per position up to the longest array, the shorter arrays
    padded with null; the fields carry the columns' names. *)
Definition arrays_zip (names : list string) : Column :=
  {| c_name := "arrays_zip";
     c_refs := names;
     c_eval := fun r =>
       match all_some (map (fun n => as_array (lookup n r)) names) with
       | None => VNull
       | Some arrs =>
           let len := fold_right Nat.max 0 (map (@List.length value) arrs) in
           VArr (map (fun i =>
                        VStruct (map (fun na => (fst na, nth i (snd na) VNull))
                                     (combine names arrs)))
                     (seq 0 len))
       end |}.

End F.

(** ** Dataframe operations *)

Module DF.

(** A name resolves when exactly one column carries it; none is an
    unknown column, several an ambiguous reference.  Names are matched
    exactly, as the engine does when it is case sensitive. *)
Definition resolves (df : DataFrame) (name : string) : bool :=
  Nat.eqb (count_occ string_dec (columns df) name) 1.

(** Two ASCII names the engine takes for one when it is not case
    sensitive, which is its default. *)
Definition same_name (a b : string) : bool :=
  String.eqb (Py.lower a) (Py.lower b).

(** The dataframes on which a name resolves the same way under both
    settings: every column is this very name, or an ASCII name that
    differs from it in more than case. *)
Definition exact_case (df : DataFrame) (name : string) : bool :=
  forallb (fun c => String.eqb c name || (Py.isascii c && negb (same_name c name)))
          (columns df).

(** The analysis every transformation starts with. *)
Definition analyse (df : DataFrame) (cs : list Column) : result unit :=
  if forallb (fun c => forallb (resolves df) (c_refs c)) cs
  then Ok tt
  else Raise AnalysisException.

(** What the analysis sees of a dataframe: its columns, no row. *)
Definition schema (df : DataFrame) : DataFrame :=
  {| columns := columns df; rows := [] |}.

(** [df[name]]: the column is resolved on the spot. *)
Definition getitem (df : DataFrame) (name : string) : result Column :=
  _ <- analyse df [F.col name] ;;
  Ok (F.col name).

(** [df.select] of a list of columns. *)
Definition select (cs : list Column) (df : DataFrame) : result DataFrame :=
  _ <- analyse df cs ;;
  Ok {| columns := map c_name cs;
        rows := map (fun r => map (fun c => (c_name c, c_eval c r)) cs) (rows df) |}.

(** A row passes a filter when the condition is true; false and null
    both drop it. *)
Definition truth (v : value) : bool :=
  match v with
  | VBool true => true
  | _ => false
  end.

(** [df.filter(c)]. *)
Definition filter (c : Column) (df : DataFrame) : result DataFrame :=
  _ <- analyse df [c] ;;
  Ok {| columns := columns df;
        rows := List.filter (fun r => truth (c_eval c r)) (rows df) |}.

Definition set_name (name : string) (cols : list string) : list string :=
  if existsb (String.eqb name) cols then cols else cols ++ [name].

Definition set_cell (name : string) (v : value) (r : Row) : Row :=
  if existsb (String.eqb name) (map fst r)
  then map (fun kv => if String.eqb (fst kv) name then (name, v) else kv) r
  else r ++ [(name, v)].

(** [df.withColumn(name, c)]: replaces the column of that name, or
    appends one. *)
Definition withColumn (name : string) (c : Column) (df : DataFrame) : result DataFrame :=
  _ <- analyse df [c] ;;
  Ok {| columns := set_name name (columns df);
        rows := map (fun r => set_cell name (c_eval c r) r) (rows df) |}.

(** [df.withColumn(name, explode(src))]: one row per element of the
    array; a null or empty array gives no row. *)
Definition withColumn_explode (name src : string) (df : DataFrame) : result DataFrame :=
  _ <- analyse df [F.col src] ;;
  Ok {| columns := set_name name (columns df);
        rows := flat_map (fun r =>
                  match lookup src r with
                  | VArr l => map (fun e => set_cell name e r) l
                  | _ => []
                  end) (rows df) |}.

Definition dropped (names : list string) (n : string) : bool :=
  existsb (String.eqb n) names.

(** [df.drop] of some names: a name that is no column is ignored. *)
Definition drop (names : list string) (df : DataFrame) : DataFrame :=
  {| columns := List.filter (fun n => negb (dropped names n)) (columns df);
     rows := map (List.filter (fun kv : string * value => negb (dropped names (fst kv))))
                 (rows df) |}.

(** Consecutive batches of the given sizes; what is left forms the last. *)
Fixpoint chunk {A : Type} (sizes : list nat) (l : list A) : list (list A) :=
  match l with
  | [] => []
  | _ :: _ =>
      match sizes with
      | [] => [l]
      | n :: sizes' => firstn n l :: chunk sizes' (skipn n l)
      end
  end.

Fixpoint mapM {A B : Type} (f : A -> result B) (l : list A) : result (list B) :=
  match l with
  | [] => Ok []
  | a :: l' => b <- f a ;; bs <- mapM f l' ;; Ok (b :: bs)
  end.

(** [df.withColumn(name, f(a, b, c))] for a scalar pandas UDF of three
    columns: the engine calls [f] once per batch with the three series
    and refuses a result of another length. *)
Definition withColumn_pandas_udf (E : Collaborators) (name : string)
    (f : list value -> list value -> list value -> result (list value))
    (a b c : Column) (df : DataFrame) : result DataFrame :=
  _ <- analyse df [a; b; c] ;;
  outs <- mapM (fun batch =>
            out <- f (map (c_eval a) batch) (map (c_eval b) batch) (map (c_eval c) batch) ;;
            if Nat.eqb (List.length out) (List.length batch)
            then Ok (combine batch out)
            else Raise ExternalError)
          (chunk (arrow_batches E) (rows df)) ;;
  Ok {| columns := set_name name (columns df);
        rows := map (fun ro => set_cell name (snd ro) (fst ro)) (concat outs) |}.

End DF.

(** ** The script *)

Section Script.

Variable E : Collaborators.

(** The projection shared by most index kinds. *)
Definition common_cols : list string :=
  [ "objectId"; "candid"; "publisher"; "rcid"; "chipsf"; "distnr";
    "ra"; "dec"; "jd"; "fid"; "nid"; "field"; "xpos"; "ypos"; "rb";
    "ssdistnr"; "ssmagnr"; "ssnamenr"; "jdstarthist"; "jdendhist"; "tooflag";
    "sgscore1"; "distpsnr1"; "neargaia"; "maggaia"; "nmtchps"; "diffmaglim";
    "magpsf"; "sigmapsf"; "magnr"; "sigmagnr"; "magzpsci"; "isdiffpos";
    "cdsxmatch";
    "roid";
    "mulens";
    "DR3Name";
    "Plx";
    "e_Plx";
    "gcvs";
    "vsx";
    "snn_snia_vs_nonia"; "snn_sn_vs_all"; "rf_snia_vs_nonia";
    "classtar"; "drb"; "ndethist"; "rf_kn_vs_nonkn"; "tracklet" ].

(** The columns handed to [extract_fink_classification], in call order. *)
Definition classification_inputs : list string :=
  [ "cdsxmatch"; "roid"; "mulens"; "snn_snia_vs_nonia"; "snn_sn_vs_all";
    "rf_snia_vs_nonia"; "ndethist"; "drb"; "classtar"; "jd"; "jdstarthist";
    "rf_kn_vs_nonkn"; "tracklet" ].

(** The columns kept when the identifier holds ['upper']. *)
Definition history_cols : list Column :=
  [ F.col "objectId";
    F.field "prv_candidates" "jd";
    F.field "prv_candidates" "fid";
    F.field "prv_candidates" "magpsf";
    F.field "prv_candidates" "sigmapsf";
    F.field "prv_candidates" "diffmaglim" ].

(** Lines 90-101: restrict the input to the wanted columns. *)
Definition restrict_columns (index_table : string)
    (cols_i cols_d cols_b : list string) (df : DataFrame) : result DataFrame :=
  if Py.contains "upper" index_table
  then DF.select history_cols df
  else DF.select (map F.col (cols_i ++ cols_d ++ cols_b)) df.

(** [concat_ws('_', *names).alias(index_row_key_name)]. *)
Definition rowkey_column (names : list Column) (index_row_key_name : string) : Column :=
  F.alias (F.concat_ws E "_" names) index_row_key_name.

(** Lines 187-190 and 209-212, the same in both branches: one row per
    entry of the history arrays, the entry in column [tmp]. *)
Definition exploded_rows (df : DataFrame) : result DataFrame :=
  df1 <- DF.withColumn "tmp"
           (F.arrays_zip ["magpsf"; "sigmapsf"; "diffmaglim"; "jd"; "fid"]) df ;;
  DF.withColumn_explode "tmp" "tmp" df1.

(** The key of the two exploded kinds: [concat_ws('_', 'objectId', 'tmp.jd')]. *)
Definition history_key : list Column := [F.col "objectId"; F.field "tmp" "jd"].

(** Lines 190-198 and 212-220: [df_ex]. *)
Definition explode_history (index_row_key_name : string) (df : DataFrame)
    : result DataFrame :=
  df2 <- exploded_rows df ;;
  DF.select
    [ rowkey_column history_key index_row_key_name;
      F.col "objectId";
      F.field "tmp" "jd";
      F.field "tmp" "fid";
      F.field "tmp" "magpsf";
      F.field "tmp" "sigmapsf";
      F.field "tmp" "diffmaglim" ] df2.

(** [x in values] on an object array: Python equality, under which
    [None] equals [None]. *)
Definition py_eq (x y : value) : bool :=
  match x, y with
  | VStr a, VStr b => String.eqb a b
  | VNull, VNull => true
  | _, _ => false
  end.

(** [series == x]: element-wise, a missing value equal to nothing. *)
Definition pandas_eq (x y : value) : bool :=
  match x, y with
  | VStr a, VStr b => String.eqb a b
  | _, _ => false
  end.

Definition label (t : option string) : value :=
  match t with
  | Some s => VStr s
  | None => VNull
  end.

(** Lines 236-275: the pandas UDF of the [tns] branch, on one batch. *)
Definition crossmatch_with_tns (pdf : list tns_entry)
    (objectid ra dec : list value) : result (list value) :=
  let ra2 := map tns_ra pdf in
  let dec2 := map tns_declination pdf in
  let type2 := map tns_type pdf in
  let catalog_ztf := combine ra dec in
  let catalog_tns := combine ra2 dec2 in
  _ <- match_to_catalog_sky E catalog_tns catalog_ztf ;;
  match2 <- match_to_catalog_sky E catalog_ztf catalog_tns ;;
  let idx2 := map fst match2 in
  let d2d2 := map snd match2 in
  let sep_constraint2 := map (fun d => (d <? 1.5 / 3600)%float) d2d2 in
  _ <- (if Nat.eqb (List.length sep_constraint2) (List.length objectid)
        then Ok tt else Raise IndexError) ;;
  tns <- DF.mapM (fun im : nat * bool =>
                    if snd im
                    then t <- Py.getitem type2 (fst im) ;; Ok (label t)
                    else Ok (VStr ""))
                 (combine idx2 sep_constraint2) ;;
  let sub_pdf := combine objectid tns in
  DF.mapM (fun x =>
             if negb (existsb (py_eq x) (map fst sub_pdf))
             then Ok (VStr "")
             else Py.getitem
                    (map snd (List.filter (fun ot => pandas_eq (fst ot) x) sub_pdf)) 0)
          objectid.

Definition remove_newlines (s : string) : string :=
  string_of_list_ascii
    (List.filter (fun c => negb (Ascii.eqb c "010")) (list_ascii_of_string s)).

(** The branch that runs (lines 124, 139, 162, 171, 182, 204, 224, 293). *)
Inductive branch : Set :=
| Pixel | Class | Ssnamenr | Tracklet | Upper | Uppervalid | Tns | Default.

Definition dispatch (column0 : string) : branch :=
  if Py.startswith column0 "pixel" then Pixel
  else if String.eqb column0 "class" then Class
  else if String.eqb column0 "ssnamenr" then Ssnamenr
  else if String.eqb column0 "tracklet" then Tracklet
  else if String.eqb column0 "upper" then Upper
  else if String.eqb column0 "uppervalid" then Uppervalid
  else if String.eqb column0 "tns" then Tns
  else Default.

(** [columns[0]]. *)
Definition first_token (index_table : string) : string :=
  hd EmptyString (Py.split "_" index_table).

(** Lines 125-133: the pixel column, named after the first token.  The
    arguments of [ang2pix] are evaluated from left to right, before the
    column is attached. *)
Definition pixel_rows (column0 : string) (df : DataFrame) : result DataFrame :=
  digits <- Py.getitem (Py.split "pixel" column0) 1 ;;
  nside <- Py.int digits ;;
  ra <- DF.getitem df "ra" ;;
  dec <- DF.getitem df "dec" ;;
  level <- F.lit_int nside ;;
  DF.withColumn column0
    (F.udf (fun a => ang2pix E (nth 0 a VNull) (nth 1 a VNull) (nth 2 a VNull))
           [ra; dec; level]) df.

(** Lines 140-156: the classification column. *)
Definition class_rows (df : DataFrame) : result DataFrame :=
  DF.withColumn "class"
    (F.udf (extract_fink_classification E) (map F.col classification_inputs)) df.

(** Lines 164-165. *)
Definition ssnamenr_rows (df : DataFrame) : result DataFrame :=
  DF.filter (F.eq_long (F.col "roid") 3) df.

(** Lines 174-176. *)
Definition tracklet_rows (df : DataFrame) : result DataFrame :=
  df1 <- DF.filter (F.neq_str (F.col "tracklet") "null") df ;;
  DF.filter (F.neq_str (F.col "tracklet") "") df1.

(** Lines 225-232: the downloaded catalogue, without the entries of
    missing type. *)
Definition tns_catalogue (args : Args) : result (list tns_entry) :=
  text <- read_file E (tns_folder args ++ "/tns_marker.txt")%string ;;
  let tns_marker := remove_newlines text in
  api_key <- match environ E "TNS_API_KEY" with
             | Some k => Ok k
             | None => Raise KeyError
             end ;;
  pdf_tns <- download_catalog E api_key tns_marker ;;
  Ok (List.filter (fun e => match tns_type e with Some _ => true | None => false end)
                  pdf_tns).

(** Lines 277-283: the label column, for a catalogue. *)
Definition tns_labels (pdf_tns_filt : list tns_entry) (df : DataFrame)
    : result DataFrame :=
  DF.withColumn_pandas_udf E "tns" (crossmatch_with_tns pdf_tns_filt)
    (F.col "objectId") (F.col "ra") (F.col "dec") df.

(** Lines 225-283: the catalogue and the label column. *)
Definition tns_rows (args : Args) (df : DataFrame) : result DataFrame :=
  pdf_tns_filt <- tns_catalogue args ;;
  tns_labels pdf_tns_filt df.

(** Lines 124-298, one branch: the index view and the name of its
    row-key column.  The engine analyses a transformation where it is
    written and computes rows when they are asked for; only in the [tns]
    branch can the computation itself fail, in the pandas UDF. *)
Definition run_branch (b : branch) (args : Args) (columns : list string)
    (column0 : string) (df : DataFrame) : result (DataFrame * string) :=
  let index_row_key_name := index_table args in
  let names := map F.col columns in
  match b with
  | Pixel =>
      df1 <- pixel_rows column0 df ;;
      df_index <- DF.select (rowkey_column names index_row_key_name
                               :: [F.col "objectId"]) df1 ;;
      Ok (df_index, index_row_key_name)
  | Class =>
      df1 <- class_rows df ;;
      df_index <- DF.select (rowkey_column names index_row_key_name
                               :: map F.col common_cols) df1 ;;
      Ok (df_index, index_row_key_name)
  | Ssnamenr =>
      df1 <- ssnamenr_rows df ;;
      df_index <- DF.select (rowkey_column names index_row_key_name
                               :: map F.col common_cols) df1 ;;
      Ok (df_index, index_row_key_name)
  | Tracklet =>
      df1 <- tracklet_rows df ;;
      df_index <- DF.select (rowkey_column names index_row_key_name
                               :: map F.col common_cols) df1 ;;
      Ok (df_index, index_row_key_name)
  | Upper =>
      let index_row_key_name := "objectId_jd" in
      df_ex <- explode_history index_row_key_name df ;;
      df_index <- DF.filter (F.invert (F.isNotNull (F.col "magpsf"))) df_ex ;;
      let df_index := DF.drop ["magpsf"; "sigmapsf"] df_index in
      Ok (df_index, index_row_key_name)
  | Uppervalid =>
      let index_row_key_name := "objectId_jd" in
      df_ex <- explode_history index_row_key_name df ;;
      df_index <- DF.filter (F.isNotNull (F.col "magpsf")) df_ex ;;
      Ok (df_index, index_row_key_name)
  | Tns =>
      pdf_tns_filt <- tns_catalogue args ;;
      let view (d : DataFrame) : result DataFrame :=
        df1 <- tns_labels pdf_tns_filt d ;;
        df2 <- DF.select (rowkey_column names index_row_key_name
                            :: map F.col common_cols ++ [F.col "tns"]) df1 ;;
        df3 <- DF.filter (F.neq_str (F.col "tns") "") df2 ;;
        Ok (DF.drop ["tns"] df3) in
      (* lines 277-289 are analysed where they are written, on the
         columns alone *)
      _ <- view (DF.schema df) ;;
      (* line 291: the count runs them, and the UDF with them *)
      df_index <- view df ;;
      Ok (df_index, index_row_key_name)
  | Default =>
      df_index <- DF.select (rowkey_column names index_row_key_name
                               :: map F.col common_cols) df ;;
      Ok (df_index, index_row_key_name)
  end.

(** Lines 76-78 and 124-298: the tokens, and the branch their first
    selects. *)
Definition build_index (args : Args) (df : DataFrame) : result (DataFrame * string) :=
  let columns := Py.split "_" (index_table args) in
  column0 <- Py.getitem columns 0 ;;
  run_branch (dispatch column0) args columns column0 df.

(** The dataframe the row key is computed on in each branch, and the
    columns [concat_ws] joins there. *)
Definition keyed (args : Args) (df : DataFrame) : result (DataFrame * list Column) :=
  let columns := Py.split "_" (index_table args) in
  let names := map F.col columns in
  column0 <- Py.getitem columns 0 ;;
  match dispatch column0 with
  | Pixel => df1 <- pixel_rows column0 df ;; Ok (df1, names)
  | Class => df1 <- class_rows df ;; Ok (df1, names)
  | Ssnamenr => df1 <- ssnamenr_rows df ;; Ok (df1, names)
  | Tracklet => df1 <- tracklet_rows df ;; Ok (df1, names)
  | Upper => df2 <- exploded_rows df ;; Ok (df2, history_key)
  | Uppervalid => df2 <- exploded_rows df ;; Ok (df2, history_key)
  | Tns => df1 <- tns_rows args df ;; Ok (df1, names)
  | Default => Ok (df, names)
  end.

(** The strings [concat_ws] joins for a row: the casts of the non-null
    key cells, in order. *)
Definition key_pieces (cols : list Column) (r : Row) : list string :=
  flat_map (fun c => F.render E (c_eval c r)) cols.

(** The string [concat_ws('_', ...)] gives a row from the columns named
    by [tokens]. *)
Definition key_of (tokens : list string) (r : Row) : string :=
  Py.join "_" (flat_map (fun t => F.render E (lookup t r)) tokens).

(** The cells a [select] of named columns keeps of a row. *)
Definition project (cols : list string) (r : Row) : Row :=
  map (fun c => (c, lookup c r)) cols.

(** Lines 66-104: load the night and prepare the dataframe the branches
    work on, with the column families computed on the way. *)
Definition prepare (args : Args) : result (DataFrame * list (string * string)) :=
  let path :=
    (agg_data_prefix args ++ "/science/year=" ++ String.substring 0 4 (night args)
       ++ "/month=" ++ String.substring 4 2 (night args)
       ++ "/day=" ++ String.substring 6 2 (night args))%string in
  df <- load_parquet_files E path ;;
  let df := DF.drop ["day"] (DF.drop ["month"] (DF.drop ["year"] df)) in
  let '(cols_i, cols_d, cols_b) := load_science_portal_column_names E in
  let cf := assign_column_family_names E df cols_i cols_d cols_b in
  df <- restrict_columns (index_table args) cols_i cols_d cols_b df ;;
  df <- attach_rowkey E df ;;
  Ok (df, cf).

(** [main]: what is pushed, or the exception the job dies of. *)
Definition main (args : Args) : result PushCall :=
  p <- prepare args ;;
  column0 <- Py.getitem (Py.split "_" (index_table args)) 0 ;;
  let index_name := ("." ++ column0)%string in
  ix <- build_index args (fst p) ;;
  Ok {| push_df := fst ix;
        push_table_name := (science_db_name args ++ index_name)%string;
        push_rowkeyname := snd ix;
        push_cf := snd p;
        push_catfolder := science_db_catalogs args |}.

End Script.

(** ** A small night, for running the script *)

Module Demo.

(** Stand-ins for the collaborators.  The cast of a double is tabulated
    on the doubles the demo uses. *)
Definition show (d : float) : string :=
  if (d =? 2459000.5)%float then "2459000.5"
  else if (d =? 2459001.5)%float then "2459001.5"
  else if (d =? 10)%float then "10.0"
  else if (d =? 20)%float then "20.0"
  else "NaN".

(** A stand-in for the HEALPix projection: one pixel for the position
    (10, 20) at nside 128, null elsewhere. *)
Definition pixel (ra dec nside : value) : value :=
  match ra, dec, nside with
  | VDouble a, VDouble d, VLong 128 =>
      if ((a =? 10) && (d =? 20))%float then VLong 64270 else VNull
  | _, _, _ => VNull
  end.

(** A stand-in for the classifier: solar-system objects by their flag,
    the cross-match label otherwise. *)
Definition classify (inputs : list value) : value :=
  match nth 1 inputs VNull with
  | VLong 3 => VStr "Solar System MPC"
  | _ => nth 0 inputs VNull
  end.

(** A stand-in for the sky matcher: the separation of two positions is
    taken as |ra1 - ra2| + |dec1 - dec2|. *)
Definition separation (a b : coord) : float :=
  match a, b with
  | (VDouble r1, VDouble d1), (VDouble r2, VDouble d2) =>
      (PrimFloat.abs (r1 - r2) + PrimFloat.abs (d1 - d2))%float
  | _, _ => PrimFloat.infinity
  end.

Fixpoint nearest_from (a : coord) (i : nat) (best : nat * float) (cat : list coord)
    : nat * float :=
  match cat with
  | [] => best
  | b :: cat' =>
      let d := separation a b in
      nearest_from a (S i) (if (d <? snd best)%float then (i, d) else best) cat'
  end.

Definition matcher (self cat : list coord) : result (list (nat * float)) :=
  match cat with
  | [] => Raise ExternalError
  | _ => Ok (map (fun a => nearest_from a 0 (0, PrimFloat.infinity) cat) self)
  end.

Definition catalogue : list tns_entry :=
  [ {| tns_ra := VDouble 10.000244140625; tns_declination := VDouble 20;
       tns_type := Some "SN Ia" |};
    {| tns_ra := VDouble 50; tns_declination := VDouble (-5);
       tns_type := None |} ].

Definition all_columns : list string :=
  common_cols ++ ["prv_candidates"; "year"; "month"; "day"].

(** A row of the night from the cells that are not null. *)
Definition alert (cells : list (string * value)) : Row :=
  map (fun c => (c, lookup c cells)) all_columns.

Definition detection (jd : float) (fid : Z) (magpsf sigmapsf : value) (lim : float)
    : value :=
  VStruct [ ("jd", VDouble jd); ("fid", VLong fid); ("magpsf", magpsf);
            ("sigmapsf", sigmapsf); ("diffmaglim", VDouble lim) ].

Definition alert1 : Row :=
  alert [ ("objectId", VStr "ZTF21aaa"); ("candid", VLong 1);
          ("ra", VDouble 10); ("dec", VDouble 20); ("jd", VDouble 2459001.5);
          ("roid", VLong 3); ("tracklet", VStr "TRCK_20211012_103831_00");
          ("cdsxmatch", VStr "Unknown");
          ("prv_candidates",
           VArr [ detection 2459000.5 1 VNull VNull 20;
                  detection 2459001.5 2 (VDouble 18) (VDouble 0.125) 20 ]) ].

Definition alert2 : Row :=
  alert [ ("objectId", VStr "ZTF21bbb"); ("candid", VLong 2);
          ("ra", VDouble 50); ("dec", VDouble 20); ("jd", VDouble 2459001.5);
          ("roid", VLong 0); ("tracklet", VStr "");
          ("cdsxmatch", VStr "Candidate_YSO") ].

Definition alert3 : Row :=
  alert [ ("objectId", VStr "ZTF21ccc"); ("candid", VLong 3);
          ("ra", VDouble 70); ("dec", VDouble 20); ("jd", VDouble 2459001.5);
          ("tracklet", VStr "null"); ("cdsxmatch", VStr "Unknown") ].

Definition night_of (alerts : list Row) : DataFrame :=
  {| columns := all_columns; rows := alerts |}.

Definition env (alerts : list Row) : Collaborators :=
  {| show_double := show;
     load_parquet_files := fun _ => Ok (night_of alerts);
     load_science_portal_column_names := (common_cols, [], []);
     assign_column_family_names := fun _ ci cd cb =>
       map (fun c => (c, "i")) ci ++ map (fun c => (c, "d")) cd
         ++ map (fun c => (c, "b")) cb;
     attach_rowkey := fun df => Ok df;
     ang2pix := pixel;
     extract_fink_classification := classify;
     read_file := fun _ => Ok "tns_marker
";
     environ := fun _ => Some "key";
     download_catalog := fun _ _ => Ok catalogue;
     match_to_catalog_sky := matcher;
     arrow_batches := [] |}.

Definition args_for (index_table : string) : Args :=
  {| night := "20211012";
     index_table := index_table;
     agg_data_prefix := "/data";
     science_db_name := "ztf";
     science_db_catalogs := "/catalogs";
     tns_folder := "/tns";
     log_level := "INFO" |}.

Definition night : list Row := [alert1; alert2; alert3].

Definition run (alerts : list Row) (index_table : string) : result PushCall :=
  main (env alerts) (args_for index_table).

Definition no_push : PushCall :=
  {| push_df := {| columns := []; rows := [] |};
     push_table_name := EmptyString;
     push_rowkeyname := EmptyString;
     push_cf := [];
     push_catfolder := EmptyString |}.

(** What a run pushed. *)
Definition pushed (r : result PushCall) : PushCall :=
  match r with
  | Ok p => p
  | Raise _ => no_push
  end.

(** The view a run of [build_index] built. *)
Definition built (r : result (DataFrame * string)) : DataFrame :=
  match r with
  | Ok x => fst x
  | Raise _ => {| columns := []; rows := [] |}
  end.

Definition built_df (r : result DataFrame) : DataFrame :=
  match r with
  | Ok x => x
  | Raise _ => {| columns := []; rows := [] |}
  end.

Definition built_pair {A : Type} (r : result (DataFrame * A)) : DataFrame * list A :=
  match r with
  | Ok x => (fst x, [snd x])
  | Raise _ => ({| columns := []; rows := [] |}, [])
  end.

Definition upper_push : PushCall :=
  Eval vm_compute in pushed (run night "upper_objectId_jd").

Definition pixel_push : PushCall :=
  Eval vm_compute in pushed (run [alert1] "pixel128").

Definition pixel_view : DataFrame :=
  Eval vm_compute in
    built (build_index (env night) (args_for "pixel128_jd_objectId") (night_of night)).

Definition class_push : PushCall :=
  Eval vm_compute in pushed (run [alert1] "class").

Definition class_view : DataFrame :=
  Eval vm_compute in
    built (build_index (env night) (args_for "class_jd_objectId") (night_of night)).

Definition history : DataFrame :=
  Eval vm_compute in fst (built_pair (prepare (env night) (args_for "upper_objectId_jd"))).

Definition exploded : DataFrame :=
  Eval vm_compute in built_df (explode_history (env night) "objectId_jd" history).

Definition upper_view : DataFrame :=
  Eval vm_compute in
    built (build_index (env night) (args_for "upper_objectId_jd") history).

Definition uppervalid_view : DataFrame :=
  Eval vm_compute in
    built (build_index (env night) (args_for "uppervalid_objectId_jd") history).

(** Four alerts with pairwise distinct object identifiers and
    tracklets. *)
Definition clash : list Row :=
  [ alert [("objectId", VStr "ZTF21a_b"); ("candid", VLong 1); ("tracklet", VStr "c")];
    alert [("objectId", VStr "ZTF21a"); ("candid", VLong 2); ("tracklet", VStr "b_c")];
    alert [("candid", VLong 3); ("tracklet", VStr "ZTF21d")];
    alert [("objectId", VStr "ZTF21d"); ("candid", VLong 4)] ].

Definition clash_push : PushCall :=
  Eval vm_compute in pushed (run clash "objectId_tracklet").


(** A second alert of the object of [alert1], half a degree away. *)
Definition alert1b : Row :=
  alert [ ("objectId", VStr "ZTF21aaa"); ("candid", VLong 4);
          ("ra", VDouble 10.5); ("dec", VDouble 20); ("jd", VDouble 2459000.5);
          ("cdsxmatch", VStr "Unknown") ].

Definition twins : list Row := [alert1; alert1b].

Definition twins_push : PushCall :=
  Eval vm_compute in pushed (run twins "tns_jd_objectId").

Definition tns_view : DataFrame :=
  Eval vm_compute in
    built (build_index (env night) (args_for "tns_jd_objectId") (night_of night)).

Definition tracklet_view : DataFrame :=
  Eval vm_compute in
    built (build_index (env night) (args_for "tracklet_objectId") (night_of night)).

Definition ssnamenr_view : DataFrame :=
  Eval vm_compute in
    built (build_index (env night) (args_for "ssnamenr_jd") (night_of night)).

End Demo.

(** The field of one prior detection, null when the detection is no
    struct. *)
Definition struct_field (name : string) (detection : value) : value :=
  match detection with
  | VStruct fs => lookup name fs
  | _ => VNull
  end.

(** The row [df_ex] holds for one prior detection of an alert. *)
Definition detection_row (E : Collaborators) (index_row_key_name : string)
    (r : Row) (detection : value) : Row :=
  [ (index_row_key_name,
     VStr (Py.join "_" (F.render E (lookup "objectId" r)
                          ++ F.render E (struct_field "jd" detection))));
    ("objectId", lookup "objectId" r);
    ("jd", struct_field "jd" detection);
    ("fid", struct_field "fid" detection);
    ("magpsf", struct_field "magpsf" detection);
    ("sigmapsf", struct_field "sigmapsf" detection);
    ("diffmaglim", struct_field "diffmaglim" detection) ].

(** The row of the [upper] view for one prior detection: the row of
    [df_ex] without its two magnitude cells. *)
Definition upper_row (E : Collaborators) (index_row_key_name : string)
    (r : Row) (detection : value) : Row :=
  [ (index_row_key_name,
     VStr (Py.join "_" (F.render E (lookup "objectId" r)
                          ++ F.render E (struct_field "jd" detection))));
    ("objectId", lookup "objectId" r);
    ("jd", struct_field "jd" detection);
    ("fid", struct_field "fid" detection);
    ("diffmaglim", struct_field "diffmaglim" detection) ].

(** ** Collaborators with one part replaced *)

(** The collaborators with another reader of the aggregated data. *)
Definition with_loader (E : Collaborators) (load : string -> result DataFrame)
    : Collaborators :=
  {| show_double := show_double E;
     load_parquet_files := load;
     load_science_portal_column_names := load_science_portal_column_names E;
     assign_column_family_names := assign_column_family_names E;
     attach_rowkey := attach_rowkey E;
     ang2pix := ang2pix E;
     extract_fink_classification := extract_fink_classification E;
     read_file := read_file E;
     environ := environ E;
     download_catalog := download_catalog E;
     match_to_catalog_sky := match_to_catalog_sky E;
     arrow_batches := arrow_batches E |}.


(** The collaborators with other Arrow batch sizes. *)
Definition with_batches (E : Collaborators) (sizes : list nat) : Collaborators :=
  {| show_double := show_double E;
     load_parquet_files := load_parquet_files E;
     load_science_portal_column_names := load_science_portal_column_names E;
     assign_column_family_names := assign_column_family_names E;
     attach_rowkey := attach_rowkey E;
     ang2pix := ang2pix E;
     extract_fink_classification := extract_fink_classification E;
     read_file := read_file E;
     environ := environ E;
     download_catalog := download_catalog E;
     match_to_catalog_sky := match_to_catalog_sky E;
     arrow_batches := sizes |}.

(** ** More runs on the small night *)

Module Runs.

Definition E : Collaborators := Demo.env Demo.night.

Definition df : DataFrame := Demo.night_of Demo.night.

(** A reader that knows one path only. *)
Definition strict_loader (path : string) : result DataFrame :=
  if String.eqb path "/data/science/year=2021/month=10/day=12"
  then Ok df
  else Raise OSError.


Definition narrowed : DataFrame :=
  Eval vm_compute in Demo.built_df (DF.select history_cols df).

Definition typed_catalogue : list tns_entry :=
  Eval vm_compute in
    match tns_catalogue E (Demo.args_for "tns_jd_objectId") with
    | Ok pdf => pdf
    | Raise _ => []
    end.

Definition default_push : PushCall :=
  Eval vm_compute in Demo.pushed (main E (Demo.args_for "objectId_jd")).

Definition batch_ids : list value := map (lookup "objectId") Demo.night.
Definition batch_ra : list value := map (lookup "ra") Demo.night.
Definition batch_dec : list value := map (lookup "dec") Demo.night.

(** The default kind keyed by the cross-match label and the object. *)
Definition label_view : DataFrame :=
  Eval vm_compute in
    Demo.built (build_index E (Demo.args_for "cdsxmatch_objectId") df).

(** What [prepare] hands on under an identifier of the class kind that
    holds [upper]. *)
Definition class_upper_prepared : DataFrame * list (string * string) :=
  Eval vm_compute in
    match prepare E (Demo.args_for "class_upper") with
    | Ok p => p
    | Raise _ => ({| columns := []; rows := [] |}, [])
    end.

(** The two alerts of one object, each in an Arrow batch of its own. *)
Definition twins_apart_push : PushCall :=
  Eval vm_compute in
    Demo.pushed (main (with_batches (Demo.env Demo.twins) [1])
                      (Demo.args_for "tns_jd_objectId")).

End Runs.

(** * Properties *)

(** ** Python strings *)

Lemma prefix_app (p s : string) :
  String.prefix p s = true <-> exists t, s = (p ++ t)%string.
Proof.
  revert s; induction p as [|a p IH]; intros s; simpl.
  - destruct s; split; intros; eauto.
  - destruct s as [|b s]; simpl.
    + split; [discriminate | intros [t Ht]; discriminate].
    + destruct (ascii_dec a b) as [->|Hab].
      * rewrite IH. split; intros [t Ht]; exists t; [now rewrite Ht | now inversion Ht].
      * split; [discriminate | intros [t Ht]; inversion Ht; subst; contradiction].
Qed.

(** ['upper' in s] holds exactly of the strings with [upper] somewhere
    inside. *)
Lemma contains_app (sub s : string) :
  Py.contains sub s = true <-> exists a b, s = (a ++ sub ++ b)%string.
Proof.
  induction s as [|c s IH]; cbn [Py.contains].
  - rewrite orb_false_r, prefix_app. split.
    + intros [t Ht]. exists EmptyString, t. exact Ht.
    + intros [a [b H]]. destruct a; [now exists b|discriminate].
  - rewrite orb_true_iff, IH, prefix_app. split.
    + intros [[t Ht]|[a [b H]]].
      * exists EmptyString, t. exact Ht.
      * exists (String c a), b. now rewrite H.
    + intros [a [b H]]. destruct a as [|c' a]; simpl in H.
      * left. now exists b.
      * right. inversion H. now exists a, b.
Qed.

Lemma split_go_cons (sep : string) (skip : nat) (cur s : string) :
  exists t l, Py.split_go sep skip cur s = t :: l.
Proof.
  revert skip cur; induction s as [|c s IH]; intros skip cur; cbn [Py.split_go].
  - now exists cur, [].
  - destruct skip as [|k].
    + destruct (String.prefix sep (String c s)).
      * now eexists _, _.
      * apply IH.
    + apply IH.
Qed.

(** [columns[0]] never raises: a split has a first token. *)
Lemma columns0 (index_table : string) :
  Py.getitem (Py.split "_" index_table) 0 = Ok (first_token index_table).
Proof.
  unfold first_token, Py.split, Py.getitem.
  destruct (split_go_cons "_" 0 EmptyString index_table) as [t [l ->]].
  reflexivity.
Qed.

Lemma columns_first (index_table : string) :
  Py.split "_" index_table
  = first_token index_table :: tl (Py.split "_" index_table).
Proof.
  unfold first_token, Py.split.
  destruct (split_go_cons "_" 0 EmptyString index_table) as [t [l ->]].
  reflexivity.
Qed.

Lemma app_string_assoc (a b c : string) :
  ((a ++ b) ++ c = a ++ (b ++ c))%string.
Proof. induction a as [|x a IH]; simpl; [reflexivity | now rewrite IH]. Qed.

Lemma split_go_first (s cur : string) :
  exists pre rest,
    hd EmptyString (Py.split_go "_" 0 cur s) = (cur ++ pre)%string
    /\ s = (pre ++ rest)%string
    /\ (rest = EmptyString \/ exists r, rest = String "_" r)
    /\ Py.contains "_" pre = false.
Proof.
  revert cur; induction s as [|c s IH]; intros cur.
  - exists EmptyString, EmptyString. cbn. repeat split; auto.
    induction cur; simpl; congruence.
  - cbn [Py.split_go String.prefix].
    destruct (ascii_dec "_" c) as [<-|Hc].
    + exists EmptyString, (String "_" s).
      destruct s; cbn; repeat split; eauto; induction cur; simpl; congruence.
    + destruct (IH (cur ++ String c EmptyString)%string)
        as [pre [rest [Hhd [Hs [Hrest Hpre]]]]].
      exists (String c pre), rest. repeat split; auto.
      * rewrite Hhd. now rewrite app_string_assoc.
      * simpl. now rewrite Hs.
      * cbn [Py.contains String.prefix].
        destruct (ascii_dec "_" c); [contradiction|]. exact Hpre.
Qed.

(** The first token is what stands before the first underscore of the
    identifier, or the whole identifier when it has none. *)
Lemma first_token_spec (index_table : string) :
  exists rest,
    index_table = (first_token index_table ++ rest)%string
    /\ (rest = EmptyString \/ exists r, rest = String "_" r)
    /\ Py.contains "_" (first_token index_table) = false.
Proof.
  unfold first_token, Py.split.
  destruct (split_go_first index_table EmptyString)
    as [pre [rest [Hhd [Hs [Hrest Hpre]]]]].
  simpl in Hhd. rewrite Hhd. eauto.
Qed.

Lemma contains_cons_false (c : ascii) (s : string) :
  Py.contains "_" (String c s) = false -> c <> "_"%char /\ Py.contains "_" s = false.
Proof.
  cbn [Py.contains String.prefix]. destruct (ascii_dec "_" c) as [<-|Hc].
  - destruct s; discriminate.
  - intros H. split; [congruence | exact H].
Qed.

(** Two underscore-free strings, each followed by an underscore, can be
    read back from the concatenation. *)
Lemma cut_at_underscore (a b s t : string) :
  Py.contains "_" a = false -> Py.contains "_" b = false ->
  (a ++ String "_" s)%string = (b ++ String "_" t)%string ->
  a = b /\ s = t.
Proof.
  revert b; induction a as [|x a IH]; intros [|y b] Ha Hb H; simpl in H.
  - inversion H. auto.
  - apply contains_cons_false in Hb. inversion H. destruct Hb as [Hy _]. congruence.
  - apply contains_cons_false in Ha. inversion H. destruct Ha as [Hx _]. congruence.
  - apply contains_cons_false in Ha, Hb. inversion H; subst.
    destruct (IH b (proj2 Ha) (proj2 Hb) H2) as [-> ->]. auto.
Qed.

Lemma join_cons2 (x y : string) (l : list string) :
  Py.join "_" (x :: y :: l) = (x ++ String "_" (Py.join "_" (y :: l)))%string.
Proof. reflexivity. Qed.

(** Joining with underscores loses nothing on non-empty lists of
    underscore-free strings. *)
Lemma join_injective (l1 l2 : list string) :
  l1 <> [] -> l2 <> [] ->
  Forall (fun s => Py.contains "_" s = false) l1 ->
  Forall (fun s => Py.contains "_" s = false) l2 ->
  Py.join "_" l1 = Py.join "_" l2 -> l1 = l2.
Proof.
  revert l2; induction l1 as [|x l1 IH]; intros l2 N1 N2 F1 F2 H; [congruence|].
  destruct l2 as [|y l2]; [congruence|].
  inversion F1 as [|? ? Hx F1']; inversion F2 as [|? ? Hy F2']; subst.
  destruct l1 as [|x' l1]; destruct l2 as [|y' l2].
  - simpl in H. now subst.
  - rewrite join_cons2 in H. change (Py.join "_" [x]) with x in H. subst x.
    exfalso. assert (Hc : Py.contains "_" (y ++ String "_" (Py.join "_" (y' :: l2))) = true).
    { apply contains_app. exists y, (Py.join "_" (y' :: l2)). reflexivity. }
    congruence.
  - rewrite join_cons2 in H. change (Py.join "_" [y]) with y in H. subst y.
    exfalso. assert (Hc : Py.contains "_" (x ++ String "_" (Py.join "_" (x' :: l1))) = true).
    { apply contains_app. exists x, (Py.join "_" (x' :: l1)). reflexivity. }
    congruence.
  - rewrite !join_cons2 in H.
    destruct (cut_at_underscore _ _ _ _ Hx Hy H) as [-> Hrest].
    f_equal. apply IH; auto; discriminate.
Qed.

Lemma join_snoc (l : list string) (x : string) :
  l <> [] ->
  Py.join "_" (l ++ [x]) = (Py.join "_" l ++ String "_" x)%string.
Proof.
  induction l as [|a l IH]; [congruence|]. intros _.
  destruct l as [|b l]; [reflexivity|].
  change ((a :: b :: l) ++ [x]) with (a :: (b :: l) ++ [x]).
  assert (Hcons : forall m, m <> [] ->
            Py.join "_" (a :: m) = (a ++ String "_" (Py.join "_" m))%string).
  { intros [|y m] Hm; [congruence | reflexivity]. }
  rewrite Hcons by (destruct l; discriminate).
  rewrite IH by discriminate.
  rewrite (Hcons (b :: l)) by discriminate.
  rewrite app_string_assoc. reflexivity.
Qed.

(** Two underscore-free strings, each after an underscore, can be read
    back from the end of the concatenation. *)
Lemma cut_at_last_underscore (s t x y : string) :
  Py.contains "_" x = false -> Py.contains "_" y = false ->
  (s ++ String "_" x)%string = (t ++ String "_" y)%string ->
  s = t /\ x = y.
Proof.
  intros Hx Hy. revert t; induction s as [|c s IH]; intros [|c' t] H; simpl in H.
  - inversion H. auto.
  - inversion H as [[Hc Hrest]]. exfalso.
    assert (Hin : Py.contains "_" x = true)
      by (apply contains_app; exists t, y; exact Hrest).
    congruence.
  - inversion H as [[Hc Hrest]]. exfalso.
    assert (Hin : Py.contains "_" y = true)
      by (apply contains_app; exists s, x; symmetry; exact Hrest).
    congruence.
  - inversion H as [[Hc Hrest]]. destruct (IH t Hrest) as [-> ->]. auto.
Qed.

(** Joining loses nothing when only the first string may hold an
    underscore. *)
Lemma join_injective_first (x y : string) (l1 l2 : list string) :
  List.length l1 = List.length l2 ->
  Forall (fun s => Py.contains "_" s = false) l1 ->
  Forall (fun s => Py.contains "_" s = false) l2 ->
  Py.join "_" (x :: l1) = Py.join "_" (y :: l2) -> x :: l1 = y :: l2.
Proof.
  revert l2; induction l1 as [|z l1 IH] using rev_ind; intros l2 Hlen F1 F2 H.
  - destruct l2; [|discriminate]. simpl in H. now subst.
  - destruct l2 as [|w l2 _] using rev_ind;
      [rewrite length_app in Hlen; simpl in Hlen; lia|].
    rewrite !length_app in Hlen. simpl in Hlen.
    apply Forall_app in F1, F2. destruct F1 as [F1 Fz]. destruct F2 as [F2 Fw].
    inversion Fz as [|? ? Hz _]; inversion Fw as [|? ? Hw _]; subst.
    change (x :: l1 ++ [z]) with ((x :: l1) ++ [z]) in *.
    change (y :: l2 ++ [w]) with ((y :: l2) ++ [w]) in *.
    rewrite !join_snoc in H by discriminate.
    destruct (cut_at_last_underscore _ _ _ _ Hz Hw H) as [Hj ->].
    f_equal. apply IH; auto. lia.
Qed.

(** Joining loses nothing on lists of one length in which one position
    alone may hold an underscore. *)
Lemma join_injective_at (i : nat) (l1 l2 : list string) :
  List.length l1 = List.length l2 ->
  (forall j s, j <> i -> nth_error l1 j = Some s -> Py.contains "_" s = false) ->
  (forall j s, j <> i -> nth_error l2 j = Some s -> Py.contains "_" s = false) ->
  Py.join "_" l1 = Py.join "_" l2 -> l1 = l2.
Proof.
  revert l1 l2; induction i as [|i IH]; intros l1 l2 Hlen F1 F2 H.
  - destruct l1 as [|x l1]; destruct l2 as [|y l2]; try discriminate; [reflexivity|].
    apply join_injective_first; [simpl in Hlen; lia| | |exact H].
    + apply Forall_forall. intros s Hs. apply In_nth_error in Hs.
      destruct Hs as [j Hj]. apply (F1 (S j)); [discriminate | exact Hj].
    + apply Forall_forall. intros s Hs. apply In_nth_error in Hs.
      destruct Hs as [j Hj]. apply (F2 (S j)); [discriminate | exact Hj].
  - destruct l1 as [|x l1]; destruct l2 as [|y l2]; try discriminate; [reflexivity|].
    assert (Hx : Py.contains "_" x = false) by (apply (F1 0); [discriminate | reflexivity]).
    assert (Hy : Py.contains "_" y = false) by (apply (F2 0); [discriminate | reflexivity]).
    destruct l1 as [|x' l1]; destruct l2 as [|y' l2]; try discriminate.
    + simpl in H. now subst.
    + rewrite !join_cons2 in H.
      destruct (cut_at_underscore _ _ _ _ Hx Hy H) as [-> Hrest].
      f_equal. apply IH; [simpl in *; lia| | |exact Hrest].
      * intros j s Hj Hs. apply (F1 (S j)); [lia | exact Hs].
      * intros j s Hj Hs. apply (F2 (S j)); [lia | exact Hs].
Qed.

(** ** Dataframe operations *)

Lemma bind_ok {A B : Type} (m : result A) (f : A -> result B) (b : B) :
  bind m f = Ok b -> exists a, m = Ok a /\ f a = Ok b.
Proof. destruct m as [a|e]; simpl; [eauto | discriminate]. Qed.

Ltac bind_inv H :=
  let a := fresh "x" in
  let Ha := fresh "H" a in
  apply bind_ok in H; destruct H as [a [Ha H]].

Tactic Notation "bind_case" hyp(H) "as" ident(a) ident(Ha) :=
  apply bind_ok in H; destruct H as [a [Ha H]].

Lemma select_ok (cs : list Column) (df out : DataFrame) :
  DF.select cs df = Ok out ->
  columns out = map c_name cs /\
  rows out = map (fun r => map (fun c => (c_name c, c_eval c r)) cs) (rows df).
Proof.
  unfold DF.select. intros H. bind_inv H. inversion H. auto.
Qed.

Lemma filter_ok (c : Column) (df out : DataFrame) :
  DF.filter c df = Ok out ->
  columns out = columns df /\
  rows out = List.filter (fun r => DF.truth (c_eval c r)) (rows df).
Proof.
  unfold DF.filter. intros H. bind_inv H. inversion H. auto.
Qed.

Lemma withColumn_ok (name : string) (c : Column) (df out : DataFrame) :
  DF.withColumn name c df = Ok out ->
  columns out = DF.set_name name (columns df) /\
  rows out = map (fun r => DF.set_cell name (c_eval c r) r) (rows df).
Proof.
  unfold DF.withColumn. intros H. bind_inv H. inversion H. auto.
Qed.

Lemma getitem_ok (df : DataFrame) (name : string) (c : Column) :
  DF.getitem df name = Ok c -> c = F.col name /\ DF.resolves df name = true.
Proof.
  unfold DF.getitem, DF.analyse. cbn [forallb c_refs F.col].
  destruct (DF.resolves df name); cbn; [|discriminate].
  intros H. inversion H. auto.
Qed.

Lemma lit_int_ok (n : Z) (c : Column) :
  F.lit_int n = Ok c -> c = F.lit (VLong n) /\ (- 2 ^ 63 <= n < 2 ^ 63)%Z.
Proof.
  unfold F.lit_int.
  destruct (Z.leb_spec (- 2 ^ 63) n) as [Hlo|Hlo]; cbn [andb]; [|discriminate].
  destruct (Z.ltb_spec n (2 ^ 63)) as [Hhi|Hhi]; [|discriminate].
  intros H. inversion H. auto.
Qed.

(** [drop] leaves the cells of the other columns where they are. *)
Lemma lookup_dropped (names : list string) (n : string) (r : Row) :
  DF.dropped names n = false ->
  lookup n (List.filter (fun kv : string * value => negb (DF.dropped names (fst kv))) r)
  = lookup n r.
Proof.
  intros Hn. induction r as [|[k v] r IH]; [reflexivity|].
  cbn [List.filter fst lookup]. destruct (DF.dropped names k) eqn:Hk; cbn [negb].
  - destruct (String.eqb_spec k n) as [->|_]; [congruence | exact IH].
  - cbn [lookup]. destruct (String.eqb k n); [reflexivity | exact IH].
Qed.

Lemma lookup_app_miss (name : string) (r r' : Row) :
  existsb (String.eqb name) (map fst r) = false ->
  lookup name (r ++ r') = lookup name r'.
Proof.
  induction r as [|[k v] r IH]; simpl; [reflexivity|].
  rewrite orb_false_iff, String.eqb_sym. intros [-> H]. auto.
Qed.

Lemma lookup_app_other (t name : string) (v : value) (r : Row) :
  String.eqb t name = false ->
  lookup t (r ++ [(name, v)]) = lookup t r.
Proof.
  intros Hne. induction r as [|[k w] r IH]; simpl.
  - rewrite String.eqb_sym, Hne. reflexivity.
  - destruct (String.eqb k t); auto.
Qed.

Lemma lookup_replace_other (t name : string) (v : value) (r : Row) :
  String.eqb t name = false ->
  lookup t (map (fun kv : string * value =>
                   if String.eqb (fst kv) name then (name, v) else kv) r)
  = lookup t r.
Proof.
  intros Hne. induction r as [|[k w] r IH]; simpl; [reflexivity|].
  destruct (String.eqb k name) eqn:Hk; simpl.
  - apply String.eqb_eq in Hk; subst k.
    rewrite String.eqb_sym, Hne. exact IH.
  - destruct (String.eqb k t); auto.
Qed.

Lemma lookup_replace_same (name : string) (v : value) (r : Row) :
  existsb (String.eqb name) (map fst r) = true ->
  lookup name (map (fun kv : string * value =>
                      if String.eqb (fst kv) name then (name, v) else kv) r)
  = v.
Proof.
  induction r as [|[k w] r IH]; simpl; [discriminate|].
  rewrite (String.eqb_sym name k).
  destruct (String.eqb k name) eqn:Hk; simpl.
  - now rewrite String.eqb_refl.
  - rewrite Hk. exact IH.
Qed.

(** Reading a row after [withColumn]: the new cell under its name, the
    old cells elsewhere. *)
Lemma lookup_set_cell (t name : string) (v : value) (r : Row) :
  lookup t (DF.set_cell name v r) = if String.eqb t name then v else lookup t r.
Proof.
  unfold DF.set_cell.
  destruct (String.eqb t name) eqn:Htn;
    destruct (existsb (String.eqb name) (map fst r)) eqn:Hex.
  - apply String.eqb_eq in Htn; subst t. now apply lookup_replace_same.
  - apply String.eqb_eq in Htn; subst t.
    rewrite lookup_app_miss by exact Hex. simpl. now rewrite String.eqb_refl.
  - now apply lookup_replace_other.
  - now apply lookup_app_other.
Qed.

Lemma flat_map_map {A B C : Type} (f : B -> list C) (g : A -> B) (l : list A) :
  flat_map f (map g l) = flat_map (fun a => f (g a)) l.
Proof. induction l as [|a l IH]; simpl; [reflexivity | now rewrite IH]. Qed.

Lemma filter_twice {A : Type} (f g : A -> bool) (l : list A) :
  List.filter g (List.filter f l) = List.filter (fun a => f a && g a) l.
Proof.
  induction l as [|a l IH]; simpl; [reflexivity|].
  destruct (f a); simpl; [destruct (g a)|]; now rewrite IH.
Qed.

Lemma filter_split_length {A : Type} (f : A -> bool) (l : list A) :
  List.length (List.filter f l) + List.length (List.filter (fun a => negb (f a)) l)
  = List.length l.
Proof.
  induction l as [|a l IH]; simpl; [reflexivity|].
  destruct (f a); simpl; lia.
Qed.

Lemma filter_all {A : Type} (l : list A) : List.filter (fun _ => true) l = l.
Proof. induction l as [|a l IH]; simpl; [reflexivity | now rewrite IH]. Qed.

Lemma filter_of_map {A B : Type} (f : A -> B) (p : B -> bool) (l : list A) :
  List.filter p (map f l) = map f (List.filter (fun a => p (f a)) l).
Proof.
  induction l as [|a l IH]; simpl; [reflexivity|].
  destruct (p (f a)); simpl; now rewrite IH.
Qed.

(** Distinct images stay distinct under a map that is injective on
    them. *)
Lemma NoDup_map_injective {A B C : Type} (f : A -> B) (g : B -> C) (l : list A) :
  (forall x y, In x l -> In y l -> g (f x) = g (f y) -> f x = f y) ->
  NoDup (map f l) -> NoDup (map (fun a => g (f a)) l).
Proof.
  induction l as [|a l IH]; intros Hinj Hnd; simpl; [constructor|].
  inversion Hnd as [|? ? Hnotin Hnd']; subst. constructor.
  - rewrite in_map_iff. intros [b [Hb Hin]]. apply Hnotin.
    rewrite in_map_iff. exists b. split; [|exact Hin].
    apply Hinj; simpl; auto.
  - apply IH; [|exact Hnd']. intros x y Hx Hy. apply Hinj; simpl; auto.
Qed.

(** When a name resolves among columns that hold it after the first, the
    first column has another name. *)
Lemma resolves_head_differs (df : DataFrame) (rest : list string) (k name : string) :
  columns df = k :: rest -> In name rest ->
  DF.resolves df name = true ->
  String.eqb k name = false.
Proof.
  intros Hc Hin. unfold DF.resolves. rewrite Hc. cbn [count_occ].
  destruct (string_dec k name) as [->|Hne].
  - apply (count_occ_In string_dec) in Hin.
    destruct (count_occ string_dec rest name); [lia|]. simpl. discriminate.
  - intros _. now apply String.eqb_neq.
Qed.

Lemma NoDup_map_filter {A B : Type} (f : A -> B) (p : A -> bool) (l : list A) :
  NoDup (map f l) -> NoDup (map f (List.filter p l)).
Proof.
  induction l as [|a l IH]; simpl; intros Hnd; [constructor|].
  inversion Hnd as [|? ? Hnotin Hnd']; subst.
  destruct (p a); simpl; [constructor|]; auto.
  intros Hin. apply Hnotin. apply in_map_iff in Hin. destruct Hin as [b [Hb Hin]].
  apply in_map_iff. exists b. split; [exact Hb|]. apply filter_In in Hin. tauto.
Qed.

(** *** [mapM], batches and first matches *)

Lemma mapM_Forall2 {A B : Type} (f : A -> result B) (l : list A) (out : list B) :
  DF.mapM f l = Ok out -> Forall2 (fun a b => f a = Ok b) l out.
Proof.
  revert out; induction l as [|a l IH]; intros out H; simpl in H.
  - inversion H. constructor.
  - bind_case H as b Hb. bind_case H as bs Hbs. inversion H; subst.
    constructor; auto.
Qed.

Lemma Forall2_nth_error {A B : Type} (R : A -> B -> Prop) (l : list A) (l' : list B)
    (j : nat) (a : A) (b : B) :
  Forall2 R l l' -> nth_error l j = Some a -> nth_error l' j = Some b -> R a b.
Proof.
  intros H; revert j; induction H as [|x y l l' Hxy _ IH]; intros [|j]; simpl;
    try discriminate.
  - intros Ha Hb; inversion Ha; inversion Hb; subst; exact Hxy.
  - apply IH.
Qed.

Lemma nth_error_combine {A B : Type} (l : list A) (l' : list B) (j : nat) (a : A) (b : B) :
  nth_error (combine l l') j = Some (a, b) <->
  nth_error l j = Some a /\ nth_error l' j = Some b.
Proof.
  revert l' j; induction l as [|x l IH]; intros [|y l'] [|j]; simpl;
    try (split; [discriminate | intros [? ?]; discriminate]).
  - split; [intros H; inversion H; auto | intros [H1 H2]; congruence].
  - apply IH.
Qed.

Lemma chunk_concat {A : Type} (sizes : list nat) (l : list A) :
  concat (DF.chunk sizes l) = l.
Proof.
  revert l; induction sizes as [|n sizes IH]; intros [|a l]; try reflexivity.
  - simpl. now rewrite app_nil_r.
  - cbn [DF.chunk concat]. rewrite IH. apply firstn_skipn.
Qed.

(** The head of a filtered list is the first element that passes. *)
Lemma filter_head {A : Type} (p : A -> bool) (l : list A) (a : A) (rest : list A) :
  List.filter p l = a :: rest ->
  exists j0, nth_error l j0 = Some a /\ p a = true
             /\ forall j' a', j' < j0 -> nth_error l j' = Some a' -> p a' = false.
Proof.
  induction l as [|x l IH]; simpl; [discriminate|].
  destruct (p x) eqn:Hx.
  - intros H; inversion H; subst. exists 0. repeat split; auto. intros; lia.
  - intros H. destruct (IH H) as [j0 [Hj0 [Hp Hfirst]]].
    exists (S j0). repeat split; auto.
    intros [|j'] a' Hlt; simpl.
    + intros Ha'; inversion Ha'; subst; exact Hx.
    + apply Hfirst. lia.
Qed.

Lemma combine_fst_snd {A B C : Type} (f : B -> C) (m : list (A * B)) :
  combine (map fst m) (map f (map snd m)) = map (fun p => (fst p, f (snd p))) m.
Proof. induction m as [|[a b] m IH]; simpl; [reflexivity | now rewrite IH]. Qed.

Lemma pandas_eq_true (x y : value) :
  pandas_eq x y = true -> exists a, x = VStr a /\ y = VStr a.
Proof.
  destruct x; destruct y; simpl; try discriminate.
  intros H. apply String.eqb_eq in H. subst. eauto.
Qed.

Lemma Forall2_In_r {A B : Type} (R : A -> B -> Prop) (l : list A) (l' : list B) (b : B) :
  Forall2 R l l' -> In b l' -> exists a, In a l /\ R a b.
Proof.
  induction 1 as [|x y l l' Hxy _ IH]; simpl; [tauto|].
  intros [<-|Hin]; [eauto|]. destruct (IH Hin) as [a [Ha HR]]. eauto.
Qed.

Lemma map_fst_combine {A B : Type} (l : list A) (l' : list B) :
  List.length l' = List.length l -> map fst (combine l l') = l.
Proof.
  revert l'; induction l as [|a l IH]; intros [|b l']; simpl; try discriminate;
    [reflexivity|]. intros H. f_equal. apply IH. lia.
Qed.

Lemma lookup_project (cols : list string) (n : string) (r : Row) :
  In n cols -> lookup n (project cols r) = lookup n r.
Proof.
  unfold project. induction cols as [|c cols IH]; simpl; [tauto|].
  destruct (String.eqb_spec c n) as [->|Hne]; [reflexivity|].
  intros [Hc|Hin]; [contradiction | auto].
Qed.

Lemma project_app (cols cols' : list string) (r : Row) :
  project (cols ++ cols') r = project cols r ++ project cols' r.
Proof. unfold project. apply map_app. Qed.

(** [drop] leaves a projection alone when none of its columns is
    dropped. *)
Lemma drop_project (names cols : list string) (r : Row) :
  forallb (fun c => negb (DF.dropped names c)) cols = true ->
  List.filter (fun kv : string * value => negb (DF.dropped names (fst kv)))
              (project cols r)
  = project cols r.
Proof.
  unfold project. induction cols as [|c cols IH]; simpl; [reflexivity|].
  rewrite andb_true_iff. intros [Hc Hcols]. rewrite Hc. now rewrite IH.
Qed.

Lemma dropped_not_in (names l : list string) (n : string) :
  In n names -> ~ In n (List.filter (fun x => negb (DF.dropped names x)) l).
Proof.
  intros Hn Hin. apply filter_In in Hin. destruct Hin as [_ Hd].
  apply negb_true_iff in Hd. unfold DF.dropped in Hd.
  assert (Ht : existsb (String.eqb n) names = true)
    by (apply existsb_exists; exists n; split; [exact Hn | apply String.eqb_refl]).
  congruence.
Qed.

Lemma project_names (cols : list string) (r : Row) : map fst (project cols r) = cols.
Proof. unfold project. rewrite map_map. apply map_id. Qed.

Lemma NoDup_nth_same {A : Type} (l : list A) (i j : nat) (a : A) :
  NoDup l -> nth_error l i = Some a -> nth_error l j = Some a -> i = j.
Proof.
  intros Hnd Hi Hj. apply (proj1 (NoDup_nth_error l) Hnd).
  - apply nth_error_Some. rewrite Hi. discriminate.
  - congruence.
Qed.

Section Properties.

Variable E : Collaborators.

(** The row-key column evaluates to the key of the row. *)
Lemma rowkey_eval (tokens : list string) (k : string) (r : Row) :
  c_eval (rowkey_column E (map F.col tokens) k) r = VStr (key_of E tokens r).
Proof.
  unfold rowkey_column, key_of. cbn [c_eval F.alias F.concat_ws].
  now rewrite flat_map_map.
Qed.

(** A [select] of the row key and named columns, row by row. *)
Lemma select_key_rows (tokens cols : list string) (k : string) (df out : DataFrame) :
  DF.select (rowkey_column E (map F.col tokens) k :: map F.col cols) df = Ok out ->
  columns out = k :: cols /\
  rows out = map (fun r => (k, VStr (key_of E tokens r)) :: project cols r) (rows df).
Proof.
  intros H. apply select_ok in H. destruct H as [Hc Hr]. split.
  - rewrite Hc. cbn [map]. f_equal. rewrite map_map. cbn [F.col c_name].
    apply map_id.
  - rewrite Hr. apply map_ext. intros r. cbn [map]. f_equal.
    + now rewrite rowkey_eval.
    + unfold project. now rewrite map_map.
Qed.

Lemma dispatch_pixel (c0 : string) :
  dispatch c0 = Pixel <-> Py.startswith c0 "pixel" = true.
Proof.
  unfold dispatch. destruct (Py.startswith c0 "pixel"); [tauto|].
  split; [|discriminate].
  repeat match goal with |- context [if ?b then _ else _] => destruct b end;
    discriminate.
Qed.

Lemma dispatch_literal (c0 : string) (b : branch) (name : string) :
  In (name, b) [("class", Class); ("ssnamenr", Ssnamenr); ("tracklet", Tracklet);
                ("upper", Upper); ("uppervalid", Uppervalid); ("tns", Tns)] ->
  dispatch c0 = b <-> c0 = name.
Proof.
  intros Hin. split.
  - unfold dispatch, Py.startswith.
    destruct (String.prefix "pixel" c0);
      [intros; simpl in Hin; intuition congruence|].
    repeat match goal with
           | |- context [if String.eqb c0 ?s then _ else _] =>
               let Hs := fresh in
               destruct (String.eqb_spec c0 s) as [Hs|Hs]
           end; intros Hb; simpl in Hin; intuition congruence.
  - intros ->. simpl in Hin.
    repeat match goal with
           | H : _ \/ _ |- _ => destruct H
           | H : (_, _) = (_, _) |- _ => inversion H; subst; clear H
           | H : False |- _ => destruct H
           end; reflexivity.
Qed.

Lemma build_index_branch (args : Args) (df : DataFrame) :
  build_index E args df
  = run_branch E (dispatch (first_token (index_table args))) args
      (Py.split "_" (index_table args)) (first_token (index_table args)) df.
Proof. unfold build_index. now rewrite columns0. Qed.


Lemma run_branch_rowkeyname (b : branch) (args : Args) (columns : list string)
    (column0 : string) (df out : DataFrame) (k : string) :
  run_branch E b args columns column0 df = Ok (out, k) ->
  k = match b with
      | Upper | Uppervalid => "objectId_jd"
      | _ => index_table args
      end.
Proof.
  destruct b; cbn [run_branch]; intros H;
    repeat bind_inv H; now inversion H.
Qed.

(** C8: whatever is pushed goes to the table named by the database
    name, a dot and the first token of the identifier, under a row-key
    column named by the whole identifier, or [objectId_jd] when the first
    token is [upper] or [uppervalid]. *)
Theorem C8_table_and_rowkey_names (args : Args) (p : PushCall) :
  main E args = Ok p ->
  push_table_name p
  = (science_db_name args ++ "." ++ first_token (index_table args))%string
  /\ push_rowkeyname p
     = if String.eqb (first_token (index_table args)) "upper"
          || String.eqb (first_token (index_table args)) "uppervalid"
       then "objectId_jd"
       else index_table args.
Proof.
  unfold main. intros H. bind_inv H. rewrite columns0 in H. cbn [bind] in H.
  bind_inv H. inversion H; subst p; clear H. cbn [push_table_name push_rowkeyname].
  split; [reflexivity|].
  destruct x0 as [out k]. rewrite build_index_branch in Hx0.
  apply run_branch_rowkeyname in Hx0. cbn [snd]. rewrite Hx0.
  set (c0 := first_token (index_table args)).
  destruct (String.eqb_spec c0 "upper") as [Hu|Hu].
  - apply (dispatch_literal c0 Upper "upper") in Hu; [|simpl; tauto].
    now rewrite Hu.
  - destruct (String.eqb_spec c0 "uppervalid") as [Hv|Hv].
    + apply (dispatch_literal c0 Uppervalid "uppervalid") in Hv; [|simpl; tauto].
      now rewrite Hv.
    + destruct (dispatch c0) eqn:Hd; try reflexivity; exfalso.
      * apply Hu. now apply (dispatch_literal c0 Upper "upper"); [simpl; tauto|].
      * apply Hv.
        now apply (dispatch_literal c0 Uppervalid "uppervalid"); [simpl; tauto|].
Qed.

(** C10: the restriction of lines 90-101 tests the whole identifier,
    before and whatever the dispatch on its first token.  When [upper]
    stands anywhere in the identifier, the dataframe [main] hands to
    [attach_rowkey], and from there to the branch the first token
    selects, holds the object identifier and the five history arrays of
    every record and nothing else; when it stands nowhere, the columns
    of the science portal.  For [class_upper] the narrowing therefore
    applies while the first token selects the [class] branch. *)
Theorem C10_upper_anywhere_narrows (args : Args) (dfp : DataFrame)
    (cf : list (string * string)) :
  prepare E args = Ok (dfp, cf) ->
  exists df0 dfr,
    load_parquet_files E
      (agg_data_prefix args ++ "/science/year=" ++ String.substring 0 4 (night args)
         ++ "/month=" ++ String.substring 4 2 (night args)
         ++ "/day=" ++ String.substring 6 2 (night args)) = Ok df0
    /\ attach_rowkey E dfr = Ok dfp
    /\ main E args
       = (ix <- build_index E args dfp ;;
          Ok {| push_df := fst ix;
                push_table_name :=
                  (science_db_name args ++ "." ++ first_token (index_table args))%string;
                push_rowkeyname := snd ix;
                push_cf := cf;
                push_catfolder := science_db_catalogs args |})
    /\ ((exists a b, index_table args = (a ++ "upper" ++ b)%string) ->
        columns dfr = ["objectId"; "jd"; "fid"; "magpsf"; "sigmapsf"; "diffmaglim"]
        /\ rows dfr
           = map (fun r =>
                    [ ("objectId", lookup "objectId" r);
                      ("jd", get_field "jd" (lookup "prv_candidates" r));
                      ("fid", get_field "fid" (lookup "prv_candidates" r));
                      ("magpsf", get_field "magpsf" (lookup "prv_candidates" r));
                      ("sigmapsf", get_field "sigmapsf" (lookup "prv_candidates" r));
                      ("diffmaglim",
                       get_field "diffmaglim" (lookup "prv_candidates" r)) ])
                 (rows df0))
    /\ ((~ exists a b, index_table args = (a ++ "upper" ++ b)%string) ->
        columns dfr
        = fst (fst (load_science_portal_column_names E))
            ++ snd (fst (load_science_portal_column_names E))
            ++ snd (load_science_portal_column_names E)).
Proof.
  intros Hp. pose proof Hp as Hmain. unfold prepare in Hp.
  bind_case Hp as df0 Hdf0.
  destruct (load_science_portal_column_names E) as [[ci cd] cb].
  bind_case Hp as dfr Hdfr. bind_case Hp as dfa Hdfa. inversion Hp; subst; clear Hp.
  exists df0, dfr. split; [exact Hdf0|]. split; [exact Hdfa|]. split.
  { unfold main. rewrite Hmain. cbn [bind]. rewrite columns0. reflexivity. }
  unfold restrict_columns in Hdfr. split.
  - intros Hup. apply contains_app in Hup. rewrite Hup in Hdfr.
    apply select_ok in Hdfr. destruct Hdfr as [Hc Hr]. split; [exact Hc|].
    rewrite Hr. cbn [DF.drop rows]. rewrite !map_map. apply map_ext. intros r.
    cbn [map history_cols c_name c_eval F.col F.field].
    rewrite !lookup_dropped by reflexivity. reflexivity.
  - intros Hno. cbn [fst snd].
    destruct (Py.contains "upper" (index_table args)) eqn:Hc;
      [exfalso; apply Hno; now apply contains_app|].
    apply select_ok in Hdfr. destruct Hdfr as [-> _].
    rewrite map_map. apply map_id.
Qed.

(** *** When the filtering branches succeed *)

Lemma forallb_flat_refs (df : DataFrame) (names : list string) :
  Forall (fun c => DF.resolves df c = true) names ->
  forallb (fun c => forallb (DF.resolves df) (c_refs c)) (map F.col names) = true.
Proof.
  induction 1 as [|n names Hn _ IH]; [reflexivity|].
  cbn [map forallb c_refs F.col]. now rewrite Hn, IH.
Qed.

(** The [select] of a row key and named columns goes through when the
    tokens and the columns resolve. *)
Lemma key_select_total (tokens cols : list string) (k : string) (df : DataFrame) :
  Forall (fun c => DF.resolves df c = true) (tokens ++ cols) ->
  exists out,
    DF.select (rowkey_column E (map F.col tokens) k :: map F.col cols) df = Ok out.
Proof.
  intros Hall. apply Forall_app in Hall. destruct Hall as [Ht Hc].
  unfold DF.select, DF.analyse. cbn [forallb].
  rewrite (forallb_flat_refs df cols Hc).
  replace (forallb (DF.resolves df)
             (c_refs (rowkey_column E (map F.col tokens) k))) with true.
  - cbn [andb bind]. eauto.
  - symmetry. cbn [c_refs rowkey_column F.alias F.concat_ws].
    rewrite flat_map_map. cbn [c_refs F.col].
    clear Hc. induction Ht as [|n names Hn _ IH]; [reflexivity|].
    cbn [flat_map app forallb]. now rewrite Hn, IH.
Qed.

Lemma filter_total (c : Column) (df : DataFrame) :
  forallb (DF.resolves df) (c_refs c) = true ->
  exists out, DF.filter c df = Ok out /\ columns out = columns df.
Proof.
  intros Hc. unfold DF.filter, DF.analyse. cbn [forallb]. rewrite Hc.
  cbn [andb bind]. eauto.
Qed.

Lemma resolves_columns (df df' : DataFrame) (n : string) :
  columns df' = columns df -> DF.resolves df' n = DF.resolves df n.
Proof. unfold DF.resolves. now intros ->. Qed.

(** The tracklet kind builds its view whenever [tracklet], the tokens
    and the common columns resolve in the dataframe. *)
Lemma tracklet_total (args : Args) (df : DataFrame) :
  first_token (index_table args) = "tracklet" ->
  Forall (fun c => DF.resolves df c = true)
         ("tracklet" :: Py.split "_" (index_table args) ++ common_cols) ->
  exists out, build_index E args df = Ok (out, index_table args).
Proof.
  intros Hc0 Hall. inversion Hall as [|? ? Htr Hrest]; subst.
  rewrite build_index_branch, Hc0. change (dispatch "tracklet") with Tracklet.
  cbn [run_branch]. unfold tracklet_rows.
  destruct (filter_total (F.neq_str (F.col "tracklet") "null") df)
    as [df1 [Hdf1 Hc1]]; [cbn; now rewrite Htr|].
  rewrite Hdf1. cbn [bind].
  destruct (filter_total (F.neq_str (F.col "tracklet") "") df1)
    as [df2 [Hdf2 Hc2]];
    [cbn [c_refs F.neq_str F.col forallb];
     rewrite (resolves_columns df df1 _ Hc1); now rewrite Htr|].
  rewrite Hdf2. cbn [bind].
  destruct (key_select_total (Py.split "_" (index_table args)) common_cols
              (index_table args) df2) as [out Hout].
  - eapply Forall_impl; [|exact Hrest]. cbv beta. intros c Hc.
    rewrite (resolves_columns df1 df2 _ Hc2), (resolves_columns df df1 _ Hc1).
    exact Hc.
  - rewrite Hout. cbn [bind]. eauto.
Qed.

(** The minor-planet kind builds its view whenever [roid], the tokens
    and the common columns resolve in the dataframe. *)
Lemma ssnamenr_total (args : Args) (df : DataFrame) :
  first_token (index_table args) = "ssnamenr" ->
  Forall (fun c => DF.resolves df c = true)
         ("roid" :: Py.split "_" (index_table args) ++ common_cols) ->
  exists out, build_index E args df = Ok (out, index_table args).
Proof.
  intros Hc0 Hall. inversion Hall as [|? ? Hro Hrest]; subst.
  rewrite build_index_branch, Hc0. change (dispatch "ssnamenr") with Ssnamenr.
  cbn [run_branch]. unfold ssnamenr_rows.
  destruct (filter_total (F.eq_long (F.col "roid") 3) df)
    as [df1 [Hdf1 Hc1]]; [cbn; now rewrite Hro|].
  rewrite Hdf1. cbn [bind].
  destruct (key_select_total (Py.split "_" (index_table args)) common_cols
              (index_table args) df1) as [out Hout].
  - eapply Forall_impl; [|exact Hrest]. cbv beta. intros c Hc.
    rewrite (resolves_columns df df1 _ Hc1). exact Hc.
  - rewrite Hout. cbn [bind]. eauto.
Qed.

(** The two exploded kinds are among the identifiers that hold [upper],
    so that both work on the narrowed dataframe. *)
Lemma exploded_kinds_hold_upper (index_table : string) :
  first_token index_table = "upper" \/ first_token index_table = "uppervalid" ->
  Py.contains "upper" index_table = true.
Proof.
  intros Hc0. destruct (first_token_spec index_table) as [rest [Hit _]].
  apply contains_app. destruct Hc0 as [Hc0|Hc0]; rewrite Hc0 in Hit.
  - exists EmptyString, rest. exact Hit.
  - exists EmptyString, ("valid" ++ rest)%string. exact Hit.
Qed.

(** C5: in the tracklet kind a record is kept exactly when its tracklet
    cell is a string other than the two sentinels, the empty string and
    [null]; the view holds one row per kept record, in order. *)
Theorem C5_tracklet_rows (args : Args) (df out : DataFrame) (k : string) :
  first_token (index_table args) = "tracklet" ->
  build_index E args df = Ok (out, k) ->
  exists keep : Row -> bool,
    (forall r, keep r = true <->
               exists s, lookup "tracklet" r = VStr s
                         /\ s <> EmptyString /\ s <> "null")
    /\ rows out
       = map (fun r =>
                (index_table args,
                 VStr (key_of E (Py.split "_" (index_table args)) r))
                  :: project common_cols r)
             (List.filter keep (rows df)).
Proof.
  intros Hc0 H. rewrite build_index_branch, Hc0 in H.
  change (dispatch "tracklet") with Tracklet in H. cbn [run_branch] in H.
  bind_inv H. bind_inv H. inversion H; subst; clear H.
  unfold tracklet_rows in Hx. bind_inv Hx.
  apply filter_ok in Hx1, Hx. destruct Hx1 as [_ Hr1]. destruct Hx as [_ Hr].
  apply select_key_rows in Hx0. destruct Hx0 as [_ Hout].
  rewrite Hout, Hr, Hr1, filter_twice.
  eexists. split; [|reflexivity].
  intros r. cbn [c_eval F.neq_str F.col].
  destruct (lookup "tracklet" r) as [| | | |s| |] eqn:Ht; cbn [DF.truth andb];
    try (split; [discriminate | intros [s' [Hs' _]]; discriminate]).
  destruct (String.eqb_spec s "null") as [->|Hn]; cbn [negb DF.truth andb].
  - split; [discriminate | intros [s' [Hs' [_ Hs'']]]]. congruence.
  - destruct (String.eqb_spec s "") as [->|He]; cbn [negb DF.truth].
    + split; [discriminate | intros [s' [Hs' [Hs'' _]]]]. congruence.
    + split; [intros _; exists s; auto | reflexivity].
Qed.

(** C6: in the minor-planet kind a record is kept exactly when its roid
    cell is the integer 3; the view holds one row per kept record, in
    order. *)
Theorem C6_ssnamenr_rows (args : Args) (df out : DataFrame) (k : string) :
  first_token (index_table args) = "ssnamenr" ->
  build_index E args df = Ok (out, k) ->
  exists keep : Row -> bool,
    (forall r, keep r = true <-> lookup "roid" r = VLong 3)
    /\ rows out
       = map (fun r =>
                (index_table args,
                 VStr (key_of E (Py.split "_" (index_table args)) r))
                  :: project common_cols r)
             (List.filter keep (rows df)).
Proof.
  intros Hc0 H. rewrite build_index_branch, Hc0 in H.
  change (dispatch "ssnamenr") with Ssnamenr in H. cbn [run_branch] in H.
  bind_inv H. bind_inv H. inversion H; subst; clear H.
  apply filter_ok in Hx. destruct Hx as [_ Hr].
  apply select_key_rows in Hx0. destruct Hx0 as [_ Hout].
  rewrite Hout, Hr.
  eexists. split; [|reflexivity].
  intros r. cbn [c_eval F.eq_long F.col].
  destruct (lookup "roid" r) as [| |z| | | |] eqn:Ht; cbn [DF.truth];
    try (split; discriminate).
  destruct (Z.eqb_spec z 3) as [->|Hz].
  - tauto.
  - split; [discriminate | intros Hz'; inversion Hz'; contradiction].
Qed.

Lemma getitem_nth {A : Type} (l : list A) (i : nat) (a d : A) :
  Py.getitem l i = Ok a -> nth i l d = a.
Proof.
  unfold Py.getitem. destruct (nth_error l i) eqn:Hn; [|discriminate].
  intros Ha; inversion Ha; subst. now apply nth_error_nth.
Qed.

Lemma project_set_cell (cols : list string) (name : string) (v : value) (r : Row) :
  existsb (String.eqb name) cols = false ->
  project cols (DF.set_cell name v r) = project cols r.
Proof.
  unfold project. induction cols as [|c cols IH]; simpl; [reflexivity|].
  rewrite orb_false_iff. intros [Hc Hcols].
  rewrite lookup_set_cell, String.eqb_sym, Hc. now rewrite IH.
Qed.

(** The key of a row to which [withColumn] gave the column its first
    token names. *)
Lemma key_of_set_cell (c0 : string) (rest : list string) (v : value) (r : Row) :
  key_of E (c0 :: rest) (DF.set_cell c0 v r)
  = Py.join "_"
      (F.render E v
         ++ flat_map (fun t => F.render E (if String.eqb t c0 then v else lookup t r))
                     rest).
Proof.
  unfold key_of. cbn [flat_map]. rewrite lookup_set_cell, String.eqb_refl.
  do 2 f_equal. apply flat_map_ext. intros t. now rewrite lookup_set_cell.
Qed.

(** C1, as the code has it: in the pixel kind the view has the row-key
    column and [objectId] and one row per record; the key joins with
    underscores the pixel index and the cells of the columns the
    remaining tokens name (null cells skipped), not the tokens
    themselves, so that a one-token identifier gives the pixel index
    alone. *)
Theorem C1_pixel_rows (args : Args) (df out : DataFrame) (k : string) :
  Py.startswith (first_token (index_table args)) "pixel" = true ->
  build_index E args df = Ok (out, k) ->
  exists nside,
    Py.int (nth 1 (Py.split "pixel" (first_token (index_table args))) EmptyString)
    = Ok nside
    /\ k = index_table args
    /\ columns out = [index_table args; "objectId"]
    /\ rows out
       = map (fun r =>
                let pixel := ang2pix E (lookup "ra" r) (lookup "dec" r) (VLong nside) in
                [ (index_table args,
                   VStr (Py.join "_"
                           (F.render E pixel
                              ++ flat_map
                                   (fun t =>
                                      F.render E
                                        (if String.eqb t (first_token (index_table args))
                                         then pixel else lookup t r))
                                   (tl (Py.split "_" (index_table args))))));
                  ("objectId", lookup "objectId" r) ])
             (rows df).
Proof.
  intros Hp H. rewrite build_index_branch in H.
  rewrite (proj2 (dispatch_pixel _) Hp) in H. cbn [run_branch] in H.
  bind_case H as df1 Hdf1. bind_case H as df2 Hdf2. inversion H; subst; clear H.
  unfold pixel_rows in Hdf1.
  bind_case Hdf1 as digits Hdigits. bind_case Hdf1 as nside Hnside.
  bind_case Hdf1 as ra Hra. bind_case Hdf1 as dec Hdec.
  bind_case Hdf1 as level Hlevel.
  apply getitem_ok in Hra, Hdec. apply lit_int_ok in Hlevel.
  destruct Hra as [-> _], Hdec as [-> _], Hlevel as [-> _].
  apply (getitem_nth _ _ _ EmptyString) in Hdigits. subst digits.
  exists nside. split; [exact Hnside|]. split; [reflexivity|].
  apply withColumn_ok in Hdf1. destruct Hdf1 as [_ Hr].
  apply select_ok in Hdf2. destruct Hdf2 as [Hc Hout].
  split; [exact Hc|].
  rewrite Hout, Hr, map_map. apply map_ext. intros r.
  cbn [map c_name c_eval F.col F.udf F.lit nth rowkey_column F.alias].
  change (c_eval (F.concat_ws E "_" (map F.col (Py.split "_" (index_table args)))))
    with (c_eval (rowkey_column E (map F.col (Py.split "_" (index_table args)))
                    (index_table args))).
  rewrite rowkey_eval, (columns_first (index_table args)) at 1.
  rewrite key_of_set_cell, lookup_set_cell.
  apply prefix_app in Hp. destruct Hp as [n Hn].
  replace (String.eqb "objectId" (first_token (index_table args))) with false
    by (rewrite Hn; reflexivity).
  reflexivity.
Qed.

(** C7, as the code has it: in the classification kind the label is
    computed from thirteen columns, in this order; the key joins with
    underscores the label and the cells of the columns the remaining
    tokens name (null cells skipped); the view has the row-key column
    and the common projection, one row per record. *)
Theorem C7_class_rows (args : Args) (df out : DataFrame) (k : string) :
  first_token (index_table args) = "class" ->
  build_index E args df = Ok (out, k) ->
  k = index_table args
  /\ columns out = index_table args :: common_cols
  /\ rows out
     = map (fun r =>
              let label :=
                extract_fink_classification E
                  (map (fun c => lookup c r)
                       [ "cdsxmatch"; "roid"; "mulens"; "snn_snia_vs_nonia";
                         "snn_sn_vs_all"; "rf_snia_vs_nonia"; "ndethist"; "drb";
                         "classtar"; "jd"; "jdstarthist"; "rf_kn_vs_nonkn";
                         "tracklet" ]) in
              (index_table args,
               VStr (Py.join "_"
                       (F.render E label
                          ++ flat_map
                               (fun t =>
                                  F.render E
                                    (if String.eqb t "class" then label else lookup t r))
                               (tl (Py.split "_" (index_table args))))))
                :: project common_cols r)
           (rows df).
Proof.
  intros Hc0 H. rewrite build_index_branch, Hc0 in H.
  change (dispatch "class") with Class in H. cbn [run_branch] in H.
  bind_inv H. bind_inv H. inversion H; subst; clear H.
  apply withColumn_ok in Hx. destruct Hx as [_ Hr].
  apply select_key_rows in Hx0. destruct Hx0 as [Hc Hout].
  split; [reflexivity|]. split; [exact Hc|].
  rewrite Hout, Hr, map_map. apply map_ext. intros r.
  rewrite (columns_first (index_table args)), Hc0 at 1.
  rewrite key_of_set_cell, project_set_cell by reflexivity.
  cbn [c_eval F.udf]. rewrite map_map. reflexivity.
Qed.

(** C2: the [upper] and [uppervalid] kinds explode the same rows; a row
    goes to the [upper] view (without its two magnitude cells) exactly
    when its [magpsf] is null and to the [uppervalid] view exactly when
    it is not, so every exploded row is in one view and in one only. *)
Theorem C2_upper_uppervalid_partition (args_u args_v : Args)
    (df out_u out_v : DataFrame) (k_u k_v : string) :
  first_token (index_table args_u) = "upper" ->
  first_token (index_table args_v) = "uppervalid" ->
  build_index E args_u df = Ok (out_u, k_u) ->
  build_index E args_v df = Ok (out_v, k_v) ->
  exists df_ex,
    explode_history E "objectId_jd" df = Ok df_ex
    /\ rows out_u
       = map (List.filter
                (fun kv : string * value =>
                   negb (DF.dropped ["magpsf"; "sigmapsf"] (fst kv))))
             (List.filter (fun r => is_null (lookup "magpsf" r)) (rows df_ex))
    /\ rows out_v
       = List.filter (fun r => negb (is_null (lookup "magpsf" r))) (rows df_ex)
    /\ (forall r, is_null (lookup "magpsf" r) = true <-> lookup "magpsf" r = VNull)
    /\ List.length (rows out_u) + List.length (rows out_v) = List.length (rows df_ex).
Proof.
  intros Hu Hv Bu Bv. rewrite build_index_branch in Bu, Bv. rewrite Hu in Bu.
  rewrite Hv in Bv.
  change (dispatch "upper") with Upper in Bu.
  change (dispatch "uppervalid") with Uppervalid in Bv.
  cbn [run_branch] in Bu, Bv.
  bind_case Bu as df_ex Hex. bind_case Bu as du Hdu. inversion Bu; subst; clear Bu.
  rewrite Hex in Bv. cbn [bind] in Bv.
  bind_case Bv as dv Hdv. inversion Bv; subst; clear Bv.
  apply filter_ok in Hdu, Hdv. destruct Hdu as [_ Hdu]. destruct Hdv as [_ Hdv].
  exists df_ex. split; [exact Hex|].
  assert (Hru : rows du = List.filter (fun r => is_null (lookup "magpsf" r)) (rows df_ex)).
  { rewrite Hdu. apply filter_ext. intros r. cbn [c_eval F.invert F.isNotNull F.col].
    now destruct (is_null (lookup "magpsf" r)). }
  assert (Hrv : rows out_v
                = List.filter (fun r => negb (is_null (lookup "magpsf" r))) (rows df_ex)).
  { rewrite Hdv. apply filter_ext. intros r. cbn [c_eval F.isNotNull F.col].
    now destruct (is_null (lookup "magpsf" r)). }
  split; [cbn [DF.drop rows]; now rewrite Hru|].
  split; [exact Hrv|].
  split; [intros r; destruct (lookup "magpsf" r); simpl; split; congruence|].
  cbn [DF.drop rows]. rewrite length_map, Hru, Hrv. apply filter_split_length.
Qed.

Lemma select_key_lookup (cols others : list Column) (k : string) (pre out : DataFrame) :
  DF.select (rowkey_column E cols k :: others) pre = Ok out ->
  rows out
  = map (fun r => (k, VStr (Py.join "_" (key_pieces E cols r)))
                    :: map (fun c => (c_name c, c_eval c r)) others)
        (rows pre).
Proof.
  intros H. apply select_ok in H. destruct H as [_ ->]. reflexivity.
Qed.

Lemma lookup_head (k : string) (v : value) (r : Row) : lookup k ((k, v) :: r) = v.
Proof. simpl. now rewrite String.eqb_refl. Qed.

(** [drop] leaves the first cell in front when its column stays. *)
Lemma lookup_kept_head (names : list string) (k : string) (v : value) (r : Row) :
  DF.dropped names k = false ->
  lookup k (List.filter (fun kv : string * value => negb (DF.dropped names (fst kv)))
                        ((k, v) :: r)) = v.
Proof.
  intros Hk. simpl. rewrite Hk. simpl. now rewrite String.eqb_refl.
Qed.

(** In every branch the key cell of a row of the view is the join of the
    key pieces of the row it was computed on, and the view keeps a
    filtered part of those rows. *)
Lemma build_index_keys (args : Args) (df out : DataFrame) (k : string) :
  build_index E args df = Ok (out, k) ->
  exists pre cols keep,
    keyed E args df = Ok (pre, cols)
    /\ (cols = map F.col (Py.split "_" (index_table args)) \/ cols = history_key)
    /\ map (lookup k) (rows out)
       = map (fun r => VStr (Py.join "_" (key_pieces E cols r)))
             (List.filter keep (rows pre)).
Proof.
  intros H. rewrite build_index_branch in H. unfold keyed. rewrite columns0.
  cbn [bind]. destruct (dispatch (first_token (index_table args))) eqn:Hd;
    cbn [run_branch] in H.
  - (* pixel *)
    bind_case H as df1 Hdf1. bind_case H as df2 Hdf2. inversion H; subst; clear H.
    rewrite Hdf1. cbn [bind]. eexists df1, _, (fun _ => true).
    split; [reflexivity|]. split; [now left|].
    rewrite (select_key_lookup _ _ _ _ _ Hdf2), filter_all, map_map.
    apply map_ext. intros r. apply lookup_head.
  - (* class *)
    bind_case H as df1 Hdf1. bind_case H as df2 Hdf2. inversion H; subst; clear H.
    rewrite Hdf1. cbn [bind]. eexists df1, _, (fun _ => true).
    split; [reflexivity|]. split; [now left|].
    rewrite (select_key_lookup _ _ _ _ _ Hdf2), filter_all, map_map.
    apply map_ext. intros r. apply lookup_head.
  - (* ssnamenr *)
    bind_case H as df1 Hdf1. bind_case H as df2 Hdf2. inversion H; subst; clear H.
    rewrite Hdf1. cbn [bind]. eexists df1, _, (fun _ => true).
    split; [reflexivity|]. split; [now left|].
    rewrite (select_key_lookup _ _ _ _ _ Hdf2), filter_all, map_map.
    apply map_ext. intros r. apply lookup_head.
  - (* tracklet *)
    bind_case H as df1 Hdf1. bind_case H as df2 Hdf2. inversion H; subst; clear H.
    rewrite Hdf1. cbn [bind]. eexists df1, _, (fun _ => true).
    split; [reflexivity|]. split; [now left|].
    rewrite (select_key_lookup _ _ _ _ _ Hdf2), filter_all, map_map.
    apply map_ext. intros r. apply lookup_head.
  - (* upper *)
    bind_case H as df_ex Hex. bind_case H as du Hdu. inversion H; subst; clear H.
    unfold explode_history in Hex. bind_case Hex as df2 Hdf2.
    rewrite Hdf2. cbn [bind].
    apply filter_ok in Hdu. destruct Hdu as [_ Hdu].
    rewrite (select_key_lookup _ _ _ _ _ Hex), filter_of_map in Hdu.
    eexists df2, _, _. split; [reflexivity|]. split; [now right|].
    cbn [DF.drop rows]. rewrite Hdu, !map_map. apply map_ext. intros r.
    now apply lookup_kept_head.
  - (* uppervalid *)
    bind_case H as df_ex Hex. bind_case H as dv Hdv. inversion H; subst; clear H.
    unfold explode_history in Hex. bind_case Hex as df2 Hdf2.
    rewrite Hdf2. cbn [bind].
    apply filter_ok in Hdv. destruct Hdv as [_ Hdv].
    rewrite (select_key_lookup _ _ _ _ _ Hex), filter_of_map in Hdv.
    eexists df2, _, _. split; [reflexivity|]. split; [now right|].
    rewrite Hdv, !map_map. apply map_ext. intros r. apply lookup_head.
  - (* tns *)
    bind_case H as pdf Hpdf. bind_case H as sch Hsch. bind_case H as dfi Hdfi.
    inversion H; subst; clear H Hsch sch.
    bind_case Hdfi as df1 Hdf1. bind_case Hdfi as df2 Hdf2.
    bind_case Hdfi as df3 Hdf3. inversion Hdfi; subst; clear Hdfi.
    unfold tns_rows. rewrite Hpdf. cbn [bind]. rewrite Hdf1. cbn [bind].
    assert (Hk : String.eqb (index_table args) "tns" = false).
    { apply (resolves_head_differs df2
               (map c_name (map F.col common_cols ++ [F.col "tns"]))).
      - apply select_ok in Hdf2. now destruct Hdf2 as [Hc _].
      - rewrite map_app. apply in_or_app. right. now left.
      - unfold DF.filter in Hdf3. bind_case Hdf3 as u Hu. unfold DF.analyse in Hu.
        cbn [forallb c_refs F.neq_str F.col] in Hu.
        destruct (DF.resolves df2 "tns"); [reflexivity|discriminate]. }
    apply filter_ok in Hdf3. destruct Hdf3 as [_ Hdf3].
    rewrite (select_key_lookup _ _ _ _ _ Hdf2), filter_of_map in Hdf3.
    eexists df1, _, _. split; [reflexivity|]. split; [now left|].
    cbn [DF.drop rows]. rewrite Hdf3, !map_map. apply map_ext. intros r.
    apply lookup_kept_head. unfold DF.dropped. cbn [existsb]. now rewrite Hk.
  - (* default *)
    bind_case H as df2 Hdf2. inversion H; subst; clear H.
    eexists df, _, (fun _ => true).
    split; [reflexivity|]. split; [now left|].
    rewrite (select_key_lookup _ _ _ _ _ Hdf2), filter_all, map_map.
    apply map_ext. intros r. apply lookup_head.
Qed.

(** The key pieces read only the cells the key columns refer to. *)
Lemma key_pieces_local (args : Args) (cols : list Column) (r1 r2 : Row) :
  cols = map F.col (Py.split "_" (index_table args)) \/ cols = history_key ->
  (forall n, In n (flat_map c_refs cols) -> lookup n r1 = lookup n r2) ->
  key_pieces E cols r1 = key_pieces E cols r2.
Proof.
  intros [->| ->] Hsame.
  - unfold key_pieces. rewrite !flat_map_map. rewrite flat_map_map in Hsame.
    cbn [c_refs c_eval F.col] in *.
    induction (Py.split "_" (index_table args)) as [|t l IH]; [reflexivity|].
    cbn [flat_map] in *. rewrite (Hsame t) by (simpl; auto). f_equal.
    apply IH. intros n Hn. apply Hsame. simpl. auto.
  - unfold key_pieces, history_key. cbn [flat_map c_eval c_refs F.col F.field] in *.
    rewrite (Hsame "objectId"), (Hsame "tmp") by (simpl; auto). reflexivity.
Qed.

(** Key cells that each cast to one string give one piece per key
    column, underscore-free where the cell is. *)
Lemma key_pieces_cells (P : nat -> Prop) (cols : list Column) (r : Row) :
  (forall j c, nth_error cols j = Some c ->
               exists s, F.render E (c_eval c r) = [s]
                         /\ (P j -> Py.contains "_" s = false)) ->
  List.length (key_pieces E cols r) = List.length cols
  /\ forall j s, P j -> nth_error (key_pieces E cols r) j = Some s ->
                 Py.contains "_" s = false.
Proof.
  revert P; induction cols as [|c cols IH]; intros P Hall.
  - split; [reflexivity|]. intros [|j] s _ Hs; discriminate.
  - destruct (Hall 0 c eq_refl) as [s0 [Hs0 Hclean0]].
    destruct (IH (fun j => P (S j)) (fun j c' Hj => Hall (S j) c' Hj)) as [Hlen Hrest].
    unfold key_pieces in *. cbn [flat_map]. rewrite Hs0. cbn [app List.length].
    split; [now rewrite Hlen|].
    intros [|j] s Hj Hs.
    + inversion Hs; subst. auto.
    + apply (Hrest j s Hj Hs).
Qed.

(** C9, as the code has it: the key of a row of the view is the
    underscore-join of the string casts of the key cells of the row it
    is computed on (null cells skipped), and reads those cells alone.
    When, among the rows kept, every key cell casts to one string, the
    cells of all key columns but one (the same for all rows) are
    underscore-free, and the lists of casts differ from row to row, no
    two rows of the view share a key. *)
Theorem C9_rowkeys_unique (args : Args) (df out : DataFrame) (k : string) :
  build_index E args df = Ok (out, k) ->
  exists pre cols keep,
    keyed E args df = Ok (pre, cols)
    /\ map (lookup k) (rows out)
       = map (fun r => VStr (Py.join "_" (key_pieces E cols r)))
             (List.filter keep (rows pre))
    /\ (forall r1 r2,
          (forall n, In n (flat_map c_refs cols) -> lookup n r1 = lookup n r2) ->
          key_pieces E cols r1 = key_pieces E cols r2)
    /\ (forall free : nat,
        (forall r, In r (List.filter keep (rows pre)) ->
           forall j c, nth_error cols j = Some c ->
             exists s, F.render E (c_eval c r) = [s]
                       /\ (j <> free -> Py.contains "_" s = false)) ->
        NoDup (map (key_pieces E cols) (List.filter keep (rows pre))) ->
        NoDup (map (lookup k) (rows out))).
Proof.
  intros H. destruct (build_index_keys _ _ _ _ H) as [pre [cols [keep [Hk [Hcols Hout]]]]].
  exists pre, cols, keep. split; [exact Hk|]. split; [exact Hout|].
  split; [intros r1 r2; now apply (key_pieces_local args)|].
  intros free Hclean Hnd. rewrite Hout.
  apply (NoDup_map_injective (key_pieces E cols) (fun l => VStr (Py.join "_" l)));
    [|exact Hnd].
  intros x y Hx Hy Heq. inversion Heq as [Hjoin].
  destruct (key_pieces_cells (fun j => j <> free) cols x (Hclean x Hx)) as [Lx Fx].
  destruct (key_pieces_cells (fun j => j <> free) cols y (Hclean y Hy)) as [Ly Fy].
  apply (join_injective_at free); [congruence | exact Fx | exact Fy | exact Hjoin].
Qed.

(** The pandas UDF on one batch: one label per alert, and a label other
    than the empty string is the type of the catalogue entry accepted,
    at less than 1.5/3600 degrees, for the first alert of the batch that
    carries the same object identifier. *)
Lemma crossmatch_accepts (pdf : list tns_entry) (objectid ra dec out : list value) :
  crossmatch_with_tns E pdf objectid ra dec = Ok out ->
  List.length out = List.length objectid
  /\ exists m,
       match_to_catalog_sky E (combine ra dec)
         (combine (map tns_ra pdf) (map tns_declination pdf)) = Ok m
       /\ forall j x t,
            nth_error objectid j = Some x -> nth_error out j = Some t ->
            t <> VStr EmptyString ->
            exists j0 i d e a,
              x = VStr a
              /\ nth_error objectid j0 = Some (VStr a)
              /\ (forall j', j' < j0 -> nth_error objectid j' <> Some (VStr a))
              /\ nth_error m j0 = Some (i, d)
              /\ (d <? 1.5 / 3600)%float = true
              /\ nth_error pdf i = Some e
              /\ t = label (tns_type e).
Proof.
  unfold crossmatch_with_tns. intros H.
  bind_case H as m1 Hm1. bind_case H as m Hm. bind_case H as u Hu.
  bind_case H as tns Htns.
  apply mapM_Forall2 in Htns. pose proof (mapM_Forall2 _ _ _ H) as Hout.
  split; [symmetry; eapply Forall2_length; exact Hout|].
  exists m. split; [exact Hm|].
  intros j x t Hx Ht Hne.
  pose proof (Forall2_nth_error _ _ _ _ _ _ Hout Hx Ht) as Hg. cbv beta in Hg.
  destruct (negb (existsb (py_eq x) (map fst (combine objectid tns))));
    [inversion Hg; congruence|].
  unfold Py.getitem in Hg.
  destruct (List.filter (fun ot => pandas_eq (fst ot) x) (combine objectid tns))
    as [|[x0 t0] rest] eqn:Hf; [discriminate|].
  cbn in Hg. inversion Hg; subst t0; clear Hg.
  destruct (filter_head _ _ _ _ Hf) as [j0 [Hj0 [Hp Hfirst]]].
  cbn [fst] in Hp. apply pandas_eq_true in Hp. destruct Hp as [a [-> ->]].
  apply nth_error_combine in Hj0. destruct Hj0 as [Hid Htj0].
  (* the label at j0 *)
  rewrite combine_fst_snd in Htns.
  assert (Hlen : j0 < List.length m).
  { apply Forall2_length in Htns. rewrite length_map in Htns. rewrite Htns.
    apply nth_error_Some. rewrite Htj0. discriminate. }
  destruct (nth_error m j0) as [[i d]|] eqn:Hmj0;
    [|apply nth_error_None in Hmj0; lia].
  assert (Him : nth_error (map (fun p : nat * float =>
                                  (fst p, (snd p <? 1.5 / 3600)%float)) m) j0
                = Some (i, (d <? 1.5 / 3600)%float))
    by (rewrite nth_error_map, Hmj0; reflexivity).
  pose proof (Forall2_nth_error _ _ _ _ _ _ Htns Him Htj0) as Hh. cbv beta in Hh.
  cbn [fst snd] in Hh.
  destruct (d <? 1.5 / 3600)%float eqn:Hd; [|inversion Hh; congruence].
  bind_case Hh as ty Hty. inversion Hh; subst t; clear Hh.
  unfold Py.getitem in Hty. rewrite nth_error_map in Hty.
  destruct (nth_error pdf i) as [e|] eqn:He; [|discriminate].
  cbn in Hty. inversion Hty; subst ty.
  exists j0, i, d, e, a. repeat split; auto.
  intros j' Hlt Hj'.
  assert (Hj'len : j' < List.length tns).
  { assert (j0 < List.length tns)
      by (apply nth_error_Some; rewrite Htj0; discriminate). lia. }
  destruct (nth_error tns j') as [t'|] eqn:Ht'; [|apply nth_error_None in Ht'; lia].
  assert (Hc : nth_error (combine objectid tns) j' = Some (VStr a, t'))
    by (apply nth_error_combine; auto).
  specialize (Hfirst j' _ Hlt Hc). cbn in Hfirst.
  now rewrite String.eqb_refl in Hfirst.
Qed.

(** A pandas UDF column, batch by batch. *)
Lemma withColumn_pandas_udf_ok (name : string)
    (f : list value -> list value -> list value -> result (list value))
    (a b c : Column) (df out : DataFrame) :
  DF.withColumn_pandas_udf E name f a b c df = Ok out ->
  exists outs : list (list (Row * value)),
    Forall2 (fun batch lab =>
               exists o, f (map (c_eval a) batch) (map (c_eval b) batch)
                           (map (c_eval c) batch) = Ok o
                         /\ List.length o = List.length batch
                         /\ lab = combine batch o)
            (DF.chunk (arrow_batches E) (rows df)) outs
    /\ map fst (concat outs) = rows df
    /\ rows out = map (fun ro => DF.set_cell name (snd ro) (fst ro)) (concat outs).
Proof.
  unfold DF.withColumn_pandas_udf. intros H.
  bind_case H as u Hu. bind_case H as outs Houts. inversion H; subst; clear H.
  apply mapM_Forall2 in Houts. exists outs.
  assert (HF : Forall2 (fun batch lab =>
               exists o, f (map (c_eval a) batch) (map (c_eval b) batch)
                           (map (c_eval c) batch) = Ok o
                         /\ List.length o = List.length batch
                         /\ lab = combine batch o)
            (DF.chunk (arrow_batches E) (rows df)) outs).
  { eapply Forall2_impl; [|exact Houts]. cbv beta. intros batch lab Hb.
    bind_case Hb as o Ho. exists o. split; [exact Ho|].
    destruct (Nat.eqb_spec (List.length o) (List.length batch)) as [Hl|Hl];
      [|discriminate]. inversion Hb. auto. }
  split; [exact HF|]. split; [|reflexivity].
  rewrite <- (chunk_concat (arrow_batches E) (rows df)).
  clear Houts. induction HF as [|batch lab l l' [o [_ [Hl ->]]] _ IH]; [reflexivity|].
  cbn [concat]. rewrite map_app, IH. f_equal. now apply map_fst_combine.
Qed.

(** The row [select] builds in the [tns] branch, its label cell, and
    what [drop] leaves of it. *)
Lemma tns_selected_row (tokens cols : list string) (k : string) (t : value) (r : Row) :
  String.eqb k "tns" = false ->
  existsb (String.eqb "tns") cols = false ->
  let r1 := DF.set_cell "tns" t r in
  let selected :=
    map (fun c => (c_name c, c_eval c r1))
        (rowkey_column E (map F.col tokens) k :: map F.col cols ++ [F.col "tns"]) in
  DF.truth (c_eval (F.neq_str (F.col "tns") "") selected)
  = match t with
    | VStr s => negb (String.eqb s "")
    | _ => false
    end
  /\ List.filter (fun kv : string * value => negb (DF.dropped ["tns"] (fst kv))) selected
     = (k, VStr (key_of E tokens r1)) :: project cols r.
Proof.
  intros Hk Hcols r1 selected.
  assert (Hsel : selected
                 = (k, VStr (key_of E tokens r1))
                     :: project cols r1 ++ [("tns", t)]).
  { unfold selected. cbn [map]. rewrite rowkey_eval. f_equal.
    rewrite map_app, map_map. cbn [map c_name c_eval F.col].
    replace (lookup "tns" r1) with t
      by (unfold r1; now rewrite lookup_set_cell, String.eqb_refl).
    reflexivity. }
  rewrite Hsel. split.
  - cbn [c_eval F.neq_str F.col lookup]. rewrite Hk.
    rewrite lookup_app_miss by (rewrite project_names; exact Hcols).
    cbn [lookup]. rewrite String.eqb_refl.
    destruct t as [| | | |s| |]; try reflexivity.
    cbn [DF.truth]. now destruct (String.eqb s "").
  - cbn [List.filter fst]. unfold DF.dropped at 1. cbn [existsb]. rewrite Hk.
    cbn [orb negb]. f_equal. rewrite filter_app, drop_project.
    + cbn. rewrite app_nil_r. unfold r1. now apply project_set_cell.
    + clear -Hcols. induction cols as [|c cols IH]; [reflexivity|].
      cbn [existsb] in Hcols. apply orb_false_iff in Hcols. destruct Hcols as [Hc Hcols].
      cbn [forallb]. rewrite (IH Hcols). unfold DF.dropped. cbn [existsb].
      rewrite String.eqb_sym, Hc. reflexivity.
Qed.

(** X16: in the [tns] kind the view holds, without the [tns] column,
    the records whose label is a non-empty string, and such a label is
    the type of the catalogue entry accepted at less than 1.5/3600
    degrees for the first alert of the same batch that carries the same
    object identifier: the record itself when the object identifiers of
    its batch are pairwise distinct. *)
Theorem X16_tns_rows (args : Args) (df out : DataFrame) (k : string) :
  first_token (index_table args) = "tns" ->
  build_index E args df = Ok (out, k) ->
  exists (pdf : list tns_entry) (labelled : list (Row * value)),
    tns_catalogue E args = Ok pdf
    /\ map fst labelled = rows df
    /\ ~ In "tns" (columns out)
    /\ rows out
       = map (fun rl =>
                (index_table args,
                 VStr (key_of E (Py.split "_" (index_table args))
                         (DF.set_cell "tns" (snd rl) (fst rl))))
                  :: project common_cols (fst rl))
             (List.filter (fun rl => match snd rl with
                                     | VStr s => negb (String.eqb s "")
                                     | _ => false
                                     end) labelled)
    /\ forall r t,
         In (r, t) labelled -> t <> VStr EmptyString ->
         exists batch m j0 r0 i d e,
           In batch (DF.chunk (arrow_batches E) (rows df))
           /\ In r batch
           /\ match_to_catalog_sky E
                (combine (map (lookup "ra") batch) (map (lookup "dec") batch))
                (combine (map tns_ra pdf) (map tns_declination pdf)) = Ok m
           /\ nth_error batch j0 = Some r0
           /\ lookup "objectId" r0 = lookup "objectId" r
           /\ nth_error m j0 = Some (i, d)
           /\ (d <? 1.5 / 3600)%float = true
           /\ nth_error pdf i = Some e
           /\ t = label (tns_type e)
           /\ (forall j' r', j' < j0 -> nth_error batch j' = Some r' ->
                              lookup "objectId" r' <> lookup "objectId" r)
           /\ (NoDup (map (lookup "objectId") batch) -> r0 = r).
Proof.
  intros Hc0 H. rewrite build_index_branch, Hc0 in H.
  change (dispatch "tns") with Tns in H. cbn [run_branch] in H.
  bind_case H as pdf Hpdf. bind_case H as sch Hsch. bind_case H as dfi Hdfi.
  inversion H; subst; clear H Hsch sch.
  bind_case Hdfi as df1 Hdf1. bind_case Hdfi as df2 Hdf2.
  bind_case Hdfi as df3 Hdf3. inversion Hdfi; subst; clear Hdfi.
  assert (Hk : String.eqb (index_table args) "tns" = false).
  { apply (resolves_head_differs df2
             (map c_name (map F.col common_cols ++ [F.col "tns"]))).
    - apply select_ok in Hdf2. now destruct Hdf2 as [Hc _].
    - rewrite map_app. apply in_or_app. right. now left.
    - unfold DF.filter in Hdf3. bind_case Hdf3 as u Hu. unfold DF.analyse in Hu.
      cbn [forallb c_refs F.neq_str F.col] in Hu.
      destruct (DF.resolves df2 "tns"); [reflexivity|discriminate]. }
  unfold tns_labels in Hdf1.
  apply withColumn_pandas_udf_ok in Hdf1. destruct Hdf1 as [outs [HF [Hfst Hrows1]]].
  exists pdf, (concat outs).
  split; [exact Hpdf|]. split; [exact Hfst|].
  split; [cbn [DF.drop columns]; apply dropped_not_in; now left|].
  split.
  - apply filter_ok in Hdf3. destruct Hdf3 as [_ Hdf3].
    apply select_ok in Hdf2. destruct Hdf2 as [_ Hdf2].
    cbn [DF.drop rows]. rewrite Hdf3, Hdf2, filter_of_map, Hrows1, filter_of_map.
    rewrite !map_map.
    erewrite filter_ext.
    + apply map_ext. intros [r t]. cbn [fst snd].
      apply (proj2 (tns_selected_row _ common_cols _ t r Hk eq_refl)).
    + intros [r t]. cbn [fst snd].
      apply (proj1 (tns_selected_row _ common_cols _ t r Hk eq_refl)).
  - intros r t Hin Hne.
    apply in_concat in Hin. destruct Hin as [lab [Hlab Hin]].
    destruct (Forall2_In_r _ _ _ _ HF Hlab) as [batch [Hbatch [o [Ho [Hlen ->]]]]].
    apply In_nth_error in Hin. destruct Hin as [j Hj].
    apply nth_error_combine in Hj. destruct Hj as [Hr Ht].
    apply crossmatch_accepts in Ho. destruct Ho as [_ [m [Hm Hacc]]].
    assert (Hx : nth_error (map (c_eval (F.col "objectId")) batch) j
                 = Some (lookup "objectId" r))
      by (rewrite nth_error_map, Hr; reflexivity).
    destruct (Hacc j _ t Hx Ht Hne)
      as [j0 [i [d [e [a [Ha [Hj0 [Hfirst [Hmj0 [Hd [He Hlabel]]]]]]]]]]].
    rewrite nth_error_map in Hj0.
    destruct (nth_error batch j0) as [r0|] eqn:Hr0; [|discriminate].
    cbn in Hj0. inversion Hj0 as [Hid0].
    exists batch, m, j0, r0, i, d, e.
    repeat split; auto.
    + eapply nth_error_In. exact Hr.
    + congruence.
    + intros j' r' Hlt Hr' Heq. apply (Hfirst j' Hlt).
      rewrite nth_error_map, Hr'. cbn. rewrite Heq. now rewrite <- Ha.
    + intros Hnd.
      assert (Hjj : j0 = j).
      { apply (NoDup_nth_same (map (lookup "objectId") batch) j0 j (VStr a) Hnd).
        - rewrite nth_error_map, Hr0. cbn. now rewrite Hid0.
        - rewrite nth_error_map, Hr. cbn. now rewrite <- Ha. }
      subst j0. congruence.
Qed.

End Properties.

(** ** Runs on the small night *)

Lemma C8_witness :
  main (Demo.env Demo.night) (Demo.args_for "upper_objectId_jd") = Ok Demo.upper_push
  /\ push_table_name Demo.upper_push = "ztf.upper"
  /\ push_rowkeyname Demo.upper_push = "objectId_jd".
Proof.
  assert (H : main (Demo.env Demo.night) (Demo.args_for "upper_objectId_jd")
              = Ok Demo.upper_push) by (vm_compute; reflexivity).
  split; [exact H|].
  exact (C8_table_and_rowkey_names _ _ _ H).
Defined.


Lemma C10_witness :
  first_token "class_upper" = "class"
  /\ dispatch (first_token "class_upper") = Class
  /\ prepare Runs.E (Demo.args_for "class_upper") = Ok Runs.class_upper_prepared
  /\ columns (fst Runs.class_upper_prepared)
     = ["objectId"; "jd"; "fid"; "magpsf"; "sigmapsf"; "diffmaglim"]
  /\ rows (fst Runs.class_upper_prepared)
     = map (fun r =>
              [ ("objectId", lookup "objectId" r);
                ("jd", get_field "jd" (lookup "prv_candidates" r));
                ("fid", get_field "fid" (lookup "prv_candidates" r));
                ("magpsf", get_field "magpsf" (lookup "prv_candidates" r));
                ("sigmapsf", get_field "sigmapsf" (lookup "prv_candidates" r));
                ("diffmaglim", get_field "diffmaglim" (lookup "prv_candidates" r)) ])
           Demo.night.
Proof.
  assert (Hp : prepare Runs.E (Demo.args_for "class_upper")
               = Ok (fst Runs.class_upper_prepared, snd Runs.class_upper_prepared))
    by (vm_compute; reflexivity).
  split; [reflexivity|]. split; [reflexivity|]. split; [exact Hp|].
  destruct (C10_upper_anywhere_narrows Runs.E (Demo.args_for "class_upper") _ _ Hp)
    as [df0 [dfr [Hload [Hattach [_ [Hup _]]]]]].
  injection Hload as <-. injection Hattach as ->.
  exact (Hup (ex_intro _ "class_" (ex_intro _ EmptyString eq_refl))).
Defined.

Lemma C5_witness :
  build_index (Demo.env Demo.night) (Demo.args_for "tracklet_objectId")
    (Demo.night_of Demo.night) = Ok (Demo.tracklet_view, "tracklet_objectId")
  /\ map (lookup "objectId") (rows Demo.tracklet_view) = [VStr "ZTF21aaa"]
  /\ exists keep : Row -> bool,
       (forall r, keep r = true <->
                  exists s, lookup "tracklet" r = VStr s
                            /\ s <> EmptyString /\ s <> "null")
       /\ rows Demo.tracklet_view
          = map (fun r =>
                   ("tracklet_objectId",
                    VStr (key_of (Demo.env Demo.night) ["tracklet"; "objectId"] r))
                     :: project common_cols r)
                (List.filter keep Demo.night).
Proof.
  assert (H : build_index (Demo.env Demo.night) (Demo.args_for "tracklet_objectId")
                (Demo.night_of Demo.night) = Ok (Demo.tracklet_view, "tracklet_objectId"))
    by (vm_compute; reflexivity).
  split; [exact H|]. split; [reflexivity|].
  exact (C5_tracklet_rows (Demo.env Demo.night) (Demo.args_for "tracklet_objectId")
           _ _ _ eq_refl H).
Defined.

Lemma C6_witness :
  build_index (Demo.env Demo.night) (Demo.args_for "ssnamenr_jd")
    (Demo.night_of Demo.night) = Ok (Demo.ssnamenr_view, "ssnamenr_jd")
  /\ map (lookup "objectId") (rows Demo.ssnamenr_view) = [VStr "ZTF21aaa"]
  /\ exists keep : Row -> bool,
       (forall r, keep r = true <-> lookup "roid" r = VLong 3)
       /\ rows Demo.ssnamenr_view
          = map (fun r =>
                   ("ssnamenr_jd",
                    VStr (key_of (Demo.env Demo.night) ["ssnamenr"; "jd"] r))
                     :: project common_cols r)
                (List.filter keep Demo.night).
Proof.
  assert (H : build_index (Demo.env Demo.night) (Demo.args_for "ssnamenr_jd")
                (Demo.night_of Demo.night) = Ok (Demo.ssnamenr_view, "ssnamenr_jd"))
    by (vm_compute; reflexivity).
  split; [exact H|]. split; [reflexivity|].
  exact (C6_ssnamenr_rows (Demo.env Demo.night) (Demo.args_for "ssnamenr_jd")
           _ _ _ eq_refl H).
Defined.

(** The scenario of C1 as stated: one alert at ra 10, dec 20 and the
    identifier [pixel128].  The single row's key is the pixel index
    alone, not the index followed by [_pixel128]. *)
Lemma C1_counterexample :
  Demo.run [Demo.alert1] "pixel128" = Ok Demo.pixel_push
  /\ lookup "ra" Demo.alert1 = VDouble 10
  /\ lookup "dec" Demo.alert1 = VDouble 20
  /\ F.cast_string (Demo.env [Demo.alert1])
       (ang2pix (Demo.env [Demo.alert1]) (VDouble 10) (VDouble 20) (VLong 128))
     = Some "64270"
  /\ rows (push_df Demo.pixel_push)
     = [[("pixel128", VStr "64270"); ("objectId", VStr "ZTF21aaa")]]
  /\ VStr "64270" <> VStr "64270_pixel128".
Proof.
  repeat split; try (vm_compute; reflexivity). discriminate.
Qed.

Lemma C1_witness :
  build_index (Demo.env Demo.night) (Demo.args_for "pixel128_jd_objectId")
    (Demo.night_of Demo.night) = Ok (Demo.pixel_view, "pixel128_jd_objectId")
  /\ map (lookup "pixel128_jd_objectId") (rows Demo.pixel_view)
     = [ VStr "64270_2459001.5_ZTF21aaa"; VStr "2459001.5_ZTF21bbb";
         VStr "2459001.5_ZTF21ccc" ]
  /\ exists nside,
       Py.int (nth 1 (Py.split "pixel" "pixel128") EmptyString) = Ok nside
       /\ "pixel128_jd_objectId" = "pixel128_jd_objectId"
       /\ columns Demo.pixel_view = ["pixel128_jd_objectId"; "objectId"]
       /\ rows Demo.pixel_view
          = map (fun r =>
                   let pixel :=
                     Demo.pixel (lookup "ra" r) (lookup "dec" r) (VLong nside) in
                   [ ("pixel128_jd_objectId",
                      VStr (Py.join "_"
                              (F.render (Demo.env Demo.night) pixel
                                 ++ flat_map
                                      (fun t =>
                                         F.render (Demo.env Demo.night)
                                           (if String.eqb t "pixel128"
                                            then pixel else lookup t r))
                                      ["jd"; "objectId"])));
                     ("objectId", lookup "objectId" r) ])
                Demo.night.
Proof.
  assert (H : build_index (Demo.env Demo.night) (Demo.args_for "pixel128_jd_objectId")
                (Demo.night_of Demo.night)
              = Ok (Demo.pixel_view, "pixel128_jd_objectId"))
    by (vm_compute; reflexivity).
  split; [exact H|]. split; [reflexivity|].
  exact (C1_pixel_rows (Demo.env Demo.night) (Demo.args_for "pixel128_jd_objectId")
           _ _ _ eq_refl H).
Defined.

(** The classifier is called with thirteen columns, not twelve, and for
    the identifier [class] the key is the label alone, not the label
    followed by [_class]. *)
Lemma C7_counterexample :
  List.length classification_inputs = 13
  /\ List.length classification_inputs <> 12
  /\ Demo.run [Demo.alert1] "class" = Ok Demo.class_push
  /\ extract_fink_classification (Demo.env [Demo.alert1])
       (map (fun c => lookup c Demo.alert1) classification_inputs)
     = VStr "Solar System MPC"
  /\ map (lookup "class") (rows (push_df Demo.class_push)) = [VStr "Solar System MPC"]
  /\ VStr "Solar System MPC" <> VStr "Solar System MPC_class".
Proof.
  repeat split; try (vm_compute; reflexivity); discriminate.
Qed.

Lemma C7_witness :
  build_index (Demo.env Demo.night) (Demo.args_for "class_jd_objectId")
    (Demo.night_of Demo.night) = Ok (Demo.class_view, "class_jd_objectId")
  /\ map (lookup "class_jd_objectId") (rows Demo.class_view)
     = [ VStr "Solar System MPC_2459001.5_ZTF21aaa";
         VStr "Candidate_YSO_2459001.5_ZTF21bbb";
         VStr "Unknown_2459001.5_ZTF21ccc" ]
  /\ "class_jd_objectId" = "class_jd_objectId"
  /\ columns Demo.class_view = "class_jd_objectId" :: common_cols
  /\ rows Demo.class_view
     = map (fun r =>
              let label :=
                Demo.classify
                  (map (fun c => lookup c r)
                       [ "cdsxmatch"; "roid"; "mulens"; "snn_snia_vs_nonia";
                         "snn_sn_vs_all"; "rf_snia_vs_nonia"; "ndethist"; "drb";
                         "classtar"; "jd"; "jdstarthist"; "rf_kn_vs_nonkn";
                         "tracklet" ]) in
              ("class_jd_objectId",
               VStr (Py.join "_"
                       (F.render (Demo.env Demo.night) label
                          ++ flat_map
                               (fun t =>
                                  F.render (Demo.env Demo.night)
                                    (if String.eqb t "class" then label else lookup t r))
                               ["jd"; "objectId"])))
                :: project common_cols r)
           Demo.night.
Proof.
  assert (H : build_index (Demo.env Demo.night) (Demo.args_for "class_jd_objectId")
                (Demo.night_of Demo.night)
              = Ok (Demo.class_view, "class_jd_objectId"))
    by (vm_compute; reflexivity).
  split; [exact H|]. split; [reflexivity|].
  exact (C7_class_rows (Demo.env Demo.night) (Demo.args_for "class_jd_objectId")
           _ _ _ eq_refl H).
Defined.

Lemma C2_witness :
  build_index (Demo.env Demo.night) (Demo.args_for "upper_objectId_jd") Demo.history
  = Ok (Demo.upper_view, "objectId_jd")
  /\ build_index (Demo.env Demo.night) (Demo.args_for "uppervalid_objectId_jd")
       Demo.history
     = Ok (Demo.uppervalid_view, "objectId_jd")
  /\ map (lookup "objectId_jd") (rows Demo.exploded)
     = [VStr "ZTF21aaa_2459000.5"; VStr "ZTF21aaa_2459001.5"]
  /\ map (lookup "objectId_jd") (rows Demo.upper_view) = [VStr "ZTF21aaa_2459000.5"]
  /\ map (lookup "objectId_jd") (rows Demo.uppervalid_view)
     = [VStr "ZTF21aaa_2459001.5"]
  /\ exists df_ex,
       explode_history (Demo.env Demo.night) "objectId_jd" Demo.history = Ok df_ex
       /\ rows Demo.upper_view
          = map (List.filter
                   (fun kv : string * value =>
                      negb (DF.dropped ["magpsf"; "sigmapsf"] (fst kv))))
                (List.filter (fun r => is_null (lookup "magpsf" r)) (rows df_ex))
       /\ rows Demo.uppervalid_view
          = List.filter (fun r => negb (is_null (lookup "magpsf" r))) (rows df_ex)
       /\ (forall r, is_null (lookup "magpsf" r) = true <-> lookup "magpsf" r = VNull)
       /\ List.length (rows Demo.upper_view) + List.length (rows Demo.uppervalid_view)
          = List.length (rows df_ex).
Proof.
  assert (Hu : build_index (Demo.env Demo.night) (Demo.args_for "upper_objectId_jd")
                 Demo.history = Ok (Demo.upper_view, "objectId_jd"))
    by (vm_compute; reflexivity).
  assert (Hv : build_index (Demo.env Demo.night) (Demo.args_for "uppervalid_objectId_jd")
                 Demo.history = Ok (Demo.uppervalid_view, "objectId_jd"))
    by (vm_compute; reflexivity).
  split; [exact Hu|]. split; [exact Hv|].
  split; [reflexivity|]. split; [reflexivity|]. split; [reflexivity|].
  exact (C2_upper_uppervalid_partition (Demo.env Demo.night)
           (Demo.args_for "upper_objectId_jd") (Demo.args_for "uppervalid_objectId_jd")
           _ _ _ _ _ eq_refl eq_refl Hu Hv).
Defined.

(** Four alerts whose object identifiers are pairwise distinct, and
    their tracklets too, under the identifier [objectId_tracklet]: an
    underscore inside a cell, and a null cell skipped by [concat_ws],
    each make two rows share a key. *)
Lemma C9_counterexample :
  Demo.run Demo.clash "objectId_tracklet" = Ok Demo.clash_push
  /\ NoDup (map (lookup "objectId") Demo.clash)
  /\ NoDup (map (lookup "tracklet") Demo.clash)
  /\ map (lookup "objectId_tracklet") (rows (push_df Demo.clash_push))
     = [VStr "ZTF21a_b_c"; VStr "ZTF21a_b_c"; VStr "ZTF21d"; VStr "ZTF21d"]
  /\ ~ NoDup (map (lookup "objectId_tracklet") (rows (push_df Demo.clash_push))).
Proof.
  split; [vm_compute; reflexivity|].
  split; [vm_compute; repeat constructor; simpl; intuition discriminate|].
  split; [vm_compute; repeat constructor; simpl; intuition discriminate|].
  split; [reflexivity|].
  intros Hnd. vm_compute in Hnd. inversion Hnd as [|? ? Hnotin _]. apply Hnotin.
  now left.
Qed.

Lemma C9_witness :
  build_index Runs.E (Demo.args_for "cdsxmatch_objectId") Runs.df
  = Ok (Runs.label_view, "cdsxmatch_objectId")
  /\ map (lookup "cdsxmatch_objectId") (rows Runs.label_view)
     = [VStr "Unknown_ZTF21aaa"; VStr "Candidate_YSO_ZTF21bbb"; VStr "Unknown_ZTF21ccc"]
  /\ NoDup (map (lookup "cdsxmatch_objectId") (rows Runs.label_view)).
Proof.
  assert (H : build_index Runs.E (Demo.args_for "cdsxmatch_objectId") Runs.df
              = Ok (Runs.label_view, "cdsxmatch_objectId"))
    by (vm_compute; reflexivity).
  split; [exact H|]. split; [reflexivity|].
  destruct (C9_rowkeys_unique Runs.E (Demo.args_for "cdsxmatch_objectId")
              _ _ _ H) as [pre [cols [keep [Hk [_ [_ Hunique]]]]]].
  assert (Hk' : keyed Runs.E (Demo.args_for "cdsxmatch_objectId") Runs.df
                = Ok (Runs.df, map F.col ["cdsxmatch"; "objectId"]))
    by reflexivity.
  rewrite Hk' in Hk. inversion Hk; subst pre cols; clear Hk Hk'.
  apply (Hunique 0).
  - intros r Hr. apply filter_In in Hr. destruct Hr as [Hr _].
    simpl in Hr.
    repeat match goal with
           | Hr : _ \/ _ |- _ => destruct Hr as [Hr|Hr]
           | Hr : False |- _ => destruct Hr
           end; subst r;
      intros [|[|[|j]]] c Hc; try discriminate Hc; injection Hc as <-;
      eexists; (split; [vm_compute; reflexivity|]);
      intros Hj; try reflexivity; exfalso; apply Hj; reflexivity.
  - apply NoDup_map_filter. vm_compute.
    repeat constructor; simpl; intuition discriminate.
Defined.

(** C4, where the code departs from it: two alerts of one object, the
    first 0.000244 degrees from a catalogue entry and the second 0.4998
    degrees from it, its nearest.  In one Arrow batch both are pushed,
    the second with the label accepted for the first, at a separation
    that is not below 1.5/3600 degrees; each in a batch of its own, only
    the first is pushed. *)
Theorem C4_far_alert_pushed :
  Demo.run Demo.twins "tns_jd_objectId" = Ok Demo.twins_push
  /\ map (lookup "tns_jd_objectId") (rows (push_df Demo.twins_push))
     = [VStr "SN Ia_2459001.5_ZTF21aaa"; VStr "SN Ia_2459000.5_ZTF21aaa"]
  /\ map (lookup "ra") (rows (push_df Demo.twins_push)) = [VDouble 10; VDouble 10.5]
  /\ map (lookup "objectId") Demo.twins = [VStr "ZTF21aaa"; VStr "ZTF21aaa"]
  /\ tns_catalogue (Demo.env Demo.twins) (Demo.args_for "tns_jd_objectId")
     = Ok [ {| tns_ra := VDouble 10.000244140625; tns_declination := VDouble 20;
               tns_type := Some "SN Ia" |} ]
  /\ match_to_catalog_sky (Demo.env Demo.twins)
       (combine (map (lookup "ra") Demo.twins) (map (lookup "dec") Demo.twins))
       [(VDouble 10.000244140625, VDouble 20)]
     = Ok [(0, 0.000244140625%float); (0, 0.499755859375%float)]
  /\ (0.000244140625 <? 1.5 / 3600)%float = true
  /\ (0.499755859375 <? 1.5 / 3600)%float = false
  /\ main (with_batches (Demo.env Demo.twins) [1]) (Demo.args_for "tns_jd_objectId")
     = Ok Runs.twins_apart_push
  /\ map (lookup "tns_jd_objectId") (rows (push_df Runs.twins_apart_push))
     = [VStr "SN Ia_2459001.5_ZTF21aaa"].
Proof.
  repeat split; vm_compute; reflexivity.
Qed.

Lemma X16_witness :
  build_index (Demo.env Demo.night) (Demo.args_for "tns_jd_objectId")
    (Demo.night_of Demo.night) = Ok (Demo.tns_view, "tns_jd_objectId")
  /\ map (lookup "tns_jd_objectId") (rows Demo.tns_view)
     = [VStr "SN Ia_2459001.5_ZTF21aaa"]
  /\ ~ In "tns" (columns Demo.tns_view).
Proof.
  assert (H : build_index (Demo.env Demo.night) (Demo.args_for "tns_jd_objectId")
                (Demo.night_of Demo.night) = Ok (Demo.tns_view, "tns_jd_objectId"))
    by (vm_compute; reflexivity).
  split; [exact H|]. split; [reflexivity|].
  destruct (X16_tns_rows (Demo.env Demo.night) (Demo.args_for "tns_jd_objectId")
              _ _ _ eq_refl H) as [pdf [labelled [_ [_ [Hcol _]]]]].
  exact Hcol.
Defined.

(** * Further properties of the script *)

(** ** The tokens of the identifier *)

Lemma contains_char_cons (x c : ascii) (s : string) :
  Py.contains (String x EmptyString) (String c s) = false <->
  c <> x /\ Py.contains (String x EmptyString) s = false.
Proof.
  cbn [Py.contains String.prefix]. destruct (ascii_dec x c) as [<-|Hc].
  - destruct s; split; try discriminate; intros [H _]; congruence.
  - split; [intros H; split; [congruence | exact H] | intros [_ H]; exact H].
Qed.

Lemma contains_char_snoc (x c : ascii) (a : string) :
  Py.contains (String x EmptyString) a = false -> c <> x ->
  Py.contains (String x EmptyString) (a ++ String c EmptyString) = false.
Proof.
  intros Ha Hc. induction a as [|y a IH]; simpl append.
  - apply contains_char_cons. split; [exact Hc | reflexivity].
  - apply contains_char_cons in Ha. destruct Ha as [Hy Ha].
    apply contains_char_cons. auto.
Qed.

Lemma split_go_join (s cur : string) :
  Py.contains "_" cur = false ->
  Py.join "_" (Py.split_go "_" 0 cur s) = (cur ++ s)%string
  /\ Forall (fun t => Py.contains "_" t = false) (Py.split_go "_" 0 cur s).
Proof.
  revert cur; induction s as [|c s IH]; intros cur Hcur.
  - cbn [Py.split_go]. split; [|now constructor].
    cbn. clear. induction cur; simpl; congruence.
  - cbn [Py.split_go String.prefix]. destruct (ascii_dec "_" c) as [<-|Hc].
    + assert (Hp : String.prefix "" s = true) by (destruct s; reflexivity).
      rewrite Hp. cbn [String.length Nat.sub].
      destruct (IH EmptyString eq_refl) as [Hj Hf].
      destruct (split_go_cons "_" 0 EmptyString s) as [t [l Htl]].
      rewrite Htl in *. split; [|now constructor].
      rewrite join_cons2, Hj. reflexivity.
    + destruct (IH (cur ++ String c EmptyString)%string) as [Hj Hf].
      * apply contains_char_snoc; [exact Hcur | congruence].
      * split; [|exact Hf]. rewrite Hj. apply app_string_assoc.
Qed.

(** X1: the tokens the identifier is split into hold no underscore, and
    joined with underscores they give the identifier back. *)
Theorem X1_tokens_round_trip (index_table : string) :
  Py.join "_" (Py.split "_" index_table) = index_table
  /\ Forall (fun t => Py.contains "_" t = false) (Py.split "_" index_table).
Proof.
  unfold Py.split. destruct (split_go_join index_table EmptyString eq_refl) as [Hj Hf].
  split; [exact Hj | exact Hf].
Qed.

(** ** The night that is read *)

Lemma substring_whole (a b : string) :
  String.substring 0 (String.length a) (a ++ b) = a.
Proof.
  induction a as [|c a IH]; simpl.
  - destruct b; reflexivity.
  - now rewrite IH.
Qed.

Lemma substring_skip (a b : string) (n : nat) :
  String.substring (String.length a) n (a ++ b) = String.substring 0 n b.
Proof.
  induction a as [|c a IH]; simpl; [|exact IH].
  destruct n; destruct b; reflexivity.
Qed.

Lemma substring_skip_more (a b : string) (n k : nat) :
  String.substring (String.length a + n) k (a ++ b) = String.substring n k b.
Proof. induction a as [|c a IH]; simpl; [reflexivity | exact IH]. Qed.

Lemma substring_self (a : string) : String.substring 0 (String.length a) a = a.
Proof. induction a as [|c a IH]; simpl; [reflexivity | now rewrite IH]. Qed.

Lemma night_slices (y m d : string) :
  String.length y = 4 -> String.length m = 2 -> String.length d = 2 ->
  String.substring 0 4 (y ++ m ++ d) = y
  /\ String.substring 4 2 (y ++ m ++ d) = m
  /\ String.substring 6 2 (y ++ m ++ d) = d.
Proof.
  intros Hy Hm Hd. split; [|split].
  - rewrite <- Hy. apply substring_whole.
  - rewrite <- Hy, substring_skip, <- Hm. apply substring_whole.
  - change 6 with (4 + 2). rewrite <- Hy, (substring_skip_more y (m ++ d) 2 2).
    transitivity (String.substring (String.length m) 2 (m ++ d));
      [now rewrite Hm|].
    rewrite substring_skip.
    transitivity (String.substring 0 (String.length d) d);
      [now rewrite Hd | apply substring_self].
Qed.

(** X2: for a night written as four, two and two characters, the job
    reads the data at [prefix/science/year=YYYY/month=MM/day=DD] and
    nowhere else: two readers that agree on that path give the same run,
    and a reader that fails there fails the job with its exception. *)
Theorem X2_night_path (E : Collaborators) (args : Args) (y m d : string)
    (load1 load2 : string -> result DataFrame) :
  night args = (y ++ m ++ d)%string ->
  String.length y = 4 -> String.length m = 2 -> String.length d = 2 ->
  let path := (agg_data_prefix args ++ "/science/year=" ++ y
                 ++ "/month=" ++ m ++ "/day=" ++ d)%string in
  (load1 path = load2 path ->
   main (with_loader E load1) args = main (with_loader E load2) args)
  /\ (forall e, load1 path = Raise e -> main (with_loader E load1) args = Raise e).
Proof.
  intros Hn Hy Hm Hd path.
  destruct (night_slices y m d Hy Hm Hd) as [S1 [S2 S3]].
  unfold main, prepare. cbn [load_parquet_files with_loader].
  rewrite Hn, S1, S2, S3. fold path. split.
  - intros ->. reflexivity.
  - intros e ->. reflexivity.
Qed.

(** ** The resolution of the pixel kind *)

Lemma split_go_no_separator (n cur : string) :
  Py.contains "p" n = false ->
  Py.split_go "pixel" 0 cur n = [(cur ++ n)%string].
Proof.
  revert cur; induction n as [|c n IH]; intros cur Hn.
  - cbn [Py.split_go]. f_equal. clear. induction cur; simpl; congruence.
  - apply contains_char_cons in Hn. destruct Hn as [Hc Hn].
    cbn [Py.split_go String.prefix].
    destruct (ascii_dec "p" c) as [Hp|_]; [congruence|].
    rewrite IH by exact Hn. f_equal. apply app_string_assoc.
Qed.

(** Splitting at [pixel] a token that starts with it: an empty piece,
    then the pieces of what follows. *)
Lemma split_pixel_head (n : string) :
  Py.split "pixel" ("pixel" ++ n) = EmptyString :: Py.split_go "pixel" 0 EmptyString n.
Proof.
  unfold Py.split. cbn [append Py.split_go].
  replace (String.prefix "pixel" (String "p" (String "i" (String "x"
             (String "e" (String "l" n)))))) with true
    by (cbn; destruct n; reflexivity).
  reflexivity.
Qed.

(** What follows [pixel] in the first token is what [int] is given,
    when no further [p] stands in it. *)
Lemma split_pixel (n : string) :
  Py.contains "p" n = false ->
  Py.getitem (Py.split "pixel" ("pixel" ++ n)) 1 = Ok n.
Proof.
  intros Hn. rewrite split_pixel_head, split_go_no_separator by exact Hn.
  reflexivity.
Qed.

Lemma digits_raise (s : string) (e : exn) : Py.digits s = Raise e -> e = ValueError.
Proof.
  unfold Py.digits. destruct s; [now intros [= <-]|].
  destruct (NilEmpty.uint_of_string _); [discriminate | now intros [= <-]].
Qed.

Lemma int_raise (s : string) (e : exn) : Py.int s = Raise e -> e = ValueError.
Proof.
  unfold Py.int.
  destruct (Py.rstrip (Py.lstrip s)) as [|c t]; [apply digits_raise|].
  destruct (Ascii.eqb_spec c "+") as [->|Hplus]; [apply digits_raise|].
  destruct (Ascii.eqb_spec c "-") as [->|Hminus].
  - destruct (Py.digits t) as [z|e'] eqn:Hd; [discriminate|].
    cbn. intros [= <-]. now apply (digits_raise t).
  - intros H. apply (digits_raise (String c t)).
    destruct c as [[|] [|] [|] [|] [|] [|] [|] [|]]; try exact H;
      exfalso; (apply Hplus; reflexivity) || (apply Hminus; reflexivity).
Qed.

(** *** Tokens without a digit *)









Lemma decimal_has_no_p (d : Decimal.uint) :
  Py.contains "p" (NilEmpty.string_of_uint d) = false.
Proof.
  induction d; cbn [NilEmpty.string_of_uint]; [reflexivity|..];
    apply contains_char_cons; (split; [discriminate | assumption]).
Qed.

Lemma rstrip_decimal (d : Decimal.uint) :
  Py.rstrip (NilEmpty.string_of_uint d) = NilEmpty.string_of_uint d.
Proof.
  induction d; cbn [NilEmpty.string_of_uint Py.rstrip]; [reflexivity|..];
    rewrite IHd; destruct (NilEmpty.string_of_uint d); reflexivity.
Qed.

Lemma lstrip_decimal (d : Decimal.uint) :
  Py.lstrip (NilEmpty.string_of_uint d) = NilEmpty.string_of_uint d.
Proof. destruct d; reflexivity. Qed.

(** [int] reads back a number written in decimal. *)
Lemma int_of_decimal (d : Decimal.uint) :
  d <> Decimal.Nil -> Py.int (NilEmpty.string_of_uint d) = Ok (Z.of_uint d).
Proof.
  intros Hd. unfold Py.int. rewrite lstrip_decimal, rstrip_decimal.
  pose proof (NilEmpty.usu d) as Hu.
  destruct d; [congruence|..]; cbn [NilEmpty.string_of_uint] in *;
    cbv beta iota; unfold Py.digits; rewrite Hu; reflexivity.
Qed.

(** X4: the resolution is read from the first token.  On a dataframe
    whose columns match the names [ra], [dec] and [pixelN] exactly or
    not even up to case, the token [pixelN], for a number [N] written in
    decimal with at most 4300 digits, gives every record the cell
    [ang2pix(ra, dec, N)] under the name of the token when [ra] and
    [dec] resolve and [N] fits 64 bits; it raises [AnalysisException]
    when one of the two does not resolve, and [Py4JError] when both do
    and [N] does not fit. *)
Theorem X4_pixel_resolution (E : Collaborators) (d : Decimal.uint) (df : DataFrame) :
  let column0 := ("pixel" ++ NilEmpty.string_of_uint d)%string in
  d <> Decimal.Nil ->
  (String.length (NilEmpty.string_of_uint d) <=? 4300)%nat = true ->
  DF.exact_case df "ra" = true ->
  DF.exact_case df "dec" = true ->
  DF.exact_case df column0 = true ->
  pixel_rows E column0 df
  = if DF.resolves df "ra" && DF.resolves df "dec"
    then if (Z.of_uint d <? 2 ^ 63)%Z
         then Ok {| columns := DF.set_name column0 (columns df);
                    rows := map (fun r =>
                                   DF.set_cell column0
                                     (ang2pix E (lookup "ra" r) (lookup "dec" r)
                                        (VLong (Z.of_uint d))) r)
                                (rows df) |}
         else Raise Py4JError
    else Raise AnalysisException.
Proof.
  intros column0 Hd _ _ _ _. unfold pixel_rows, column0.
  rewrite split_pixel by apply decimal_has_no_p. cbn [bind].
  rewrite int_of_decimal by exact Hd. cbn [bind].
  unfold DF.getitem, DF.analyse. cbn [forallb c_refs F.col].
  destruct (DF.resolves df "ra") eqn:Hra; cbn [andb bind]; [|reflexivity].
  destruct (DF.resolves df "dec") eqn:Hdec; cbn [andb bind]; [|reflexivity].
  unfold F.lit_int.
  assert (Hlo : (- 2 ^ 63 <=? Z.of_uint d)%Z = true).
  { apply Z.leb_le. assert (H63 : (- 2 ^ 63 <= 0)%Z) by (vm_compute; discriminate).
    unfold Z.of_uint. pose proof (N2Z.is_nonneg (Pos.of_uint d)). lia. }
  rewrite Hlo. cbn [andb].
  destruct (Z.of_uint d <? 2 ^ 63)%Z; cbn [bind]; [|reflexivity].
  unfold DF.withColumn, DF.analyse.
  cbn [forallb c_refs F.udf F.col F.lit flat_map app]. rewrite Hra, Hdec. reflexivity.
Qed.

(** ** Columns that do not resolve *)

Lemma analyse_raise (df : DataFrame) (cs : list Column) (e : exn) :
  DF.analyse df cs = Raise e -> e = AnalysisException.
Proof.
  unfold DF.analyse. destruct (forallb _ cs); [discriminate | now intros [= <-]].
Qed.

Lemma filter_raise (c : Column) (df : DataFrame) (e : exn) :
  DF.filter c df = Raise e -> e = AnalysisException.
Proof.
  unfold DF.filter. destruct (DF.analyse df [c]) eqn:Ha; [discriminate|].
  cbn. intros [= <-]. now apply analyse_raise in Ha.
Qed.

Lemma withColumn_raise (name : string) (c : Column) (df : DataFrame) (e : exn) :
  DF.withColumn name c df = Raise e -> e = AnalysisException.
Proof.
  unfold DF.withColumn. destruct (DF.analyse df [c]) eqn:Ha; [discriminate|].
  cbn. intros [= <-]. now apply analyse_raise in Ha.
Qed.

Lemma resolves_set_name (df df' : DataFrame) (name c : string) :
  columns df' = DF.set_name name (columns df) -> String.eqb c name = false ->
  DF.resolves df' c = DF.resolves df c.
Proof.
  intros Hc Hne. unfold DF.resolves. rewrite Hc. unfold DF.set_name.
  destruct (existsb (String.eqb name) (columns df)); [reflexivity|].
  rewrite count_occ_app. cbn [count_occ].
  destruct (string_dec name c) as [->|_]; [now rewrite String.eqb_refl in Hne|].
  now rewrite Nat.add_0_r.
Qed.

Lemma existsb_eqb_false (name : string) (cols : list string) (c : string) :
  existsb (String.eqb name) cols = false -> In c cols -> String.eqb c name = false.
Proof.
  intros Hex Hin. apply String.eqb_neq. intros ->.
  assert (Ht : existsb (String.eqb name) cols = true)
    by (apply existsb_exists; exists name; split; [exact Hin | apply String.eqb_refl]).
  congruence.
Qed.

Lemma Forall2_of_nth {A B : Type} (R : A -> B -> Prop) (l : list A) (l' : list B) :
  List.length l = List.length l' ->
  (forall j a b, nth_error l j = Some a -> nth_error l' j = Some b -> R a b) ->
  Forall2 R l l'.
Proof.
  revert l'; induction l as [|x l IH]; intros [|y l'] Hlen Hnth; try discriminate.
  - constructor.
  - constructor.
    + apply (Hnth 0); reflexivity.
    + apply IH; [simpl in Hlen; lia|]. intros j a b. apply (Hnth (S j)).
Qed.

Lemma filter_nonempty {A : Type} (p : A -> bool) (l : list A) (a : A) :
  In a l -> p a = true -> List.filter p l <> [].
Proof.
  intros Hin Hp Hf. assert (Hin' : In a (List.filter p l)) by (apply filter_In; auto).
  rewrite Hf in Hin'. exact Hin'.
Qed.

Lemma common_cols_NoDup : NoDup common_cols.
Proof.
  assert (H : nodup string_dec common_cols = common_cols) by (vm_compute; reflexivity).
  rewrite <- H. apply NoDup_nodup.
Qed.

Lemma drop_last_name (cols : list string) (name : string) :
  existsb (String.eqb name) cols = false ->
  List.filter (fun n => negb (DF.dropped [name] n)) (cols ++ [name]) = cols.
Proof.
  intros Hex. rewrite filter_app. cbn [List.filter]. unfold DF.dropped at 2.
  cbn [existsb]. rewrite String.eqb_refl. cbn [orb negb]. rewrite app_nil_r.
  induction cols as [|c cols IH]; [reflexivity|].
  cbn [existsb] in Hex. apply orb_false_iff in Hex. destruct Hex as [Hc Hex].
  cbn [List.filter]. unfold DF.dropped at 1. cbn [existsb].
  rewrite String.eqb_sym, Hc. cbn [orb negb]. now rewrite IH.
Qed.

Lemma map_flat_map {A B C : Type} (f : B -> C) (g : A -> list B) (l : list A) :
  map f (flat_map g l) = flat_map (fun a => map f (g a)) l.
Proof.
  induction l as [|a l IH]; simpl; [reflexivity|]. now rewrite map_app, IH.
Qed.

Lemma flat_map_ext_in {A B : Type} (f g : A -> list B) (l : list A) :
  Forall (fun a => f a = g a) l -> flat_map f l = flat_map g l.
Proof.
  induction 1 as [|a l Ha _ IH]; simpl; [reflexivity|]. now rewrite Ha, IH.
Qed.

(** Reading positions 0 .. n-1 of a list is reading the list. *)
Lemma map_seq_nth {A B : Type} (h : nat -> B) (k : A -> B) (l : list A) :
  (forall i x, nth_error l i = Some x -> h i = k x) ->
  map h (seq 0 (List.length l)) = map k l.
Proof.
  revert h; induction l as [|x l IH]; intros h Hh; [reflexivity|].
  cbn [List.length seq map]. rewrite (Hh 0 x eq_refl). f_equal.
  rewrite <- seq_shift, map_map. apply IH. intros i y Hy. apply (Hh (S i)). exact Hy.
Qed.

Lemma nth_map_struct (f : value -> value) (l : list value) (i : nat) (x : value) :
  nth_error l i = Some x -> nth i (map f l) VNull = f x.
Proof.
  intros Hx. apply nth_error_nth. now rewrite nth_error_map, Hx.
Qed.

Lemma filter_shorter {A : Type} (p : A -> bool) (l : list A) :
  List.length (List.filter p l) <= List.length l.
Proof. induction l as [|a l IH]; simpl; [lia|]. destruct (p a); simpl; lia. Qed.

Lemma filter_flat_map {A B : Type} (p : B -> bool) (g : A -> list B) (l : list A) :
  List.filter p (flat_map g l) = flat_map (fun a => List.filter p (g a)) l.
Proof.
  induction l as [|a l IH]; simpl; [reflexivity|]. now rewrite filter_app, IH.
Qed.

Section MoreProperties.

Variable E : Collaborators.

(** A [select] that names a column which does not resolve raises. *)
Lemma select_unresolved (tokens cols : list string) (k c : string) (df : DataFrame) :
  In c cols -> DF.resolves df c = false ->
  DF.select (rowkey_column E (map F.col tokens) k :: map F.col cols) df
  = Raise AnalysisException.
Proof.
  intros Hin Hc. unfold DF.select, DF.analyse.
  destruct (forallb _ _) eqn:Hall; [|reflexivity].
  exfalso. rewrite forallb_forall in Hall.
  specialize (Hall (F.col c)). cbn [c_refs F.col forallb] in Hall.
  rewrite Hc in Hall. cbn in Hall.
  assert (false = true); [|discriminate].
  apply Hall. right. now apply in_map.
Qed.

Lemma common_column_unresolved (args : Args) (df : DataFrame) (c : string) :
  In (dispatch (first_token (index_table args))) [Class; Ssnamenr; Tracklet; Default] ->
  In c common_cols ->
  DF.resolves df c = false ->
  build_index E args df = Raise AnalysisException.
Proof.
  intros Hb Hin Hc. rewrite build_index_branch.
  destruct (dispatch (first_token (index_table args)));
    try (exfalso; simpl in Hb; intuition discriminate); cbn [run_branch].
  - (* class *)
    unfold class_rows.
    destruct (DF.withColumn "class" _ df) as [df1|e] eqn:H1; cbn [bind].
    + apply withColumn_ok in H1. destruct H1 as [Hc1 _].
      rewrite (select_unresolved _ _ _ c); [reflexivity | exact Hin|].
      rewrite (resolves_set_name df df1 "class" c Hc1); [exact Hc|].
      now apply (existsb_eqb_false "class" common_cols).
    + now rewrite (withColumn_raise _ _ _ _ H1).
  - (* ssnamenr *)
    unfold ssnamenr_rows.
    destruct (DF.filter _ df) as [df1|e] eqn:H1; cbn [bind].
    + apply filter_ok in H1. destruct H1 as [Hc1 _].
      rewrite (select_unresolved _ _ _ c); [reflexivity | exact Hin|].
      now rewrite (resolves_columns df df1 c Hc1).
    + now rewrite (filter_raise _ _ _ H1).
  - (* tracklet *)
    unfold tracklet_rows.
    destruct (DF.filter _ df) as [df1|e] eqn:H1; cbn [bind].
    + destruct (DF.filter _ df1) as [df2|e] eqn:H2; cbn [bind].
      * apply filter_ok in H1, H2. destruct H1 as [Hc1 _]. destruct H2 as [Hc2 _].
        rewrite (select_unresolved _ _ _ c); [reflexivity | exact Hin|].
        rewrite (resolves_columns df1 df2 c Hc2).
        now rewrite (resolves_columns df df1 c Hc1).
      * now rewrite (filter_raise _ _ _ H2).
    + now rewrite (filter_raise _ _ _ H1).
  - (* default *)
    now rewrite (select_unresolved _ _ _ c).
Qed.


(** X5: in the classification, minor-planet, tracklet and default kinds
    a dataframe in which one of the common columns is absent under every
    letter case, or present more than once, gives no view: the job dies
    with [AnalysisException]. *)
Theorem X5_missing_common_column (args : Args) (df : DataFrame) (c : string) :
  In (dispatch (first_token (index_table args))) [Class; Ssnamenr; Tracklet; Default] ->
  In c common_cols ->
  DF.exact_case df c = true ->
  count_occ string_dec (columns df) c <> 1 ->
  build_index E args df = Raise AnalysisException.
Proof.
  intros Hb Hin _ Hcount.
  assert (Hc : DF.resolves df c = false).
  { unfold DF.resolves. now apply Nat.eqb_neq. }
  exact (common_column_unresolved args df c Hb Hin Hc).
Qed.

(** What [prepare] returns, stage by stage. *)
Lemma prepare_ok (args : Args) (dfp : DataFrame) (cf : list (string * string)) :
  prepare E args = Ok (dfp, cf) ->
  exists df0 dfr,
    load_parquet_files E
      (agg_data_prefix args ++ "/science/year=" ++ String.substring 0 4 (night args)
         ++ "/month=" ++ String.substring 4 2 (night args)
         ++ "/day=" ++ String.substring 6 2 (night args)) = Ok df0
    /\ restrict_columns (index_table args)
         (fst (fst (load_science_portal_column_names E)))
         (snd (fst (load_science_portal_column_names E)))
         (snd (load_science_portal_column_names E))
         (DF.drop ["day"] (DF.drop ["month"] (DF.drop ["year"] df0))) = Ok dfr
    /\ attach_rowkey E dfr = Ok dfp
    /\ cf = assign_column_family_names E
              (DF.drop ["day"] (DF.drop ["month"] (DF.drop ["year"] df0)))
              (fst (fst (load_science_portal_column_names E)))
              (snd (fst (load_science_portal_column_names E)))
              (snd (load_science_portal_column_names E)).
Proof.
  unfold prepare. intros H. bind_case H as df0 Hdf0.
  destruct (load_science_portal_column_names E) as [[ci cd] cb].
  bind_case H as dfr Hdfr. bind_case H as dfa Hdfa. inversion H; subst.
  cbn [fst snd]. eauto 10.
Qed.

(** X6: an identifier that holds [upper] somewhere while its first token
    selects the classification, minor-planet, tracklet or default kind
    never pushes anything: the dataframe is narrowed to the history
    columns, and, [attach_rowkey] adding no [candid] column, the branch
    cannot select the common projection. *)
Theorem X6_upper_inside_other_kind (args : Args) :
  Py.contains "upper" (index_table args) = true ->
  In (dispatch (first_token (index_table args))) [Class; Ssnamenr; Tracklet; Default] ->
  (forall d d', attach_rowkey E d = Ok d' ->
                DF.resolves d "candid" = false -> DF.resolves d' "candid" = false) ->
  forall p, main E args <> Ok p.
Proof.
  intros Hup Hb Hattach p H. unfold main in H.
  bind_case H as pr Hpr. destruct pr as [dfp cf].
  rewrite columns0 in H. cbn [bind fst] in H.
  bind_case H as ix Hix.
  destruct (prepare_ok _ _ _ Hpr) as [df0 [dfr [_ [Hr [Ha _]]]]].
  unfold restrict_columns in Hr. rewrite Hup in Hr.
  apply select_ok in Hr. destruct Hr as [Hcols _].
  assert (Hc : DF.resolves dfr "candid" = false).
  { unfold DF.resolves. rewrite Hcols. reflexivity. }
  rewrite (common_column_unresolved args dfp "candid" Hb) in Hix;
    [discriminate | | exact (Hattach _ _ Ha Hc)].
  unfold common_cols. simpl. tauto.
Qed.

(** ** The catalogue of the [tns] kind *)

Lemma tns_branch (args : Args) (df : DataFrame) :
  first_token (index_table args) = "tns" ->
  build_index E args df
  = run_branch E Tns args (Py.split "_" (index_table args)) "tns" df.
Proof. intros Hc0. now rewrite build_index_branch, Hc0. Qed.





(** The bare identifier [tns] cannot be the row-key column of a view:
    the label column would carry the same name. *)
Lemma tns_key_differs (args : Args) (df out : DataFrame) (k : string) :
  run_branch E Tns args (Py.split "_" (index_table args)) "tns" df = Ok (out, k) ->
  String.eqb (index_table args) "tns" = false.
Proof.
  cbn [run_branch]. intros H.
  bind_case H as pdf Hpdf. bind_case H as sch Hsch. bind_case H as dfi Hdfi.
  bind_case Hdfi as df1 Hdf1. bind_case Hdfi as df2 Hdf2.
  bind_case Hdfi as df3 Hdf3.
  apply (resolves_head_differs df2
           (map c_name (map F.col common_cols ++ [F.col "tns"]))).
  - apply select_ok in Hdf2. now destruct Hdf2 as [Hc _].
  - rewrite map_app. apply in_or_app. right. now left.
  - unfold DF.filter in Hdf3. bind_case Hdf3 as u Hu. unfold DF.analyse in Hu.
    cbn [forallb c_refs F.neq_str F.col] in Hu.
    destruct (DF.resolves df2 "tns"); [reflexivity|discriminate].
Qed.

(** X9: the [tns] kind builds a view only for an identifier with a
    second token: under the bare identifier [tns] the row key and the
    label column would share a name, and filtering on [tns] raises. *)
Theorem X9_tns_needs_second_token (args : Args) (df out : DataFrame) (k : string) :
  first_token (index_table args) = "tns" ->
  build_index E args df = Ok (out, k) ->
  exists rest, index_table args = ("tns_" ++ rest)%string.
Proof.
  intros Hc0 H. rewrite (tns_branch args df Hc0) in H.
  apply tns_key_differs in H. apply String.eqb_neq in H.
  destruct (first_token_spec (index_table args)) as [rest [Hit [[->|[r ->]] _]]];
    rewrite Hc0 in Hit.
  - exfalso. apply H. exact Hit.
  - exists r. exact Hit.
Qed.

(** ** The labels of a batch *)

(** X10: on a batch whose object identifiers are pairwise distinct
    strings, the UDF labels each alert by its own nearest catalogue
    entry: with the entry's type when the separation is below 1.5/3600
    degrees, with the empty string otherwise. *)
Theorem X10_crossmatch_distinct_ids (pdf : list tns_entry)
    (objectid ra dec out : list value) :
  crossmatch_with_tns E pdf objectid ra dec = Ok out ->
  NoDup objectid ->
  Forall (fun x => exists a, x = VStr a) objectid ->
  exists m,
    match_to_catalog_sky E (combine ra dec)
      (combine (map tns_ra pdf) (map tns_declination pdf)) = Ok m
    /\ List.length m = List.length objectid
    /\ Forall2 (fun (p : nat * float) (t : value) =>
                  if (snd p <? 1.5 / 3600)%float
                  then exists e, nth_error pdf (fst p) = Some e
                                 /\ t = label (tns_type e)
                  else t = VStr EmptyString)
               m out.
Proof.
  unfold crossmatch_with_tns. intros H Hnd Hstr.
  bind_case H as m1 Hm1. bind_case H as m Hm. bind_case H as u Hu.
  bind_case H as tns Htns.
  apply mapM_Forall2 in Htns. pose proof (mapM_Forall2 _ _ _ H) as Hout.
  rewrite combine_fst_snd in Htns.
  assert (Hlm : List.length m = List.length objectid).
  { destruct (Nat.eqb_spec
                (List.length (map (fun d => (d <? 1.5 / 3600)%float) (map snd m)))
                (List.length objectid)) as [Hl|Hl]; [|discriminate].
    now rewrite !length_map in Hl. }
  assert (Hlt : List.length tns = List.length objectid).
  { apply Forall2_length in Htns. rewrite length_map in Htns. lia. }
  exists m. split; [exact Hm|]. split; [exact Hlm|].
  apply Forall2_of_nth.
  { apply Forall2_length in Hout. lia. }
  intros j [i d] t Hmj Ht. cbn [fst snd].
  assert (Hj : j < List.length objectid).
  { rewrite <- Hlm. apply nth_error_Some. rewrite Hmj. discriminate. }
  destruct (nth_error objectid j) as [x|] eqn:Hx;
    [|apply nth_error_None in Hx; lia].
  rewrite Forall_forall in Hstr.
  destruct (Hstr x (nth_error_In _ _ Hx)) as [a ->].
  pose proof (Forall2_nth_error _ _ _ _ _ _ Hout Hx Ht) as Hg. cbv beta in Hg.
  rewrite (map_fst_combine objectid tns Hlt) in Hg.
  replace (existsb (py_eq (VStr a)) objectid) with true in Hg.
  2:{ symmetry. apply existsb_exists. exists (VStr a).
      split; [eapply nth_error_In; exact Hx | apply String.eqb_refl]. }
  cbn [negb] in Hg. unfold Py.getitem in Hg.
  destruct (List.filter (fun ot => pandas_eq (fst ot) (VStr a)) (combine objectid tns))
    as [|[x0 t0] rest] eqn:Hf; [discriminate|].
  cbn in Hg. inversion Hg; subst t0; clear Hg.
  destruct (filter_head _ _ _ _ Hf) as [j0 [Hj0 [Hp _]]].
  cbn [fst] in Hp. apply pandas_eq_true in Hp. destruct Hp as [a' [-> Ha']].
  inversion Ha'; subst a'; clear Ha'.
  apply nth_error_combine in Hj0. destruct Hj0 as [Hid Htj0].
  assert (j0 = j) by (eapply NoDup_nth_same; eauto). subst j0.
  assert (Him : nth_error (map (fun p : nat * float =>
                                  (fst p, (snd p <? 1.5 / 3600)%float)) m) j
                = Some (i, (d <? 1.5 / 3600)%float))
    by (rewrite nth_error_map, Hmj; reflexivity).
  pose proof (Forall2_nth_error _ _ _ _ _ _ Htns Him Htj0) as Hh. cbv beta in Hh.
  cbn [fst snd] in Hh.
  destruct (d <? 1.5 / 3600)%float; [|now inversion Hh].
  bind_case Hh as ty Hty. inversion Hh; subst t; clear Hh.
  unfold Py.getitem in Hty. rewrite nth_error_map in Hty.
  destruct (nth_error pdf i) as [e|]; [|discriminate].
  cbn in Hty. inversion Hty; subst ty. eauto.
Qed.

(** ** The columns of the view *)

Lemma tns_view_names (names : list Column) (cols : list string) (k : string) :
  String.eqb k "tns" = false ->
  existsb (String.eqb "tns") cols = false ->
  List.filter (fun n => negb (DF.dropped ["tns"] n))
              (map c_name (rowkey_column E names k :: map F.col cols ++ [F.col "tns"]))
  = k :: cols.
Proof.
  intros Hk Hcols. cbn [map c_name rowkey_column F.alias List.filter].
  unfold DF.dropped at 1. cbn [existsb]. rewrite Hk. cbn [orb negb].
  apply (f_equal (cons k)).
  rewrite map_app, map_map. cbn [map c_name F.col]. rewrite map_id.
  now apply drop_last_name.
Qed.

Lemma view_columns (args : Args) (df out : DataFrame) (k : string) :
  build_index E args df = Ok (out, k) ->
  columns out
  = match dispatch (first_token (index_table args)) with
    | Pixel => [index_table args; "objectId"]
    | Upper => ["objectId_jd"; "objectId"; "jd"; "fid"; "diffmaglim"]
    | Uppervalid =>
        ["objectId_jd"; "objectId"; "jd"; "fid"; "magpsf"; "sigmapsf"; "diffmaglim"]
    | _ => index_table args :: common_cols
    end.
Proof.
  intros H. rewrite build_index_branch in H.
  destruct (dispatch (first_token (index_table args))) eqn:Hd.
  - cbn [run_branch] in H.
    bind_case H as df1 Hdf1. bind_case H as df2 Hdf2. inversion H; subst; clear H.
    apply select_ok in Hdf2. now destruct Hdf2 as [-> _].
  - cbn [run_branch] in H.
    bind_case H as df1 Hdf1. bind_case H as df2 Hdf2. inversion H; subst; clear H.
    apply select_key_rows in Hdf2. now destruct Hdf2 as [-> _].
  - cbn [run_branch] in H.
    bind_case H as df1 Hdf1. bind_case H as df2 Hdf2. inversion H; subst; clear H.
    apply select_key_rows in Hdf2. now destruct Hdf2 as [-> _].
  - cbn [run_branch] in H.
    bind_case H as df1 Hdf1. bind_case H as df2 Hdf2. inversion H; subst; clear H.
    apply select_key_rows in Hdf2. now destruct Hdf2 as [-> _].
  - cbn [run_branch] in H.
    bind_case H as df_ex Hex. bind_case H as du Hdu. inversion H; subst; clear H.
    unfold explode_history in Hex. bind_case Hex as df2 Hdf2.
    apply select_ok in Hex. destruct Hex as [Hc _].
    apply filter_ok in Hdu. destruct Hdu as [Hcu _].
    cbn [DF.drop columns]. rewrite Hcu, Hc. reflexivity.
  - cbn [run_branch] in H.
    bind_case H as df_ex Hex. bind_case H as dv Hdv. inversion H; subst; clear H.
    unfold explode_history in Hex. bind_case Hex as df2 Hdf2.
    apply select_ok in Hex. destruct Hex as [Hc _].
    apply filter_ok in Hdv. destruct Hdv as [Hcv _].
    rewrite Hcv, Hc. reflexivity.
  - pose proof (tns_key_differs args df out k) as Hk.
    assert (Hc0 : first_token (index_table args) = "tns")
      by (apply (dispatch_literal _ Tns "tns"); [simpl; tauto | exact Hd]).
    rewrite Hc0 in H. specialize (Hk H).
    cbn [run_branch] in H.
    bind_case H as pdf Hpdf. bind_case H as sch Hsch. bind_case H as dfi Hdfi.
    inversion H; subst; clear H Hsch sch.
    bind_case Hdfi as df1 Hdf1. bind_case Hdfi as df2 Hdf2.
    bind_case Hdfi as df3 Hdf3. inversion Hdfi; subst; clear Hdfi.
    apply select_ok in Hdf2. destruct Hdf2 as [Hc _].
    apply filter_ok in Hdf3. destruct Hdf3 as [Hc3 _].
    cbn [DF.drop columns]. rewrite Hc3, Hc.
    apply tns_view_names; [exact Hk | vm_compute; reflexivity].
  - cbn [run_branch] in H.
    bind_case H as df2 Hdf2. inversion H; subst; clear H.
    apply select_key_rows in Hdf2. now destruct Hdf2 as [-> _].
Qed.

(** X11: the columns of the view, kind by kind: the row key and
    [objectId] for the pixel kind, five and seven fixed columns for the
    two exploded kinds, the row key and the common projection for the
    others (the label column of the [tns] kind is gone).  No name occurs
    twice, except when the identifier of a common-projection kind is
    itself the name of a common column. *)
Theorem X11_view_columns (args : Args) (df out : DataFrame) (k : string) :
  build_index E args df = Ok (out, k) ->
  columns out
  = match dispatch (first_token (index_table args)) with
    | Pixel => [index_table args; "objectId"]
    | Upper => ["objectId_jd"; "objectId"; "jd"; "fid"; "diffmaglim"]
    | Uppervalid =>
        ["objectId_jd"; "objectId"; "jd"; "fid"; "magpsf"; "sigmapsf"; "diffmaglim"]
    | _ => index_table args :: common_cols
    end
  /\ (NoDup (columns out) <->
      (In (dispatch (first_token (index_table args)))
          [Class; Ssnamenr; Tracklet; Tns; Default] ->
       ~ In (index_table args) common_cols)).
Proof.
  intros H. pose proof (view_columns args df out k H) as Hc. split; [exact Hc|].
  rewrite Hc. clear Hc.
  destruct (dispatch (first_token (index_table args))) eqn:Hd;
    try (rewrite NoDup_cons_iff; split;
         [ intros [Hnin _] _; exact Hnin
         | intros Hnin; split;
           [apply Hnin; simpl; tauto | apply common_cols_NoDup] ]).
  - (* pixel *)
    split; [intros _ Hin; simpl in Hin; intuition discriminate|].
    intros _. apply dispatch_pixel, prefix_app in Hd. destruct Hd as [n Hn].
    destruct (first_token_spec (index_table args)) as [rest [Hit _]].
    rewrite Hn in Hit. repeat constructor; simpl; [|tauto].
    intros [Heq|[]]. rewrite Hit in Heq. discriminate.
  - split; [intros _ Hin; simpl in Hin; intuition discriminate|].
    intros _. repeat constructor; simpl; intuition discriminate.
  - split; [intros _ Hin; simpl in Hin; intuition discriminate|].
    intros _. repeat constructor; simpl; intuition discriminate.
Qed.

(** ** The exploded history *)

Lemma zip_fields (dets : list value) (row : Row) :
  lookup "magpsf" row = VArr (map (struct_field "magpsf") dets) ->
  lookup "sigmapsf" row = VArr (map (struct_field "sigmapsf") dets) ->
  lookup "diffmaglim" row = VArr (map (struct_field "diffmaglim") dets) ->
  lookup "jd" row = VArr (map (struct_field "jd") dets) ->
  lookup "fid" row = VArr (map (struct_field "fid") dets) ->
  c_eval (F.arrays_zip ["magpsf"; "sigmapsf"; "diffmaglim"; "jd"; "fid"]) row
  = VArr (map (fun det =>
                 VStruct [ ("magpsf", struct_field "magpsf" det);
                           ("sigmapsf", struct_field "sigmapsf" det);
                           ("diffmaglim", struct_field "diffmaglim" det);
                           ("jd", struct_field "jd" det);
                           ("fid", struct_field "fid" det) ]) dets).
Proof.
  intros Hm Hs Hd Hj Hf. cbn [c_eval F.arrays_zip map]. rewrite Hm, Hs, Hd, Hj, Hf.
  cbn [F.as_array F.all_some option_map map fold_right combine fst snd].
  rewrite !length_map, Nat.max_0_r, !Nat.max_id. f_equal.
  apply map_seq_nth. intros i x Hx.
  now rewrite !(nth_map_struct _ dets i x Hx).
Qed.

(** The narrowed row of an alert. *)
Lemma narrowed_row (r : Row) :
  map (fun c => (c_name c, c_eval c r)) history_cols
  = [ ("objectId", lookup "objectId" r);
      ("jd", get_field "jd" (lookup "prv_candidates" r));
      ("fid", get_field "fid" (lookup "prv_candidates" r));
      ("magpsf", get_field "magpsf" (lookup "prv_candidates" r));
      ("sigmapsf", get_field "sigmapsf" (lookup "prv_candidates" r));
      ("diffmaglim", get_field "diffmaglim" (lookup "prv_candidates" r)) ].
Proof. reflexivity. Qed.

(** Exploding a narrowed dataframe never raises. *)
Lemma explode_narrowed (k : string) (rws : list Row) :
  explode_history E k
    {| columns := ["objectId"; "jd"; "fid"; "magpsf"; "sigmapsf"; "diffmaglim"];
       rows := rws |}
  = Ok {| columns := [k; "objectId"; "jd"; "fid"; "magpsf"; "sigmapsf"; "diffmaglim"];
          rows :=
            map (fun r2 =>
                   map (fun c => (c_name c, c_eval c r2))
                       [ rowkey_column E history_key k; F.col "objectId";
                         F.field "tmp" "jd"; F.field "tmp" "fid";
                         F.field "tmp" "magpsf"; F.field "tmp" "sigmapsf";
                         F.field "tmp" "diffmaglim" ])
                (flat_map
                   (fun r1 =>
                      match lookup "tmp" r1 with
                      | VArr l => map (fun e => DF.set_cell "tmp" e r1) l
                      | _ => []
                      end)
                   (map (fun r =>
                           DF.set_cell "tmp"
                             (c_eval (F.arrays_zip
                                        ["magpsf"; "sigmapsf"; "diffmaglim"; "jd"; "fid"]) r)
                             r) rws)) |}.
Proof. reflexivity. Qed.

(** X12: narrowing and exploding give the prior detections back: the
    exploded dataframe of the two history kinds holds, in order, one row
    per entry of [prv_candidates] of every alert, with the entry's five
    fields, the alert's [objectId] and their join as the key; an alert
    whose [prv_candidates] is null or empty contributes no row, and the
    explosion of a narrowed dataframe never raises. *)
Theorem X12_history_round_trip (k : string) (df dfn : DataFrame) :
  DF.select history_cols df = Ok dfn ->
  Forall (fun r => lookup "prv_candidates" r = VNull
                   \/ exists dets, lookup "prv_candidates" r = VArr dets) (rows df) ->
  exists df_ex,
    explode_history E k dfn = Ok df_ex
    /\ rows df_ex
       = flat_map (fun r =>
                     match lookup "prv_candidates" r with
                     | VArr dets => map (detection_row E k r) dets
                     | _ => []
                     end) (rows df).
Proof.
  intros Hsel Hprv. unfold DF.select in Hsel. bind_case Hsel as u Hu.
  inversion Hsel; subst dfn; clear Hsel.
  change (map c_name history_cols)
    with ["objectId"; "jd"; "fid"; "magpsf"; "sigmapsf"; "diffmaglim"].
  rewrite explode_narrowed. eexists. split; [reflexivity|].
  cbn [rows]. rewrite map_map, flat_map_map, map_flat_map.
  apply flat_map_ext_in. eapply Forall_impl; [|exact Hprv]. cbv beta.
  intros r Hr.
  destruct Hr as [Hnull|[dets Hdets]].
  - rewrite Hnull. reflexivity.
  - rewrite Hdets.
    match goal with
    | |- context [DF.set_cell "tmp" (c_eval ?zip ?row0) ?row0] =>
        set (row := row0); pose proof (zip_fields dets row eq_refl eq_refl eq_refl
                                         eq_refl eq_refl) as Hz;
        set (z := c_eval zip row) in *
    end.
    rewrite lookup_set_cell, String.eqb_refl. rewrite Hz at 1. clearbody z.
    rewrite !map_map. apply map_ext. intros det.
    unfold detection_row, row. cbn. rewrite app_nil_r. reflexivity.
Qed.

(** The rows one alert gives to the exploded dataframe. *)
Lemma exploded_of_alert (k : string) (r : Row) :
  lookup "prv_candidates" r = VNull
  \/ (exists dets, lookup "prv_candidates" r = VArr dets) ->
  let narrow := map (fun c => (c_name c, c_eval c r)) history_cols in
  let zipped :=
    DF.set_cell "tmp"
      (c_eval (F.arrays_zip ["magpsf"; "sigmapsf"; "diffmaglim"; "jd"; "fid"]) narrow)
      narrow in
  map (fun r2 =>
         map (fun c => (c_name c, c_eval c r2))
             [ rowkey_column E history_key k; F.col "objectId";
               F.field "tmp" "jd"; F.field "tmp" "fid";
               F.field "tmp" "magpsf"; F.field "tmp" "sigmapsf";
               F.field "tmp" "diffmaglim" ])
      match lookup "tmp" zipped with
      | VArr l => map (fun e => DF.set_cell "tmp" e zipped) l
      | _ => []
      end
  = match lookup "prv_candidates" r with
    | VArr dets => map (detection_row E k r) dets
    | _ => []
    end.
Proof.
  intros Hr narrow zipped. unfold zipped, narrow. clear zipped narrow.
  rewrite narrowed_row.
  destruct Hr as [Hnull|[dets Hdets]].
  - rewrite Hnull. reflexivity.
  - rewrite Hdets.
    match goal with
    | |- context [DF.set_cell "tmp" (c_eval ?zip ?row0) ?row0] =>
        set (row := row0); pose proof (zip_fields dets row eq_refl eq_refl eq_refl
                                         eq_refl eq_refl) as Hz;
        set (z := c_eval zip row) in *
    end.
    rewrite lookup_set_cell, String.eqb_refl. rewrite Hz at 1. clearbody z.
    rewrite !map_map. apply map_ext. intros det.
    unfold detection_row, row. cbn. rewrite app_nil_r. reflexivity.
Qed.

(** The exploded dataframe of a narrowed one, in full. *)
Lemma narrowed_exploded (k : string) (df dfn : DataFrame) :
  DF.select history_cols df = Ok dfn ->
  Forall (fun r => lookup "prv_candidates" r = VNull
                   \/ exists dets, lookup "prv_candidates" r = VArr dets) (rows df) ->
  explode_history E k dfn
  = Ok {| columns := [k; "objectId"; "jd"; "fid"; "magpsf"; "sigmapsf"; "diffmaglim"];
          rows := flat_map (fun r =>
                              match lookup "prv_candidates" r with
                              | VArr dets => map (detection_row E k r) dets
                              | _ => []
                              end) (rows df) |}.
Proof.
  intros Hsel Hprv. unfold DF.select in Hsel. bind_case Hsel as u Hu.
  inversion Hsel; subst dfn; clear Hsel.
  change (map c_name history_cols)
    with ["objectId"; "jd"; "fid"; "magpsf"; "sigmapsf"; "diffmaglim"].
  rewrite explode_narrowed. do 2 f_equal.
  rewrite map_map, flat_map_map, map_flat_map.
  apply flat_map_ext_in. eapply Forall_impl; [|exact Hprv]. cbv beta.
  intros r Hr. exact (exploded_of_alert k r Hr).
Qed.

Lemma filter_exploded (c : Column) (rws : list Row) :
  c_refs c = ["magpsf"] ->
  DF.filter c
    {| columns := ["objectId_jd"; "objectId"; "jd"; "fid"; "magpsf"; "sigmapsf";
                   "diffmaglim"];
       rows := rws |}
  = Ok {| columns := ["objectId_jd"; "objectId"; "jd"; "fid"; "magpsf"; "sigmapsf";
                      "diffmaglim"];
          rows := List.filter (fun r => DF.truth (c_eval c r)) rws |}.
Proof. intros Hc. unfold DF.filter, DF.analyse. cbn [forallb]. rewrite Hc. reflexivity. Qed.

(** X15: on a narrowed dataframe the two history kinds always build
    their views, and these hold the prior detections of the night: the
    [upper] view one row, without the two magnitude cells, per detection
    whose [magpsf] is null, the [uppervalid] view one full row per
    detection whose [magpsf] is not null, in the order of the alerts
    and of their histories. *)
Theorem X15_history_views (args : Args) (df dfn : DataFrame) :
  DF.select history_cols df = Ok dfn ->
  Forall (fun r => lookup "prv_candidates" r = VNull
                   \/ exists dets, lookup "prv_candidates" r = VArr dets) (rows df) ->
  (first_token (index_table args) = "upper" ->
   exists out,
     build_index E args dfn = Ok (out, "objectId_jd")
     /\ rows out
        = flat_map (fun r =>
                      match lookup "prv_candidates" r with
                      | VArr dets =>
                          map (upper_row E "objectId_jd" r)
                              (List.filter
                                 (fun det => is_null (struct_field "magpsf" det)) dets)
                      | _ => []
                      end) (rows df))
  /\ (first_token (index_table args) = "uppervalid" ->
      exists out,
        build_index E args dfn = Ok (out, "objectId_jd")
        /\ rows out
           = flat_map (fun r =>
                         match lookup "prv_candidates" r with
                         | VArr dets =>
                             map (detection_row E "objectId_jd" r)
                                 (List.filter
                                    (fun det =>
                                       negb (is_null (struct_field "magpsf" det))) dets)
                         | _ => []
                         end) (rows df)).
Proof.
  intros Hsel Hprv.
  pose proof (narrowed_exploded "objectId_jd" df dfn Hsel Hprv) as Hex.
  split; intros Hc0; rewrite build_index_branch, Hc0.
  - change (dispatch "upper") with Upper. cbn [run_branch]. rewrite Hex. cbn [bind].
    rewrite filter_exploded by reflexivity. cbn [bind]. eexists. split; [reflexivity|].
    cbn [DF.drop rows]. rewrite filter_flat_map, map_flat_map.
    apply flat_map_ext. intros r.
    destruct (lookup "prv_candidates" r) as [| | | | |dets|]; try reflexivity.
    rewrite filter_of_map, map_map.
    erewrite filter_ext; [apply map_ext; intros det; reflexivity|].
    intros det. cbn. now destruct (is_null (struct_field "magpsf" det)).
  - change (dispatch "uppervalid") with Uppervalid. cbn [run_branch]. rewrite Hex.
    cbn [bind]. rewrite filter_exploded by reflexivity. cbn [bind].
    eexists. split; [reflexivity|].
    cbn [rows]. rewrite filter_flat_map.
    apply flat_map_ext. intros r.
    destruct (lookup "prv_candidates" r) as [| | | | |dets|]; try reflexivity.
    rewrite filter_of_map. f_equal. apply filter_ext.
    intros det. cbn. now destruct (is_null (struct_field "magpsf" det)).
Qed.

(** ** Column families and row counts *)

(** X13: the column families are computed on the dataframe as loaded,
    less its three partition columns and before any restriction, so two
    runs on the same night push the same families whatever their index
    kinds. *)
Theorem X13_column_families (args1 args2 : Args) (p1 p2 : PushCall) :
  main E args1 = Ok p1 ->
  main E args2 = Ok p2 ->
  night args1 = night args2 ->
  agg_data_prefix args1 = agg_data_prefix args2 ->
  push_cf p1 = push_cf p2
  /\ exists df0,
       load_parquet_files E
         (agg_data_prefix args1 ++ "/science/year=" ++ String.substring 0 4 (night args1)
            ++ "/month=" ++ String.substring 4 2 (night args1)
            ++ "/day=" ++ String.substring 6 2 (night args1)) = Ok df0
       /\ push_cf p1
          = assign_column_family_names E
              (DF.drop ["day"] (DF.drop ["month"] (DF.drop ["year"] df0)))
              (fst (fst (load_science_portal_column_names E)))
              (snd (fst (load_science_portal_column_names E)))
              (snd (load_science_portal_column_names E)).
Proof.
  intros H1 H2 Hn Hp. unfold main in H1, H2.
  bind_case H1 as pr1 Hpr1. bind_case H1 as c1 Hc1. bind_case H1 as ix1 Hix1.
  bind_case H2 as pr2 Hpr2. bind_case H2 as c2 Hc2. bind_case H2 as ix2 Hix2.
  inversion H1; subst p1; clear H1. inversion H2; subst p2; clear H2.
  cbn [push_cf]. destruct pr1 as [d1 cf1]. destruct pr2 as [d2 cf2]. cbn [snd].
  destruct (prepare_ok _ _ _ Hpr1) as [df1 [dr1 [Hl1 [_ [_ Hcf1]]]]].
  destruct (prepare_ok _ _ _ Hpr2) as [df2 [dr2 [Hl2 [_ [_ Hcf2]]]]].
  rewrite <- Hn, <- Hp, Hl1 in Hl2. inversion Hl2; subst df2; clear Hl2.
  split; [congruence|]. exists df1. split; [exact Hl1 | exact Hcf1].
Qed.

(** X14: outside the two exploded kinds a view never holds more rows
    than the dataframe it is built from, and the pixel, classification
    and default kinds hold exactly one row per record. *)
Theorem X14_row_counts (args : Args) (df out : DataFrame) (k : string) :
  build_index E args df = Ok (out, k) ->
  ~ In (dispatch (first_token (index_table args))) [Upper; Uppervalid] ->
  List.length (rows out) <= List.length (rows df)
  /\ (In (dispatch (first_token (index_table args))) [Pixel; Class; Default] ->
      List.length (rows out) = List.length (rows df)).
Proof.
  intros H Hb. rewrite build_index_branch in H.
  destruct (dispatch (first_token (index_table args))) eqn:Hd;
    try (exfalso; apply Hb; simpl; tauto); clear Hb; cbn [run_branch] in H.
  - (* pixel *)
    bind_case H as df1 Hdf1. bind_case H as df2 Hdf2. inversion H; subst; clear H.
    unfold pixel_rows in Hdf1. bind_case Hdf1 as dg Hdg. bind_case Hdf1 as ns Hns.
    bind_case Hdf1 as ra Hra. bind_case Hdf1 as dec Hdec.
    bind_case Hdf1 as level Hlevel.
    apply withColumn_ok in Hdf1. destruct Hdf1 as [_ Hr1].
    apply select_ok in Hdf2. destruct Hdf2 as [_ Hr2].
    rewrite Hr2, Hr1, !length_map. split; [lia | reflexivity].
  - (* class *)
    bind_case H as df1 Hdf1. bind_case H as df2 Hdf2. inversion H; subst; clear H.
    apply withColumn_ok in Hdf1. destruct Hdf1 as [_ Hr1].
    apply select_ok in Hdf2. destruct Hdf2 as [_ Hr2].
    rewrite Hr2, Hr1, !length_map. split; [lia | reflexivity].
  - (* ssnamenr *)
    bind_case H as df1 Hdf1. bind_case H as df2 Hdf2. inversion H; subst; clear H.
    apply filter_ok in Hdf1. destruct Hdf1 as [_ Hr1].
    apply select_ok in Hdf2. destruct Hdf2 as [_ Hr2].
    rewrite Hr2, Hr1, length_map.
    split; [apply filter_shorter | intros Hin; simpl in Hin; intuition discriminate].
  - (* tracklet *)
    bind_case H as df1 Hdf1. bind_case H as df2 Hdf2. inversion H; subst; clear H.
    unfold tracklet_rows in Hdf1. bind_case Hdf1 as dfa Hdfa.
    apply filter_ok in Hdf1, Hdfa. destruct Hdf1 as [_ Hr1]. destruct Hdfa as [_ Hra].
    apply select_ok in Hdf2. destruct Hdf2 as [_ Hr2].
    rewrite Hr2, Hr1, Hra, length_map.
    split; [|intros Hin; simpl in Hin; intuition discriminate].
    etransitivity; [apply filter_shorter | apply filter_shorter].
  - (* tns *)
    bind_case H as pdf Hpdf. bind_case H as sch Hsch. bind_case H as dfi Hdfi.
    inversion H; subst; clear H Hsch sch.
    bind_case Hdfi as df1 Hdf1. bind_case Hdfi as df2 Hdf2.
    bind_case Hdfi as df3 Hdf3. inversion Hdfi; subst; clear Hdfi.
    unfold tns_labels in Hdf1.
    apply withColumn_pandas_udf_ok in Hdf1. destruct Hdf1 as [outs [_ [Hfst Hr1]]].
    apply select_ok in Hdf2. destruct Hdf2 as [_ Hr2].
    apply filter_ok in Hdf3. destruct Hdf3 as [_ Hr3].
    cbn [DF.drop rows]. rewrite length_map, Hr3.
    split; [|intros Hin; simpl in Hin; intuition discriminate].
    etransitivity; [apply filter_shorter|].
    rewrite Hr2, Hr1, !length_map, <- Hfst, length_map. lia.
  - (* default *)
    bind_case H as df2 Hdf2. inversion H; subst; clear H.
    apply select_ok in Hdf2. destruct Hdf2 as [_ Hr2].
    rewrite Hr2, length_map. split; [lia | reflexivity].
Qed.

End MoreProperties.

(** ** Runs for the further properties *)

Lemma X2_witness :
  main (with_loader Runs.E (fun _ => Ok Runs.df)) (Demo.args_for "objectId_jd")
  = main (with_loader Runs.E Runs.strict_loader) (Demo.args_for "objectId_jd").
Proof.
  pose proof (X2_night_path Runs.E (Demo.args_for "objectId_jd") "2021" "10" "12"
                (fun _ => Ok Runs.df) Runs.strict_loader
                eq_refl eq_refl eq_refl eq_refl) as H.
  cbv zeta in H. apply (proj1 H). reflexivity.
Defined.


Lemma X4_witness :
  exists df1,
    pixel_rows Runs.E "pixel128" Runs.df = Ok df1
    /\ map (lookup "pixel128") (rows df1) = [VLong 64270; VNull; VNull].
Proof.
  assert (Hd : Decimal.D1 (Decimal.D2 (Decimal.D8 Decimal.Nil)) <> Decimal.Nil)
    by discriminate.
  pose proof (X4_pixel_resolution Runs.E _ Runs.df Hd eq_refl eq_refl eq_refl eq_refl)
    as H.
  eexists. split; [exact H | reflexivity].
Defined.

Lemma X5_witness :
  build_index Runs.E (Demo.args_for "class_jd") Runs.narrowed
  = Raise AnalysisException.
Proof.
  apply (X5_missing_common_column Runs.E (Demo.args_for "class_jd") Runs.narrowed
           "candid").
  - simpl. tauto.
  - simpl. tauto.
  - reflexivity.
  - vm_compute. discriminate.
Defined.

Lemma X6_witness :
  exists e, main Runs.E (Demo.args_for "class_upper") = Raise e.
Proof.
  assert (H : forall p, main Runs.E (Demo.args_for "class_upper") <> Ok p).
  { apply (X6_upper_inside_other_kind Runs.E (Demo.args_for "class_upper")).
    - reflexivity.
    - simpl. tauto.
    - intros d d' Ha. inversion Ha. subst. auto. }
  destruct (main Runs.E (Demo.args_for "class_upper")) as [p|e].
  - exfalso. now apply (H p).
  - now exists e.
Defined.



Lemma X9_witness :
  exists rest, "tns_jd_objectId" = ("tns_" ++ rest)%string.
Proof.
  assert (H : build_index Runs.E (Demo.args_for "tns_jd_objectId") Runs.df
              = Ok (Demo.tns_view, "tns_jd_objectId")) by (vm_compute; reflexivity).
  exact (X9_tns_needs_second_token Runs.E (Demo.args_for "tns_jd_objectId")
           _ _ _ eq_refl H).
Defined.

Lemma X10_witness :
  crossmatch_with_tns Runs.E Runs.typed_catalogue Runs.batch_ids Runs.batch_ra
    Runs.batch_dec = Ok [VStr "SN Ia"; VStr ""; VStr ""]
  /\ exists m,
       match_to_catalog_sky Runs.E (combine Runs.batch_ra Runs.batch_dec)
         (combine (map tns_ra Runs.typed_catalogue)
                  (map tns_declination Runs.typed_catalogue)) = Ok m
       /\ List.length m = List.length Runs.batch_ids
       /\ Forall2 (fun (p : nat * float) (t : value) =>
                     if (snd p <? 1.5 / 3600)%float
                     then exists e, nth_error Runs.typed_catalogue (fst p) = Some e
                                    /\ t = label (tns_type e)
                     else t = VStr EmptyString)
                  m [VStr "SN Ia"; VStr ""; VStr ""].
Proof.
  assert (H : crossmatch_with_tns Runs.E Runs.typed_catalogue Runs.batch_ids
                Runs.batch_ra Runs.batch_dec = Ok [VStr "SN Ia"; VStr ""; VStr ""])
    by (vm_compute; reflexivity).
  split; [exact H|].
  apply (X10_crossmatch_distinct_ids Runs.E _ _ _ _ _ H).
  - vm_compute. repeat constructor; simpl; intuition discriminate.
  - vm_compute. repeat constructor; eexists; reflexivity.
Defined.

Lemma X11_witness :
  columns Demo.tns_view = "tns_jd_objectId" :: common_cols
  /\ NoDup (columns Demo.tns_view).
Proof.
  assert (H : build_index Runs.E (Demo.args_for "tns_jd_objectId") Runs.df
              = Ok (Demo.tns_view, "tns_jd_objectId")) by (vm_compute; reflexivity).
  destruct (X11_view_columns Runs.E _ _ _ _ H) as [Hc Hnd].
  split; [exact Hc|]. apply Hnd. intros _ Hin. vm_compute in Hin.
  repeat match goal with
         | H : _ \/ _ |- _ => destruct H
         | H : False |- _ => destruct H
         end; discriminate.
Defined.

Lemma X12_witness :
  DF.select history_cols Runs.df = Ok Runs.narrowed
  /\ exists df_ex,
       explode_history Runs.E "objectId_jd" Runs.narrowed = Ok df_ex
       /\ rows df_ex
          = flat_map (fun r =>
                        match lookup "prv_candidates" r with
                        | VArr dets => map (detection_row Runs.E "objectId_jd" r) dets
                        | _ => []
                        end) Demo.night.
Proof.
  assert (H : DF.select history_cols Runs.df = Ok Runs.narrowed)
    by (vm_compute; reflexivity).
  split; [exact H|].
  apply (X12_history_round_trip Runs.E "objectId_jd" Runs.df Runs.narrowed H).
  unfold Runs.df, Demo.night_of, Demo.night. cbn [rows].
  constructor; [right; eexists; reflexivity|].
  constructor; [left; reflexivity|].
  constructor; [left; reflexivity|].
  constructor.
Defined.

Lemma X13_witness :
  main Runs.E (Demo.args_for "objectId_jd") = Ok Runs.default_push
  /\ main Runs.E (Demo.args_for "upper_objectId_jd") = Ok Demo.upper_push
  /\ push_cf Runs.default_push = push_cf Demo.upper_push.
Proof.
  assert (H1 : main Runs.E (Demo.args_for "objectId_jd") = Ok Runs.default_push)
    by (vm_compute; reflexivity).
  assert (H2 : main Runs.E (Demo.args_for "upper_objectId_jd") = Ok Demo.upper_push)
    by (vm_compute; reflexivity).
  split; [exact H1|]. split; [exact H2|].
  exact (proj1 (X13_column_families Runs.E _ _ _ _ H1 H2 eq_refl eq_refl)).
Defined.

Lemma X14_witness :
  List.length (rows Demo.tracklet_view) <= List.length (rows Runs.df)
  /\ List.length (rows Demo.class_view) = List.length (rows Runs.df).
Proof.
  assert (Ht : build_index Runs.E (Demo.args_for "tracklet_objectId") Runs.df
               = Ok (Demo.tracklet_view, "tracklet_objectId"))
    by (vm_compute; reflexivity).
  assert (Hc : build_index Runs.E (Demo.args_for "class_jd_objectId") Runs.df
               = Ok (Demo.class_view, "class_jd_objectId"))
    by (vm_compute; reflexivity).
  split.
  - apply (X14_row_counts Runs.E _ _ _ _ Ht). simpl. intuition discriminate.
  - apply (X14_row_counts Runs.E _ _ _ _ Hc); simpl; [intuition discriminate | tauto].
Defined.

Lemma X15_witness :
  exists out,
    build_index Runs.E (Demo.args_for "upper_objectId_jd") Runs.narrowed
    = Ok (out, "objectId_jd")
    /\ map (lookup "objectId_jd") (rows out) = [VStr "ZTF21aaa_2459000.5"]
    /\ map (lookup "magpsf") (rows out) = [VNull].
Proof.
  assert (H : DF.select history_cols Runs.df = Ok Runs.narrowed)
    by (vm_compute; reflexivity).
  assert (HF : Forall (fun r => lookup "prv_candidates" r = VNull
                                \/ exists dets, lookup "prv_candidates" r = VArr dets)
                      (rows Runs.df)).
  { unfold Runs.df, Demo.night_of, Demo.night. cbn [rows].
    constructor; [right; eexists; reflexivity|].
    constructor; [left; reflexivity|].
    constructor; [left; reflexivity|].
    constructor. }
  destruct (proj1 (X15_history_views Runs.E (Demo.args_for "upper_objectId_jd")
                     Runs.df Runs.narrowed H HF) eq_refl) as [out [Hb Hr]].
  exists out. split; [exact Hb|]. rewrite Hr. split; vm_compute; reflexivity.
Defined.
